(** * The multi-transaction log manager (multixact.c)

    A shallow embedding of src/backend/access/transam/multixact.c: the
    OFFSETs and MEMBERs logs, the allocator, the backend-local cache, the
    create / expand / resolve entry points, the per-backend horizons,
    two-phase commit support, start-up, truncation and WAL replay, followed
    by the properties of the specification that concern them and by further
    properties of the code.

    Conventions.
    - C unsigned 64-bit values are [Z] with the wrap-around written out
      ([uint64]); [int] values are [Z] with [int32].
    - A (pointer, count) pair of members is a [list MultiXactMember]: the
      fields of the array elements.  Where the code works on the bytes of
      the array (qsort, memcpy, memcmp in the cache) each element carries
      its padding bytes as well ([MultiXactMemberBytes]); the padding of an
      array that was filled field by field is taken from the
      [uninitialised] memory of the world.
    - The code runs in one backend; LWLock acquire/release pairs guard
      shared memory against other backends and have no effect on a serial
      run, so they are omitted.  Assert/AssertArg are compiled out of
      production builds and are omitted as well.
    - Functions that can elog(ERROR) live in the monad [M]; its third
      outcome, [Spin], is the retry loop of GetMultiXactIdMembers waiting
      for another backend; the loop ends when that backend writes or when
      CHECK_FOR_INTERRUPTS finds a pending interrupt, neither of which a
      serial run brings about. *)

From Stdlib Require Import ZArith Lia Bool.
From stdpp Require Import base decidable option list sorting gmap.
From coqutil Require Import Z.bitblast.

Local Open Scope Z_scope.

(** ** Machine integers *)

Definition uint64 (z : Z) : Z := z mod 2 ^ 64.
Definition uint32 (z : Z) : Z := z mod 2 ^ 32.

(** Conversion to a C [int] (two's complement truncation). *)
Definition int32 (z : Z) : Z :=
  let r := z mod 2 ^ 32 in if r <? 2 ^ 31 then r else r - 2 ^ 32.

(** ** Page layout (multixact.c, lines 95-169) *)

Module Layout.

(** BLCKSZ is fixed by the build; the layout comment of multixact.c is
    written for the 8kB block. *)
Definition BLCKSZ : Z := 8192.

(** Modelled from the spec: "segment boundaries at a fixed page count per
    segment"; slru.h, outside these sources, sets the count, 32 in
    PostgreSQL.  No property below depends on the value. *)
Definition SLRU_PAGES_PER_SEGMENT : Z := 32.

(** The typedef of TransactionId lives in c.h, which is not part of these
    sources: [AnyWidth] below states the member macros with its size as a
    parameter.  The functions of this file run on the layout multixact.c
    documents at lines 117-130, "eight bytes of flags, and then the
    corresponding 8 Xids", a "9-word (72-byte) set", 113 of which fit an 8kB
    page with 56 bytes wasted; that is the layout of an 8-byte TransactionId
    and of no other ([documented_group_fixes_xid_width]). *)
Definition sizeof_TransactionId : Z := 8.

(** MultiXactOffset values are printed with INT64_FORMAT in
    TruncateMultiXact: the type is 64 bits wide. *)
Definition sizeof_MultiXactOffset : Z := 8.

Definition MULTIXACT_OFFSETS_PER_PAGE : Z := BLCKSZ / sizeof_MultiXactOffset.

Definition MultiXactIdToOffsetPage (xid : Z) : Z := xid / MULTIXACT_OFFSETS_PER_PAGE.
Definition MultiXactIdToOffsetEntry (xid : Z) : Z := xid mod MULTIXACT_OFFSETS_PER_PAGE.
Definition MultiXactIdToOffsetSegment (xid : Z) : Z :=
  MultiXactIdToOffsetPage xid / SLRU_PAGES_PER_SEGMENT.

Definition MXACT_MEMBER_BITS_PER_XACT : Z := 8.
Definition MXACT_MEMBER_FLAGS_PER_BYTE : Z := 1.
Definition MXACT_MEMBER_XACT_BITMASK : Z :=
  Z.shiftl 1 MXACT_MEMBER_BITS_PER_XACT - 1.

Definition MULTIXACT_FLAGBYTES_PER_GROUP : Z := 8.
Definition MULTIXACT_MEMBERS_PER_MEMBERGROUP : Z :=
  MULTIXACT_FLAGBYTES_PER_GROUP * MXACT_MEMBER_FLAGS_PER_BYTE.
Definition MULTIXACT_MEMBERGROUP_SIZE : Z :=
  sizeof_TransactionId * MULTIXACT_MEMBERS_PER_MEMBERGROUP
  + MULTIXACT_FLAGBYTES_PER_GROUP.
Definition MULTIXACT_MEMBERGROUPS_PER_PAGE : Z := BLCKSZ / MULTIXACT_MEMBERGROUP_SIZE.
Definition MULTIXACT_MEMBERS_PER_PAGE : Z :=
  MULTIXACT_MEMBERGROUPS_PER_PAGE * MULTIXACT_MEMBERS_PER_MEMBERGROUP.

Definition MXOffsetToMemberPage (xid : Z) : Z := xid / MULTIXACT_MEMBERS_PER_PAGE.
Definition MXOffsetToMemberSegment (xid : Z) : Z :=
  MXOffsetToMemberPage xid / SLRU_PAGES_PER_SEGMENT.

Definition MXOffsetToFlagsOffset (xid : Z) : Z :=
  ((xid / MULTIXACT_MEMBERS_PER_MEMBERGROUP) mod MULTIXACT_MEMBERGROUPS_PER_PAGE)
  * MULTIXACT_MEMBERGROUP_SIZE.
Definition MXOffsetToFlagsBitShift (xid : Z) : Z :=
  (xid mod MULTIXACT_MEMBERS_PER_MEMBERGROUP) * MXACT_MEMBER_BITS_PER_XACT.
Definition MXOffsetToMemberOffset (xid : Z) : Z :=
  MXOffsetToFlagsOffset xid + MULTIXACT_FLAGBYTES_PER_GROUP
  + (xid mod MULTIXACT_MEMBERS_PER_MEMBERGROUP) * sizeof_TransactionId.

(** Bytes a member costs on disk: its share of the group. *)
Definition bytes_per_member : Z :=
  MULTIXACT_MEMBERGROUP_SIZE / MULTIXACT_MEMBERS_PER_MEMBERGROUP.

End Layout.
Export Layout.

(** ** The member group for any width of TransactionId

    The macros of lines 131-161 that mention sizeof(TransactionId), with
    that size as a parameter: what they lay out whatever the type is. *)

Module AnyWidth.
Section TransactionId.

Variable sizeof_TransactionId : Z.     (* c.h, outside these sources *)

Definition MULTIXACT_MEMBERGROUP_SIZE : Z :=
  sizeof_TransactionId * MULTIXACT_MEMBERS_PER_MEMBERGROUP
  + MULTIXACT_FLAGBYTES_PER_GROUP.
Definition MULTIXACT_MEMBERGROUPS_PER_PAGE : Z := BLCKSZ / MULTIXACT_MEMBERGROUP_SIZE.
Definition MULTIXACT_MEMBERS_PER_PAGE : Z :=
  MULTIXACT_MEMBERGROUPS_PER_PAGE * MULTIXACT_MEMBERS_PER_MEMBERGROUP.

Definition MXOffsetToMemberPage (xid : Z) : Z := xid / MULTIXACT_MEMBERS_PER_PAGE.

Definition MXOffsetToFlagsOffset (xid : Z) : Z :=
  ((xid / MULTIXACT_MEMBERS_PER_MEMBERGROUP) mod MULTIXACT_MEMBERGROUPS_PER_PAGE)
  * MULTIXACT_MEMBERGROUP_SIZE.
Definition MXOffsetToMemberOffset (xid : Z) : Z :=
  MXOffsetToFlagsOffset xid + MULTIXACT_FLAGBYTES_PER_GROUP
  + (xid mod MULTIXACT_MEMBERS_PER_MEMBERGROUP) * sizeof_TransactionId.

(** Bytes a member costs on disk: its share of the group. *)
Definition bytes_per_member : Z :=
  MULTIXACT_MEMBERGROUP_SIZE / MULTIXACT_MEMBERS_PER_MEMBERGROUP.

End TransactionId.
End AnyWidth.

(** ** Identifiers (access/multixact.h, access/transam.h) *)

Definition InvalidTransactionId : Z := 0.
Definition TransactionIdIsValid (xid : Z) : bool := negb (xid =? InvalidTransactionId).
Definition TransactionIdEquals (id1 id2 : Z) : bool := id1 =? id2.

Definition InvalidMultiXactId : Z := 0.
Definition FirstMultiXactId : Z := 1.
Definition MultiXactIdIsValid (multi : Z) : bool := negb (multi =? InvalidMultiXactId).

(** typedef struct MultiXactMember { TransactionId xid; MultiXactStatus status; } *)
Record MultiXactMember : Type := mkMember { xid : Z; status : Z }.

Global Instance MultiXactMember_eq_dec : EqDecision MultiXactMember.
Proof. solve_decision. Defined.

(** An element of a MultiXactMember array as it lies in memory: the two
    fields, and the bytes of the struct that belong to neither, read as one
    number.  With an 8-byte xid and a 4-byte status the 16-byte struct ends
    in four such bytes; a struct without padding has the number 0 there.
    The code sets arrays field by field (lines 370-373, 439-440, 486-492,
    1221-1222), which leaves these bytes as the stack or palloc handed them
    over; memcpy, qsort and memcmp move and compare them with the fields. *)
Abbreviation MultiXactMemberBytes := (MultiXactMember * Z)%type.

(** ** The paged logs (access/slru.h)

    slru.c is not part of these sources.  A log is kept as the finite map of
    the pages that exist (shared buffers and segment files seen as one
    store); a page is the finite map of the 8-byte words written to it,
    keyed by entry number (OFFSETs) or by byte offset within the page
    (MEMBERs), an absent key being a zero word. *)

Record SlruCtlData : Type := mkSlru {
  page_buffer : gmap Z (gmap Z Z);
  latest_page_number : Z
}.

Definition page_word (pg : gmap Z Z) (k : Z) : Z := default 0 (pg !! k).

(** ** Shared state (multixact.c, lines 187-266) *)

Record MultiXactStateData : Type := mkState {
  nextMXact : Z;
  nextOffset : Z;
  finishedStartup : bool;
  oldestMultiXactId : Z;
  oldestMultiXactDB : Z;
  multiVacLimit : Z;
  (* perBackendXactIds[], split as the two array pointers split it *)
  OldestMemberMXactId : gmap Z Z;
  OldestVisibleMXactId : gmap Z Z
}.

(** A slot of a per-backend array; shared memory is zeroed at creation. *)
Definition slot (a : gmap Z Z) (i : Z) : Z := default InvalidMultiXactId (a !! i).

(** ** The backend-local cache (multixact.c, lines 269-297) *)

Record mXactCacheEnt : Type := mkEnt {
  entry_multi : Z;
  entry_nmembers : Z;
  entry_members : list MultiXactMemberBytes
}.

Definition MAX_CACHE_ENTRIES : Z := 256.

(** ** Write-ahead log records of the MULTIXACT resource manager *)

Inductive xl_multixact : Type :=
| XLOG_MULTIXACT_ZERO_OFF_PAGE (pageno : Z)
| XLOG_MULTIXACT_ZERO_MEM_PAGE (pageno : Z)
| XLOG_MULTIXACT_CREATE_ID (mid moff nmembers : Z) (members : list MultiXactMember)
| XLOG_MULTIXACT_TRUNCATE_ID
    (oldestMultiDB startTruncOff endTruncOff startTruncMemb endTruncMemb : Z).

(** ereport(LOG, ...) lines of TruncateMultiXact. *)
Inductive log_line : Type :=
| LOG_oldest_not_found (oldestMulti earliest : Z)
| LOG_cannot_truncate_up_to (newOldestMulti : Z).

(** elog(ERROR, ...) exits. *)
Inductive elog_error : Type :=
| ERROR_more_than_one_updating_member
| ERROR_cannot_assign_during_recovery
| ERROR_slru_io (offsets_log : bool) (pageno : Z)
| ERROR_invalid_memory_alloc_request_size.

(** ** Everything one backend can observe or change *)

Record world : Type := mkWorld {
  MultiXactState : MultiXactStateData;
  MultiXactOffsetCtl : SlruCtlData;
  MultiXactMemberCtl : SlruCtlData;
  MXactCache : list mXactCacheEnt;       (* head of the dlist first *)
  MXactCacheMembers : Z;
  xlog : list xl_multixact;              (* oldest record first *)
  autovac_signals : list Z;              (* PMSIGNAL_START_AUTOVAC_LAUNCHER, with the id that sent it *)
  serverlog : list log_line;
  CritSectionCount : Z;
  delayChkpt : bool;
  InRecovery : bool;                     (* RecoveryInProgress() *)
  uninitialised : list Z                 (* padding of the array elements handed out next *)
}.

Definition set_MultiXactState (f : MultiXactStateData → MultiXactStateData) (w : world) : world :=
  mkWorld (f (MultiXactState w)) (MultiXactOffsetCtl w) (MultiXactMemberCtl w)
    (MXactCache w) (MXactCacheMembers w) (xlog w) (autovac_signals w) (serverlog w)
    (CritSectionCount w) (delayChkpt w) (InRecovery w) (uninitialised w).
Definition set_MultiXactOffsetCtl (f : SlruCtlData → SlruCtlData) (w : world) : world :=
  mkWorld (MultiXactState w) (f (MultiXactOffsetCtl w)) (MultiXactMemberCtl w)
    (MXactCache w) (MXactCacheMembers w) (xlog w) (autovac_signals w) (serverlog w)
    (CritSectionCount w) (delayChkpt w) (InRecovery w) (uninitialised w).
Definition set_MultiXactMemberCtl (f : SlruCtlData → SlruCtlData) (w : world) : world :=
  mkWorld (MultiXactState w) (MultiXactOffsetCtl w) (f (MultiXactMemberCtl w))
    (MXactCache w) (MXactCacheMembers w) (xlog w) (autovac_signals w) (serverlog w)
    (CritSectionCount w) (delayChkpt w) (InRecovery w) (uninitialised w).
Definition set_cache (c : list mXactCacheEnt) (n : Z) (w : world) : world :=
  mkWorld (MultiXactState w) (MultiXactOffsetCtl w) (MultiXactMemberCtl w)
    c n (xlog w) (autovac_signals w) (serverlog w)
    (CritSectionCount w) (delayChkpt w) (InRecovery w) (uninitialised w).
Definition XLogInsert (r : xl_multixact) (w : world) : world :=
  mkWorld (MultiXactState w) (MultiXactOffsetCtl w) (MultiXactMemberCtl w)
    (MXactCache w) (MXactCacheMembers w) (xlog w ++ [r]) (autovac_signals w) (serverlog w)
    (CritSectionCount w) (delayChkpt w) (InRecovery w) (uninitialised w).
Definition SendPostmasterSignal (id : Z) (w : world) : world :=
  mkWorld (MultiXactState w) (MultiXactOffsetCtl w) (MultiXactMemberCtl w)
    (MXactCache w) (MXactCacheMembers w) (xlog w) (autovac_signals w ++ [id]) (serverlog w)
    (CritSectionCount w) (delayChkpt w) (InRecovery w) (uninitialised w).
Definition ereport_LOG (l : log_line) (w : world) : world :=
  mkWorld (MultiXactState w) (MultiXactOffsetCtl w) (MultiXactMemberCtl w)
    (MXactCache w) (MXactCacheMembers w) (xlog w) (autovac_signals w) (serverlog w ++ [l])
    (CritSectionCount w) (delayChkpt w) (InRecovery w) (uninitialised w).
Definition set_CritSectionCount (f : Z → Z) (w : world) : world :=
  mkWorld (MultiXactState w) (MultiXactOffsetCtl w) (MultiXactMemberCtl w)
    (MXactCache w) (MXactCacheMembers w) (xlog w) (autovac_signals w) (serverlog w)
    (f (CritSectionCount w)) (delayChkpt w) (InRecovery w) (uninitialised w).
Definition set_delayChkpt (b : bool) (w : world) : world :=
  mkWorld (MultiXactState w) (MultiXactOffsetCtl w) (MultiXactMemberCtl w)
    (MXactCache w) (MXactCacheMembers w) (xlog w) (autovac_signals w) (serverlog w)
    (CritSectionCount w) b (InRecovery w) (uninitialised w).

Definition set_uninitialised (l : list Z) (w : world) : world :=
  mkWorld (MultiXactState w) (MultiXactOffsetCtl w) (MultiXactMemberCtl w)
    (MXactCache w) (MXactCacheMembers w) (xlog w) (autovac_signals w) (serverlog w)
    (CritSectionCount w) (delayChkpt w) (InRecovery w) l.

Definition START_CRIT_SECTION : world → world := set_CritSectionCount (λ n, n + 1).
Definition END_CRIT_SECTION : world → world := set_CritSectionCount (λ n, n - 1).

Definition set_nextMXact (v : Z) (s : MultiXactStateData) : MultiXactStateData :=
  mkState v (nextOffset s) (finishedStartup s) (oldestMultiXactId s)
    (oldestMultiXactDB s) (multiVacLimit s) (OldestMemberMXactId s) (OldestVisibleMXactId s).
Definition set_nextOffset (v : Z) (s : MultiXactStateData) : MultiXactStateData :=
  mkState (nextMXact s) v (finishedStartup s) (oldestMultiXactId s)
    (oldestMultiXactDB s) (multiVacLimit s) (OldestMemberMXactId s) (OldestVisibleMXactId s).
Definition set_oldestMultiXact (v db : Z) (s : MultiXactStateData) : MultiXactStateData :=
  mkState (nextMXact s) (nextOffset s) (finishedStartup s) v db
    (multiVacLimit s) (OldestMemberMXactId s) (OldestVisibleMXactId s).
Definition set_OldestVisibleMXactId (i v : Z) (s : MultiXactStateData) : MultiXactStateData :=
  mkState (nextMXact s) (nextOffset s) (finishedStartup s) (oldestMultiXactId s)
    (oldestMultiXactDB s) (multiVacLimit s) (OldestMemberMXactId s)
    (<[i := v]> (OldestVisibleMXactId s)).

(** ** The monad of backend code: state, elog(ERROR), and the one loop
    that can wait for another backend *)

Inductive outcome (A : Type) : Type :=
| Done (a : A) (w : world)
| Raise (e : elog_error)
| Spin.   (* waits at "goto retry" for another backend's write or an interrupt *)
Arguments Done {A} a w.
Arguments Raise {A} e.
Arguments Spin {A}.

Definition M (A : Type) : Type := world → outcome A.

Definition ret {A} (a : A) : M A := λ w, Done a w.
Definition bind {A B} (m : M A) (k : A → M B) : M B :=
  λ w, match m w with
       | Done a w' => k a w'
       | Raise e => Raise e
       | Spin => Spin
       end.
Definition elog_ERROR {A} (e : elog_error) : M A := λ _, Raise e.
Definition gets {A} (f : world → A) : M A := λ w, Done (f w) w.
Definition modify (f : world → world) : M unit := λ w, Done tt (f w).

(** The padding bytes of [n] array elements nobody has written yet: a stack
    array on entry to its function, an array a caller filled in, or the
    chunk palloc returns.  They are whatever that memory held; the world
    carries them as a stream, read as zero once the stream is spent. *)
Definition uninitialised_padding (n : nat) : M (list Z) :=
  λ w, Done (take n (uninitialised w ++ replicate n 0))
            (set_uninitialised (drop n (uninitialised w)) w).

(** palloc(nelems * sizeof(MultiXactMember)) with an [int] nelems; mcxt.c
    is outside these sources.  The product is a size_t, so a negative count
    arrives as a request of 2^63 bytes or more, which palloc refuses with
    elog(ERROR, "invalid memory alloc request size").  Running out of
    memory is left out, as it is for every allocation of this file, and
    with it the limit on one request that utils/memutils.h sets.  The chunk
    comes back unwritten. *)
Definition palloc_MultiXactMember (nelems : Z) : M (list Z) :=
  if nelems <? 0 then elog_ERROR ERROR_invalid_memory_alloc_request_size
  else uninitialised_padding (Z.to_nat nelems).

Notation "'let!' x ':=' m 'in' k" := (bind m (λ x, k))
  (at level 10, x pattern, m at level 100, k at level 200).
Notation "m ';;;' k" := (bind m (λ _, k))
  (at level 100, k at level 200, right associativity).

(** ** The cache (multixact.c, lines 1238-1408) *)

Definition mxactMemberComparator (member1 member2 : MultiXactMember) : Z :=
  if xid member2 <? xid member1 then 1
  else if xid member1 <? xid member2 then -1
  else if status member2 <? status member1 then 1
  else if status member1 <? status member2 then -1
  else 0.

(** The order qsort is asked to establish. *)
Definition member_le (a b : MultiXactMember) : Prop := mxactMemberComparator a b ≤ 0.

Global Instance member_le_dec : RelDecision member_le.
Proof. intros a b. unfold member_le. apply _. Defined.

(** qsort(members, nmembers, sizeof(MultiXactMember), mxactMemberComparator).
    The comparator returns 0 only on equal members, so every sorting
    algorithm produces the same array; merge sort stands for libc's. *)
Definition qsort (members : list MultiXactMember) : list MultiXactMember :=
  merge_sort member_le members.

(** dlist_foreach up to the first entry the test accepts: the entries
    before it, the entry, the entries after it. *)
Fixpoint dlist_search {A} (test : A → bool) (l : list A) : option (list A * A * list A) :=
  match l with
  | [] => None
  | x :: l' =>
      if test x then Some ([], x, l')
      else match dlist_search test l' with
           | Some (pre, y, suf) => Some (x :: pre, y, suf)
           | None => None
           end
  end.

(** The same qsort call seen on the array in memory: whole structs move,
    and the comparator reads their fields only.  Two elements with the same
    fields compare equal whatever their padding, and where qsort leaves them
    is up to the C library; merge sort keeps them in the order they came.
    The fields of the sorted array do not depend on that. *)
Definition member_bytes_le (a b : MultiXactMemberBytes) : Prop := member_le a.1 b.1.

Global Instance member_bytes_le_dec : RelDecision member_bytes_le.
Proof. intros a b. unfold member_bytes_le. apply _. Defined.

Definition qsort_in_memory (members : list MultiXactMemberBytes) : list MultiXactMemberBytes :=
  merge_sort member_bytes_le members.

(** memcmp(members, entry->members, nmembers * sizeof(MultiXactMember)) == 0:
    every byte of the first [nmembers] structs, the padding included.  The
    comment at the call assumes "the unused bits" are zeroed; nothing in
    this file zeroes them. *)
Definition memcmp_eq (nmembers : Z) (a b : list MultiXactMemberBytes) : bool :=
  bool_decide (take (Z.to_nat nmembers) a = take (Z.to_nat nmembers) b).

(** Returns the array as sorted in place together with the id found, or
    InvalidMultiXactId. *)
Definition mXactCacheGetBySet (nmembers : Z) (members : list MultiXactMemberBytes)
  : M (list MultiXactMemberBytes * Z) :=
  λ w,
    let members := qsort_in_memory members in
    match dlist_search
            (λ entry, (entry_nmembers entry =? nmembers)
                      && memcmp_eq nmembers members (entry_members entry))
            (MXactCache w) with
    | Some (pre, entry, suf) =>
        (* dlist_move_head *)
        Done (members, entry_multi entry)
             (set_cache (entry :: pre ++ suf) (MXactCacheMembers w) w)
    | None => Done (members, InvalidMultiXactId) w
    end.

(** Returns the number of members and a copy of them, or -1.  The copy is
    a memcpy of the entry; callers read its fields. *)
Definition mXactCacheGetById (multi : Z) : M (Z * list MultiXactMember) :=
  λ w,
    match dlist_search (λ entry, entry_multi entry =? multi) (MXactCache w) with
    | Some (pre, entry, suf) =>
        Done (entry_nmembers entry, (entry_members entry).*1)
             (set_cache (entry :: pre ++ suf) (MXactCacheMembers w) w)
    | None => Done (-1, []) w
    end.

Definition mXactCachePut (multi nmembers : Z) (members : list MultiXactMemberBytes) : M unit :=
  λ w,
    let entry :=
      mkEnt multi nmembers (qsort_in_memory (take (Z.to_nat nmembers) members)) in
    let cache := entry :: MXactCache w in            (* dlist_push_head *)
    if MAX_CACHE_ENTRIES <=? MXactCacheMembers w
    then (* MXactCacheMembers++ then --, the tail node deleted *)
      Done tt (set_cache (removelast cache) (MXactCacheMembers w) w)
    else Done tt (set_cache cache (MXactCacheMembers w + 1) w).

(** ** SLRU primitives used by multixact.c (slru.c is outside these sources) *)

(** Modelled from the spec: SimpleLruZeroPage of slru.c, "re-create an
    all-zero page"; the page becomes the latest page of the log. *)
Definition SimpleLruZeroPage (pageno : Z) (ctl : SlruCtlData) : SlruCtlData :=
  mkSlru (<[pageno := ∅]> (page_buffer ctl)) pageno.

(** The buffer of a page once its slot number is known. *)
Definition slru_page (ctl : SlruCtlData) (pageno : Z) : gmap Z Z :=
  default ∅ (page_buffer ctl !! pageno).

(** Modelled from the spec: SimpleLruDoesPhysicalPageExist of slru.c, whether
    the page is there to be read. *)
Definition SimpleLruDoesPhysicalPageExist (ctl : SlruCtlData) (pageno : Z) : bool :=
  bool_decide (is_Some (page_buffer ctl !! pageno)).

(** A store through a pointer into the buffer of page [pageno], marking
    the page dirty. *)
Definition slru_store (pageno k v : Z) (ctl : SlruCtlData) : SlruCtlData :=
  mkSlru (<[pageno := <[k := v]> (slru_page ctl pageno)]> (page_buffer ctl))
         (latest_page_number ctl).

(** Modelled from the spec: the segment files of a log as SlruScanDirectory
    of slru.c finds them, "segment boundaries at a fixed page count per
    segment". *)
Definition slru_segments (ctl : SlruCtlData) : gset Z :=
  set_map (λ p, p / SLRU_PAGES_PER_SEGMENT) (dom (page_buffer ctl)).

(** Modelled from the spec: SlruDeleteSegment of slru.c, which deletes the
    whole file of a segment at once. *)
Definition SlruDeleteSegment (segno : Z) (ctl : SlruCtlData) : SlruCtlData :=
  mkSlru (filter (λ kv, kv.1 / SLRU_PAGES_PER_SEGMENT ≠ segno) (page_buffer ctl))
         (latest_page_number ctl).

(** Modelled from the spec: SimpleLruTruncate of slru.c, which removes the
    segments "fully below" the segment of [cutoffPage], and nothing when the
    cutoff lies beyond the latest page (its wraparound detection, mentioned
    in PerformOffsetsTruncation). *)
Definition SimpleLruTruncate (cutoffPage : Z) (ctl : SlruCtlData) : SlruCtlData :=
  let cutoffPage := cutoffPage - cutoffPage mod SLRU_PAGES_PER_SEGMENT in
  if latest_page_number ctl <? cutoffPage then ctl
  else mkSlru (filter (λ kv, ¬ (kv.1 / SLRU_PAGES_PER_SEGMENT * SLRU_PAGES_PER_SEGMENT < cutoffPage))
                (page_buffer ctl))
              (latest_page_number ctl).

Section MultiXact.

Set Default Proof Using "Type".

(** What multixact.c takes from headers and modules outside these sources. *)
Variable MultiXactIdPrecedes : Z → Z → bool.          (* access/multixact.h *)
Variable MultiXactIdPrecedesOrEquals : Z → Z → bool.
Variable ISUPDATE_from_mxstatus : Z → bool.            (* access/multixact.h *)
Variable TransactionIdIsInProgress : Z → bool.         (* storage/procarray.h *)
Variable TransactionIdDidCommit : Z → bool.            (* access/transam.h *)
Variable MaxMultiXactId : Z.
Variable MaxMultiXactOffset : Z.
Variable MyBackendId : Z.                              (* miscadmin.h *)
Variable MaxOldestSlot : nat.                          (* MaxBackends + max_prepared_xacts *)
Variable IsUnderPostmaster : bool.

Definition PreviousMultiXactId (xid : Z) : Z :=
  if xid =? FirstMultiXactId then MaxMultiXactId else uint64 (xid - 1).

(** *** MultiXactIdSetOldestVisible (lines 645-680) *)

Definition MultiXactIdSetOldestVisible : M unit :=
  λ w,
    let s := MultiXactState w in
    if negb (MultiXactIdIsValid (slot (OldestVisibleMXactId s) MyBackendId)) then
      let oldestMXact := nextMXact s in
      let oldestMXact :=
        if oldestMXact <? FirstMultiXactId then FirstMultiXactId else oldestMXact in
      let oldestMXact :=
        foldl (λ oldestMXact i,
                 let thisoldest := slot (OldestMemberMXactId s) (Z.of_nat i) in
                 if MultiXactIdIsValid thisoldest && MultiXactIdPrecedes thisoldest oldestMXact
                 then thisoldest else oldestMXact)
              oldestMXact (seq 1 MaxOldestSlot) in
      Done tt (set_MultiXactState (set_OldestVisibleMXactId MyBackendId oldestMXact) w)
    else Done tt w.

(** *** AtEOXact_MultiXact (lines 1464-1484) *)

Definition AtEOXact_MultiXact : M unit :=
  modify (λ w,
    set_cache [] 0
      (set_MultiXactState
         (λ s, mkState (nextMXact s) (nextOffset s) (finishedStartup s)
                 (oldestMultiXactId s) (oldestMultiXactDB s) (multiVacLimit s)
                 (<[MyBackendId := InvalidMultiXactId]> (OldestMemberMXactId s))
                 (<[MyBackendId := InvalidMultiXactId]> (OldestVisibleMXactId s))) w)).

(** *** Page zeroing and extension (lines 1693-1729, 2070-2151, 2505-2515) *)

(** The data registered is sizeof(int) bytes at the address of the int64
    pageno: the record carries its first four bytes, the low 32 bits. *)
Definition WriteMZeroPageXlogRec (pageno : Z) (info : Z → xl_multixact) : M unit :=
  modify (XLogInsert (info (uint32 pageno))).

(** Both take [int pageno]; callers hold an int64. *)
Definition ZeroMultiXactOffsetPage (pageno : Z) (writeXlog : bool) : M unit :=
  modify (set_MultiXactOffsetCtl (SimpleLruZeroPage pageno)) ;;;
  if writeXlog then WriteMZeroPageXlogRec pageno XLOG_MULTIXACT_ZERO_OFF_PAGE else ret tt.

Definition ZeroMultiXactMemberPage (pageno : Z) (writeXlog : bool) : M unit :=
  modify (set_MultiXactMemberCtl (SimpleLruZeroPage pageno)) ;;;
  if writeXlog then WriteMZeroPageXlogRec pageno XLOG_MULTIXACT_ZERO_MEM_PAGE else ret tt.

Definition ExtendMultiXactOffset (multi : Z) : M unit :=
  if negb (MultiXactIdToOffsetEntry multi =? 0) && negb (multi =? FirstMultiXactId)
  then ret tt
  else ZeroMultiXactOffsetPage (int32 (MultiXactIdToOffsetPage multi)) true.

(** The while loop of ExtendMultiXactMember; every turn takes at least one
    member off [nmembers], so [nmembers] turns are enough. *)
Fixpoint ExtendMultiXactMember_loop (turns : nat) (offset nmembers : Z) : M unit :=
  match turns with
  | O => ret tt
  | S turns =>
      if 0 <? nmembers then
        let flagsoff := MXOffsetToFlagsOffset offset in
        let flagsbit := MXOffsetToFlagsBitShift offset in
        (if (flagsoff =? 0) && (flagsbit =? 0)
         then ZeroMultiXactMemberPage (int32 (MXOffsetToMemberPage offset)) true
         else ret tt) ;;;
        let difference :=
          uint32 (MULTIXACT_MEMBERS_PER_PAGE - offset mod MULTIXACT_MEMBERS_PER_PAGE) in
        ExtendMultiXactMember_loop turns
          (uint64 (offset + difference)) (int32 (nmembers - difference))
      else ret tt
  end.

Definition ExtendMultiXactMember (offset nmembers : Z) : M unit :=
  ExtendMultiXactMember_loop (Z.to_nat nmembers) offset nmembers.

(** *** GetNewMultiXactId (lines 898-996): returns (result, *offset) *)

Definition GetNewMultiXactId (nmembers : Z) : M (Z * Z) :=
  let! recovery := gets InRecovery in
  if recovery : bool then elog_ERROR ERROR_cannot_assign_during_recovery else
  let! next := gets (λ w, nextMXact (MultiXactState w)) in
  (if next <? FirstMultiXactId
   then modify (set_MultiXactState (set_nextMXact FirstMultiXactId))
   else ret tt) ;;;
  let! result := gets (λ w, nextMXact (MultiXactState w)) in
  let! limit := gets (λ w, multiVacLimit (MultiXactState w)) in
  let! result :=
    (if negb (MultiXactIdPrecedes result limit) then
       (if IsUnderPostmaster && (result mod 65536 =? 0)
        then modify (SendPostmasterSignal result) else ret tt) ;;;
       gets (λ w, nextMXact (MultiXactState w))
     else ret result) in
  ExtendMultiXactOffset result ;;;
  let! nextOffset := gets (λ w, nextOffset (MultiXactState w)) in
  ExtendMultiXactMember nextOffset nmembers ;;;
  modify START_CRIT_SECTION ;;;
  modify (set_MultiXactState
            (λ s, set_nextOffset (uint64 (nextOffset + nmembers))
                    (set_nextMXact (uint64 (nextMXact s + 1)) s))) ;;;
  ret (result, nextOffset).

(** *** RecordNewMultiXact (lines 803-881) *)

(** Modelled from the spec: SimpleLruReadPage of slru.c on the OFFSETs log
    ([offsets_log]) or the MEMBERs log: the page, or the "IOFailure on any
    page read" of a page that does not exist. *)
Definition SimpleLruReadPage (offsets_log : bool) (pageno : Z) : M (gmap Z Z) :=
  λ w,
    let ctl := if offsets_log then MultiXactOffsetCtl w else MultiXactMemberCtl w in
    match page_buffer ctl !! pageno with
    | Some page => Done page w
    | None => Raise (ERROR_slru_io offsets_log pageno)
    end.

(** The for loop over members[]; [prev_pageno] is the page whose buffer
    slot is at hand. *)
Fixpoint RecordNewMultiXact_members (multi offset prev_pageno : Z)
    (members : list MultiXactMember) : M unit :=
  match members with
  | [] => ret tt
  | member :: members =>
      let pageno := MXOffsetToMemberPage offset in
      let memberoff := MXOffsetToMemberOffset offset in
      let flagsoff := MXOffsetToFlagsOffset offset in
      let bshift := MXOffsetToFlagsBitShift offset in
      (if negb (pageno =? prev_pageno)
       then SimpleLruReadPage false pageno ;;; ret tt else ret tt) ;;;
      modify (set_MultiXactMemberCtl (slru_store pageno memberoff (xid member))) ;;;
      let! flagsval := gets (λ w, page_word (slru_page (MultiXactMemberCtl w) pageno) flagsoff) in
      let flagsval :=
        Z.land flagsval
          (uint64 (Z.lnot (uint64 (Z.shiftl (Z.shiftl 1 MXACT_MEMBER_BITS_PER_XACT - 1) bshift)))) in
      let flagsval := Z.lor flagsval (uint64 (Z.shiftl (uint64 (status member)) bshift)) in
      modify (set_MultiXactMemberCtl (slru_store pageno flagsoff flagsval)) ;;;
      RecordNewMultiXact_members multi (uint64 (offset + 1)) pageno members
  end.

Definition RecordNewMultiXact (multi offset nmembers : Z)
    (members : list MultiXactMember) : M unit :=
  let pageno := MultiXactIdToOffsetPage multi in
  let entryno := MultiXactIdToOffsetEntry multi in
  SimpleLruReadPage true pageno ;;;
  modify (set_MultiXactOffsetCtl (slru_store pageno entryno offset)) ;;;
  RecordNewMultiXact_members multi offset (-1) (take (Z.to_nat nmembers) members).

(** *** MultiXactIdCreateFromMembers (lines 708-794) *)

(** The check loop: true when elog(ERROR) is reached. *)
Fixpoint more_than_one_update (has_update : bool) (members : list MultiXactMember) : bool :=
  match members with
  | [] => false
  | member :: members =>
      if ISUPDATE_from_mxstatus (status member)
      then (if has_update then true else more_than_one_update true members)
      else more_than_one_update has_update members
  end.

Definition MultiXactIdCreateFromMembers (members : list MultiXactMember) : M Z :=
  let nmembers := Z.of_nat (length members) in
  (* the array behind the pointer: the callers set its fields and leave its
     padding as their stack frame or palloc chunk held it *)
  let! padding := uninitialised_padding (length members) in
  let! (array, multi) := mXactCacheGetBySet nmembers (zip members padding) in
  let members := array.*1 in
  if MultiXactIdIsValid multi then ret multi else
  if more_than_one_update false members
  then elog_ERROR ERROR_more_than_one_updating_member else
  let! (multi, offset) := GetNewMultiXactId nmembers in
  modify (XLogInsert (XLOG_MULTIXACT_CREATE_ID multi offset nmembers members)) ;;;
  RecordNewMultiXact multi offset nmembers members ;;;
  modify END_CRIT_SECTION ;;;
  mXactCachePut multi nmembers array ;;;
  ret multi.

(** *** GetMultiXactIdMembers (lines 1025-1236): returns (count, *members) *)

(** The for loop reading [length] member slots; the result array is built
    in order, [truelength] being its length. *)
Fixpoint GetMultiXactIdMembers_read (length : nat) (offset prev_pageno : Z)
    (ptr : list MultiXactMember) : M (list MultiXactMember) :=
  match length with
  | O => ret ptr
  | S length =>
      let pageno := MXOffsetToMemberPage offset in
      let memberoff := MXOffsetToMemberOffset offset in
      (if negb (pageno =? prev_pageno)
       then SimpleLruReadPage false pageno ;;; ret tt else ret tt) ;;;
      let! page := gets (λ w, slru_page (MultiXactMemberCtl w) pageno) in
      let xact := page_word page memberoff in
      if negb (TransactionIdIsValid xact)
      then (* corner case 3: continue *)
        GetMultiXactIdMembers_read length (uint64 (offset + 1)) pageno ptr
      else
        let flagsoff := MXOffsetToFlagsOffset offset in
        let bshift := MXOffsetToFlagsBitShift offset in
        let flags := page_word page flagsoff in
        GetMultiXactIdMembers_read length (uint64 (offset + 1)) pageno
          (ptr ++ [mkMember xact (Z.land (Z.shiftr flags bshift) MXACT_MEMBER_XACT_BITMASK)])
  end.

Definition GetMultiXactIdMembers (multi : Z) (from_pgupgrade onlyLock : bool)
  : M (Z * list MultiXactMember) :=
  if negb (MultiXactIdIsValid multi) || from_pgupgrade then ret (-1, []) else
  let! (length, members) := mXactCacheGetById multi in
  if 0 <=? length then ret (length, members) else
  MultiXactIdSetOldestVisible ;;;
  let! visible := gets (λ w, slot (OldestVisibleMXactId (MultiXactState w)) MyBackendId) in
  if onlyLock && MultiXactIdPrecedes multi visible then ret (-1, []) else
  let! nextMXact := gets (λ w, nextMXact (MultiXactState w)) in
  let! nextOffset := gets (λ w, nextOffset (MultiXactState w)) in
  (* retry: *)
  let pageno := MultiXactIdToOffsetPage multi in
  let entryno := MultiXactIdToOffsetEntry multi in
  let! page := SimpleLruReadPage true pageno in
  let offset := page_word page entryno in
  let tmpMXact := uint64 (multi + 1) in
  let! length :=
    (if nextMXact =? tmpMXact
     then (* corner case 1 *) ret (int32 (uint64 (nextOffset - offset)))
     else
       let prev_pageno := pageno in
       let pageno := MultiXactIdToOffsetPage tmpMXact in
       let entryno := MultiXactIdToOffsetEntry tmpMXact in
       let! page := (if negb (pageno =? prev_pageno)
                     then SimpleLruReadPage true pageno else ret page) in
       let nextMXOffset := page_word page entryno in
       if nextMXOffset =? 0
       then (* corner case 2: CHECK_FOR_INTERRUPTS(); pg_usleep(1000L); goto retry *)
         (λ _, Spin)
       else ret (int32 (uint64 (nextMXOffset - offset)))) in
  let! padding := palloc_MultiXactMember length in
  let! ptr := GetMultiXactIdMembers_read (Z.to_nat length) offset (-1) [] in
  let truelength := Z.of_nat (List.length ptr) in
  mXactCachePut multi truelength (zip ptr padding) ;;;
  ret (truelength, ptr).

(** *** MultiXactIdExpand (lines 402-501) *)

(** The test of the first loop: the member is (xid, status). *)
Definition same_member (xid' status' : Z) (m : MultiXactMember) : bool :=
  TransactionIdEquals (xid m) xid' && (status m =? status').

(** The test of the second loop: the member is still of interest. *)
Definition still_of_interest (m : MultiXactMember) : bool :=
  TransactionIdIsInProgress (xid m)
  || (ISUPDATE_from_mxstatus (status m) && TransactionIdDidCommit (xid m)).

(** The arrays handed to MultiXactIdCreateFromMembers are the local
    [member] and the palloc'd [newMembers], both set field by field. *)
Definition MultiXactIdExpand (multi xid status : Z) : M Z :=
  let! (nmembers, members) := GetMultiXactIdMembers multi false false in
  if nmembers <? 0 then
    let member := mkMember xid status in
    MultiXactIdCreateFromMembers [member]
  else if existsb (same_member xid status) (take (Z.to_nat nmembers) members)
  then ret multi
  else
    let newMembers := filter still_of_interest (take (Z.to_nat nmembers) members) in
    MultiXactIdCreateFromMembers (newMembers ++ [mkMember xid status]).

(** *** Truncation (lines 2206-2503) *)

(** false (None) if the page of [multi] does not exist, else its entry;
    the two SimpleLruFlush calls do not change the store. *)
Definition find_multixact_start (multi : Z) : M (option Z) :=
  let pageno := MultiXactIdToOffsetPage multi in
  let entryno := MultiXactIdToOffsetEntry multi in
  let! ctl := gets MultiXactOffsetCtl in
  if negb (SimpleLruDoesPhysicalPageExist ctl pageno) then ret None else
  let! page := SimpleLruReadPage true pageno in
  ret (Some (page_word page entryno)).

(** The callback on one segment file; mxtruncinfo holds an int. *)
Definition SlruScanDirCbFindEarliest (segpage : Z) (earliestExistingPage : Z) : Z :=
  if (earliestExistingPage =? -1) || (segpage <? earliestExistingPage)
  then int32 segpage else earliestExistingPage.

(** SlruScanDirectory with that callback, over the segment files present. *)
Definition SlruScanDirectory_FindEarliest (ctl : SlruCtlData) (earliestExistingPage : Z) : Z :=
  foldr (λ segno, SlruScanDirCbFindEarliest (segno * SLRU_PAGES_PER_SEGMENT))
        earliestExistingPage (elements (slru_segments ctl)).

(** The while loop of PerformMembersTruncation; [turns] bounds the walk
    from the start segment to the end segment around the wrap point. *)
Fixpoint PerformMembersTruncation_loop (turns : nat) (maxsegment endsegment segment : Z)
    (ctl : SlruCtlData) : SlruCtlData :=
  match turns with
  | O => ctl
  | S turns =>
      if negb (segment =? endsegment) then
        let ctl := SlruDeleteSegment segment ctl in
        let segment := if segment =? maxsegment then 0 else segment + 1 in
        PerformMembersTruncation_loop turns maxsegment endsegment segment ctl
      else ctl
  end.

Definition PerformMembersTruncation (oldestOffset newOldestOffset : Z) : M unit :=
  let maxsegment := MXOffsetToMemberSegment MaxMultiXactOffset in
  let startsegment := MXOffsetToMemberSegment oldestOffset in
  let endsegment := MXOffsetToMemberSegment newOldestOffset in
  modify (set_MultiXactMemberCtl
            (PerformMembersTruncation_loop
               (Z.to_nat ((endsegment - startsegment) mod (maxsegment + 1)))
               maxsegment endsegment startsegment)).

Definition PerformOffsetsTruncation (oldestMulti newOldestMulti : Z) : M unit :=
  modify (set_MultiXactOffsetCtl
            (SimpleLruTruncate (MultiXactIdToOffsetPage (PreviousMultiXactId newOldestMulti)))).

Definition WriteMTruncateXlogRec (oldestMultiDB startTruncOff endTruncOff
    startTruncMemb endTruncMemb : Z) : M unit :=
  modify (XLogInsert (XLOG_MULTIXACT_TRUNCATE_ID oldestMultiDB startTruncOff endTruncOff
                        startTruncMemb endTruncMemb)).

Definition TruncateMultiXact (newOldestMulti newOldestMultiDB : Z) : M unit :=
  let! nextMulti := gets (λ w, nextMXact (MultiXactState w)) in
  let! nextOffset := gets (λ w, nextOffset (MultiXactState w)) in
  let! oldestMulti := gets (λ w, oldestMultiXactId (MultiXactState w)) in
  if MultiXactIdPrecedesOrEquals newOldestMulti oldestMulti then ret tt else
  let! ctl := gets MultiXactOffsetCtl in
  let earliestExistingPage := SlruScanDirectory_FindEarliest ctl (-1) in
  let earliest := uint64 (earliestExistingPage * MULTIXACT_OFFSETS_PER_PAGE) in
  let earliest := if earliest <? FirstMultiXactId then FirstMultiXactId else earliest in
  if MultiXactIdPrecedes oldestMulti earliest then ret tt else
  let! oldestOffset :=
    (if oldestMulti =? nextMulti then ret (Some nextOffset)
     else find_multixact_start oldestMulti) in
  match oldestOffset with
  | None => modify (ereport_LOG (LOG_oldest_not_found oldestMulti earliest))
  | Some oldestOffset =>
      let! newOldestOffset :=
        (if newOldestMulti =? nextMulti then ret (Some nextOffset)
         else find_multixact_start newOldestMulti) in
      match newOldestOffset with
      | None => modify (ereport_LOG (LOG_cannot_truncate_up_to newOldestMulti))
      | Some newOldestOffset =>
          modify START_CRIT_SECTION ;;;
          modify (set_delayChkpt true) ;;;
          WriteMTruncateXlogRec newOldestMultiDB oldestMulti newOldestMulti
            oldestOffset newOldestOffset ;;;
          modify (set_MultiXactState (set_oldestMultiXact newOldestMulti newOldestMultiDB)) ;;;
          PerformMembersTruncation oldestOffset newOldestOffset ;;;
          PerformOffsetsTruncation oldestMulti newOldestMulti ;;;
          modify (set_delayChkpt false) ;;;
          modify END_CRIT_SECTION
      end
  end.

(** *** The remaining entry points

    What they take from further headers. *)
Variable TransactionIdIsCurrentTransactionId : Z → bool.   (* access/xact.h *)
Variable TwoPhaseGetDummyBackendId : Z → Z.                 (* access/twophase.h *)
Variable IsBinaryUpgrade : bool.                            (* miscadmin.h *)
Variable autovacuum_multixact_freeze_max_age : Z.           (* postmaster/autovacuum.h *)
Variable TransactionIdPrecedes : Z → Z → bool.              (* access/transam.h *)
Variable TransactionIdFollowsOrEquals : Z → Z → bool.
Variable TransactionIdAdvance : Z → Z.

Definition set_OldestMemberMXactId (i v : Z) (s : MultiXactStateData) : MultiXactStateData :=
  mkState (nextMXact s) (nextOffset s) (finishedStartup s) (oldestMultiXactId s)
    (oldestMultiXactDB s) (multiVacLimit s) (<[i := v]> (OldestMemberMXactId s))
    (OldestVisibleMXactId s).
Definition set_finishedStartup (b : bool) (s : MultiXactStateData) : MultiXactStateData :=
  mkState (nextMXact s) (nextOffset s) b (oldestMultiXactId s)
    (oldestMultiXactDB s) (multiVacLimit s) (OldestMemberMXactId s) (OldestVisibleMXactId s).
Definition set_multiVacLimit (v : Z) (s : MultiXactStateData) : MultiXactStateData :=
  mkState (nextMXact s) (nextOffset s) (finishedStartup s) (oldestMultiXactId s)
    (oldestMultiXactDB s) v (OldestMemberMXactId s) (OldestVisibleMXactId s).

(** shared->latest_page_number = pageno *)
Definition set_latest_page_number (pageno : Z) (ctl : SlruCtlData) : SlruCtlData :=
  mkSlru (page_buffer ctl) pageno.

(** MemSet(ptr, 0, BLCKSZ - k) with ptr [k] words (OFFSETs) or bytes
    (MEMBERs) into the buffer of page [pageno]: everything from [k] to the
    end of the page becomes zero, and the page is marked dirty. *)
Definition slru_zero_from (pageno k : Z) (ctl : SlruCtlData) : SlruCtlData :=
  mkSlru (<[pageno := filter (λ kv, kv.1 < k) (slru_page ctl pageno)]> (page_buffer ctl))
         (latest_page_number ctl).

(** **** MultiXactIdCreate (lines 349-381) *)

(** MultiXactMember members[2] on the stack, set field by field. *)
Definition MultiXactIdCreate (xid1 status1 xid2 status2 : Z) : M Z :=
  MultiXactIdCreateFromMembers [mkMember xid1 status1; mkMember xid2 status2].

(** **** MultiXactIdIsRunning (lines 514-573) *)

Definition MultiXactIdIsRunning (multi : Z) (isLockOnly : bool) : M bool :=
  let! (nmembers, members) := GetMultiXactIdMembers multi false isLockOnly in
  if nmembers <=? 0 then ret false else
  let members := take (Z.to_nat nmembers) members in
  if existsb (λ m, TransactionIdIsCurrentTransactionId (xid m)) members then ret true else
  if existsb (λ m, TransactionIdIsInProgress (xid m)) members then ret true else
  ret false.

(** **** MultiXactIdSetOldestMember (lines 588-627) *)

Definition MultiXactIdSetOldestMember : M unit :=
  λ w,
    let s := MultiXactState w in
    if negb (MultiXactIdIsValid (slot (OldestMemberMXactId s) MyBackendId)) then
      let nextMXact := nextMXact s in
      let nextMXact :=
        if nextMXact <? FirstMultiXactId then FirstMultiXactId else nextMXact in
      Done tt (set_MultiXactState (set_OldestMemberMXactId MyBackendId nextMXact) w)
    else Done tt w.

(** **** ReadNextMultiXactId (lines 686-697) *)

Definition ReadNextMultiXactId : M Z := gets (λ w, nextMXact (MultiXactState w)).

(** **** Two-phase commit (lines 1486-1598) *)

(** Returns the data of the two-phase record it registers, if it
    registers one. *)
Definition AtPrepare_MultiXact : M (option Z) :=
  let! myOldestMember := gets (λ w, slot (OldestMemberMXactId (MultiXactState w)) MyBackendId) in
  if MultiXactIdIsValid myOldestMember then ret (Some myOldestMember) else ret None.

Definition PostPrepare_MultiXact (xid : Z) : M unit :=
  let! myOldestMember := gets (λ w, slot (OldestMemberMXactId (MultiXactState w)) MyBackendId) in
  (if MultiXactIdIsValid myOldestMember then
     let dummyBackendId := TwoPhaseGetDummyBackendId xid in
     modify (set_MultiXactState (set_OldestMemberMXactId dummyBackendId myOldestMember)) ;;;
     modify (set_MultiXactState (set_OldestMemberMXactId MyBackendId InvalidMultiXactId))
   else ret tt) ;;;
  modify (set_MultiXactState (set_OldestVisibleMXactId MyBackendId InvalidMultiXactId)) ;;;
  modify (set_cache [] 0).

Definition multixact_twophase_recover (xid : Z) (recdata : Z) : M unit :=
  let dummyBackendId := TwoPhaseGetDummyBackendId xid in
  modify (set_MultiXactState (set_OldestMemberMXactId dummyBackendId recdata)).

Definition multixact_twophase_postcommit (xid : Z) : M unit :=
  let dummyBackendId := TwoPhaseGetDummyBackendId xid in
  modify (set_MultiXactState (set_OldestMemberMXactId dummyBackendId InvalidMultiXactId)).

Definition multixact_twophase_postabort (xid : Z) : M unit :=
  multixact_twophase_postcommit xid.

(** **** Bootstrap and startup (lines 1660-1899)

    SimpleLruWritePage and SimpleLruFlush write buffers out; the store does
    not change. *)

Definition BootStrapMultiXact : M unit :=
  ZeroMultiXactOffsetPage 0 false ;;;
  ZeroMultiXactMemberPage 0 false.

Definition MaybeExtendOffsetSlru : M unit :=
  let! pageno := gets (λ w, MultiXactIdToOffsetPage (nextMXact (MultiXactState w))) in
  let! ctl := gets MultiXactOffsetCtl in
  if negb (SimpleLruDoesPhysicalPageExist ctl pageno)
  then ZeroMultiXactOffsetPage (int32 pageno) false
  else ret tt.

Definition StartupMultiXact : M unit :=
  let! multi := gets (λ w, nextMXact (MultiXactState w)) in
  let! offset := gets (λ w, nextOffset (MultiXactState w)) in
  modify (set_MultiXactOffsetCtl (set_latest_page_number (MultiXactIdToOffsetPage multi))) ;;;
  modify (set_MultiXactMemberCtl (set_latest_page_number (MXOffsetToMemberPage offset))).

(** **** SetMultiXactIdLimit (lines 1990-2025) *)

(** The sum is taken in the unsigned 64-bit type of the id. *)
Definition SetMultiXactIdLimit (oldest_datminmxid oldest_datoid : Z) : M unit :=
  let multiVacLimit := uint64 (oldest_datminmxid + autovacuum_multixact_freeze_max_age) in
  modify (set_MultiXactState
            (λ s, set_multiVacLimit multiVacLimit
                    (set_oldestMultiXact oldest_datminmxid oldest_datoid s))).

(** **** TrimMultiXact (lines 1802-1899) *)

Definition TrimMultiXact : M unit :=
  let! nextMXact := gets (λ w, nextMXact (MultiXactState w)) in
  let! offset := gets (λ w, nextOffset (MultiXactState w)) in
  let! oldestMXact := gets (λ w, oldestMultiXactId (MultiXactState w)) in
  let! oldestMXactDB := gets (λ w, oldestMultiXactDB (MultiXactState w)) in
  let pageno := MultiXactIdToOffsetPage nextMXact in
  modify (set_MultiXactOffsetCtl (set_latest_page_number pageno)) ;;;
  let entryno := MultiXactIdToOffsetEntry nextMXact in
  (if negb (entryno =? 0) then
     SimpleLruReadPage true pageno ;;;
     modify (set_MultiXactOffsetCtl (slru_zero_from pageno entryno))
   else ret tt) ;;;
  let pageno := MXOffsetToMemberPage offset in
  modify (set_MultiXactMemberCtl (set_latest_page_number pageno)) ;;;
  let flagsoff := MXOffsetToFlagsOffset offset in
  (if negb (flagsoff =? 0) then
     let memberoff := MXOffsetToMemberOffset offset in
     SimpleLruReadPage false pageno ;;;
     modify (set_MultiXactMemberCtl (slru_zero_from pageno memberoff))
   else ret tt) ;;;
  modify (set_MultiXactState (set_finishedStartup true)) ;;;
  SetMultiXactIdLimit oldestMXact oldestMXactDB.

(** **** Checkpoint and replay support (lines 1917-2068) *)

Definition MultiXactGetCheckptMulti (is_shutdown : bool) : M (Z * Z * Z * Z) :=
  gets (λ w, let s := MultiXactState w in
             (nextMXact s, nextOffset s, oldestMultiXactId s, oldestMultiXactDB s)).

Definition MultiXactSetNextMXact (nextMulti nextMultiOffset : Z) : M unit :=
  modify (set_MultiXactState (λ s, set_nextOffset nextMultiOffset (set_nextMXact nextMulti s))) ;;;
  if IsBinaryUpgrade then MaybeExtendOffsetSlru else ret tt.

Definition MultiXactAdvanceNextMXact (minMulti minMultiOffset : Z) : M unit :=
  let! next := gets (λ w, nextMXact (MultiXactState w)) in
  (if MultiXactIdPrecedes next minMulti
   then modify (set_MultiXactState (set_nextMXact minMulti)) else ret tt) ;;;
  let! offset := gets (λ w, nextOffset (MultiXactState w)) in
  if offset <? minMultiOffset
  then modify (set_MultiXactState (set_nextOffset minMultiOffset)) else ret tt.

Definition MultiXactAdvanceOldest (oldestMulti oldestMultiDB : Z) : M unit :=
  let! oldest := gets (λ w, oldestMultiXactId (MultiXactState w)) in
  if MultiXactIdPrecedes oldest oldestMulti
  then SetMultiXactIdLimit oldestMulti oldestMultiDB else ret tt.

(** **** GetOldestMultiXactId (lines 2164-2204) *)

Definition GetOldestMultiXactId : M Z :=
  gets (λ w,
    let s := MultiXactState w in
    let nextMXact := nextMXact s in
    let nextMXact :=
      if nextMXact <? FirstMultiXactId then FirstMultiXactId else nextMXact in
    foldl (λ oldestMXact i,
             let thisoldest := slot (OldestMemberMXactId s) (Z.of_nat i) in
             let oldestMXact :=
               if MultiXactIdIsValid thisoldest && MultiXactIdPrecedes thisoldest oldestMXact
               then thisoldest else oldestMXact in
             let thisoldest := slot (OldestVisibleMXactId s) (Z.of_nat i) in
             if MultiXactIdIsValid thisoldest && MultiXactIdPrecedes thisoldest oldestMXact
             then thisoldest else oldestMXact)
          nextMXact (seq 1 MaxOldestSlot)).

(** **** multixact_redo (lines 2548-2675)

    [record_xid] is XLogRecGetXid(record); ShmemVariableCache->nextXid is
    passed in and handed back.  A zero-page record carries the low four
    bytes of the page number; the int64 read from it is narrowed to the
    [int] parameter of the Zero routines, which keeps those four bytes.
    The final elog(PANIC) answers an op code that is none of the four; the
    record type has no such value. *)

Definition multixact_redo (record : xl_multixact) (record_xid nextXid : Z) : M Z :=
  match record with
  | XLOG_MULTIXACT_ZERO_OFF_PAGE pageno =>
      ZeroMultiXactOffsetPage (int32 pageno) false ;;; ret nextXid
  | XLOG_MULTIXACT_ZERO_MEM_PAGE pageno =>
      ZeroMultiXactMemberPage (int32 pageno) false ;;; ret nextXid
  | XLOG_MULTIXACT_CREATE_ID mid moff nmembers members =>
      RecordNewMultiXact mid moff nmembers members ;;;
      MultiXactAdvanceNextMXact (uint64 (mid + 1)) (uint64 (moff + nmembers)) ;;;
      let max_xid :=
        foldl (λ max_xid m, if TransactionIdPrecedes max_xid (xid m) then xid m else max_xid)
              record_xid (take (Z.to_nat nmembers) members) in
      if TransactionIdFollowsOrEquals max_xid nextXid
      then ret (TransactionIdAdvance max_xid)
      else ret nextXid
  | XLOG_MULTIXACT_TRUNCATE_ID oldestMultiDB startTruncOff endTruncOff
                               startTruncMemb endTruncMemb =>
      SetMultiXactIdLimit endTruncOff oldestMultiDB ;;;
      PerformMembersTruncation startTruncMemb endTruncMemb ;;;
      modify (set_MultiXactOffsetCtl
                (set_latest_page_number (MultiXactIdToOffsetPage endTruncOff))) ;;;
      PerformOffsetsTruncation startTruncOff endTruncOff ;;;
      ret nextXid
  end.

(** multixact_redo applied to a stretch of WAL records written by one
    transaction, in order; the loop of the startup process that calls it is
    outside these sources. *)
Fixpoint replay (records : list xl_multixact) (record_xid nextXid : Z) : M Z :=
  match records with
  | [] => ret nextXid
  | record :: records =>
      let! nextXid := multixact_redo record record_xid nextXid in
      replay records record_xid nextXid
  end.

(** *** States the code maintains *)

(** The cache counter counts the list, and every entry holds as many
    members as it says: mXactCachePut establishes both and nothing else
    writes the cache. *)
Definition cache_wf (w : world) : Prop :=
  MXactCacheMembers w = Z.of_nat (length (MXactCache w))
  ∧ Forall (λ entry, entry_nmembers entry = Z.of_nat (length (entry_members entry)))
           (MXactCache w).

(** What a creation that misses the cache needs from the two logs: the
    counters are within their types, the pages the new id and its member
    slots fall on either exist or are first slots of their page (and are
    then zeroed by the Extend routines), and page numbers fit the [int]
    the Zero routines take. *)
Definition create_ready (nmembers : Z) (w : world) : Prop :=
  let s := MultiXactState w in
  let multi := if nextMXact s <? FirstMultiXactId then FirstMultiXactId else nextMXact s in
  InRecovery w = false
  ∧ 0 ≤ nextMXact s < 2 ^ 64
  ∧ MultiXactIdToOffsetPage multi < 2 ^ 31
  ∧ (MultiXactIdToOffsetEntry multi ≠ 0 → multi ≠ FirstMultiXactId →
     is_Some (page_buffer (MultiXactOffsetCtl w) !! MultiXactIdToOffsetPage multi))
  ∧ 0 ≤ nextOffset s
  ∧ 0 ≤ nmembers < 2 ^ 31
  ∧ MXOffsetToMemberPage (nextOffset s + nmembers) < 2 ^ 31
  ∧ (nextOffset s mod MULTIXACT_MEMBERS_PER_PAGE ≠ 0 →
     is_Some (page_buffer (MultiXactMemberCtl w) !! MXOffsetToMemberPage (nextOffset s))).

(** At most one member of the array has an update status. *)
Definition at_most_one_update (members : list MultiXactMember) : Prop :=
  (length (filter (λ m, ISUPDATE_from_mxstatus (status m)) members) ≤ 1)%nat.

(** The (mid, moff) pairs of the create records of a WAL stream. *)
Definition created (log : list xl_multixact) : list (Z * Z) :=
  omap (λ r, match r with
             | XLOG_MULTIXACT_CREATE_ID mid moff _ _ => Some (mid, moff)
             | _ => None
             end) log.

(** A serial sequence of MultiXactIdCreateFromMembers calls. *)
Fixpoint create_all (calls : list (list MultiXactMember)) : M (list Z) :=
  match calls with
  | [] => ret []
  | members :: calls =>
      let! multi := MultiXactIdCreateFromMembers members in
      let! multis := create_all calls in
      ret (multi :: multis)
  end.

(** What survives the backend: the counters, the floor, the two logs and
    the WAL stream. *)
Definition durable (w : world)
  : Z * Z * Z * SlruCtlData * SlruCtlData * list xl_multixact :=
  (nextMXact (MultiXactState w), nextOffset (MultiXactState w),
   oldestMultiXactId (MultiXactState w),
   MultiXactOffsetCtl w, MultiXactMemberCtl w, xlog w).

(** Pages are only ever added between truncations. *)
Definition pages_grow (ctl ctl' : SlruCtlData) : Prop :=
  ∀ p, is_Some (page_buffer ctl !! p) → is_Some (page_buffer ctl' !! p).

(** What extending the logs and writing into them leaves alone. *)
Definition log_frame (w w' : world) : Prop :=
  MultiXactState w' = MultiXactState w
  ∧ MXactCache w' = MXactCache w
  ∧ MXactCacheMembers w' = MXactCacheMembers w
  ∧ InRecovery w' = InRecovery w
  ∧ created (xlog w') = created (xlog w)
  ∧ pages_grow (MultiXactOffsetCtl w) (MultiXactOffsetCtl w')
  ∧ pages_grow (MultiXactMemberCtl w) (MultiXactMemberCtl w').

(** A step that hands out no uninitialised memory. *)
Definition keeps_uninitialised {A} (m : M A) : Prop :=
  ∀ w a w', m w = Done a w' → uninitialised w' = uninitialised w.

(** The array behind the pointer MultiXactIdCreateFromMembers is given in
    state [w]: the members, each with the padding its memory holds. *)
Definition array_in_memory (members : list MultiXactMember) (w : world)
  : list MultiXactMemberBytes :=
  zip members (take (length members) (uninitialised w ++ replicate (length members) 0)).

(** The member GetMultiXactIdMembers reads at a member offset: the xid
    word and the flag byte of the slot. *)
Definition member_slot (ctl : SlruCtlData) (offset : Z) : MultiXactMember :=
  let page := slru_page ctl (MXOffsetToMemberPage offset) in
  mkMember (page_word page (MXOffsetToMemberOffset offset))
    (Z.land (Z.shiftr (page_word page (MXOffsetToFlagsOffset offset))
                      (MXOffsetToFlagsBitShift offset))
            MXACT_MEMBER_XACT_BITMASK).

(** The starting offset the OFFSETs log holds for an id. *)
Definition offset_entry (ctl : SlruCtlData) (multi : Z) : Z :=
  page_word (slru_page ctl (MultiXactIdToOffsetPage multi)) (MultiXactIdToOffsetEntry multi).

(** What one turn of the loop of RecordNewMultiXact does to the MEMBERs
    log. *)
Definition write_member_slot (offset : Z) (member : MultiXactMember)
    (ctl : SlruCtlData) : SlruCtlData :=
  let pageno := MXOffsetToMemberPage offset in
  let ctl := slru_store pageno (MXOffsetToMemberOffset offset) (xid member) ctl in
  let flagsval := page_word (slru_page ctl pageno) (MXOffsetToFlagsOffset offset) in
  let flagsval :=
    Z.land flagsval
      (uint64 (Z.lnot (uint64 (Z.shiftl (Z.shiftl 1 MXACT_MEMBER_BITS_PER_XACT - 1)
                                        (MXOffsetToFlagsBitShift offset))))) in
  let flagsval :=
    Z.lor flagsval (uint64 (Z.shiftl (uint64 (status member)) (MXOffsetToFlagsBitShift offset))) in
  slru_store pageno (MXOffsetToFlagsOffset offset) flagsval ctl.

(** The records [recs] are what took the WAL and the logs from [wp] to
    [wp'], as seen from a standby: replayed on any world holding the logs of
    [wp] they produce the logs of [wp'], and touch neither the shared
    counters nor nextXid. *)
Definition replays_to (recs : list xl_multixact) (wp wp' : world) : Prop :=
  xlog wp' = xlog wp ++ recs
  ∧ ∀ ws record_xid nextXid,
      MultiXactOffsetCtl ws = MultiXactOffsetCtl wp →
      MultiXactMemberCtl ws = MultiXactMemberCtl wp →
      ∃ ws', replay recs record_xid nextXid ws = Done nextXid ws'
             ∧ MultiXactOffsetCtl ws' = MultiXactOffsetCtl wp'
             ∧ MultiXactMemberCtl ws' = MultiXactMemberCtl wp'
             ∧ MultiXactState ws' = MultiXactState ws.

(** A member as the logs can hold it: a valid xid, a status of one byte. *)
Definition storable (m : MultiXactMember) : Prop :=
  xid m ≠ InvalidTransactionId ∧ 0 ≤ status m < 256.

(** *** Sample states *)

(** A fresh cluster: next id 1, next offset 1, first page of each log
    zeroed by BootStrapMultiXact. *)
Definition fresh_state : MultiXactStateData := mkState 1 1 true 1 0 1000 ∅ ∅.
Definition fresh_world : world :=
  mkWorld fresh_state (mkSlru {[0 := ∅]} 0) (mkSlru {[0 := ∅]} 0)
    [] 0 [] [] [] 0 false false [].

(** The same cluster with the next offset at zero, as the comment in
    GetNewMultiXactId allows ("nextOffset may be zero"). *)
Definition offset_zero_world : world :=
  mkWorld (mkState 1 0 true 1 0 1000 ∅ ∅) (mkSlru {[0 := ∅]} 0) (mkSlru {[0 := ∅]} 0)
    [] 0 [] [] [] 0 false false [].

(** Groups 1 = {(10,1),(11,1)} at offset 1 and 2 = {(10,1),(11,1),(12,3)} at
    offset 3 on disk, an empty cache, the retention floor already at 2. *)
Definition truncated_world : world :=
  mkWorld (mkState 3 6 true 2 0 1000 ∅ ∅)
    (mkSlru {[0 := {[1 := 1; 2 := 3]}]} 0)
    (mkSlru {[0 := {[0 := 3302846693632; 16 := 10; 24 := 11; 32 := 10; 40 := 11; 48 := 12]}]} 0)
    [] 0 [] [] [] 0 false false [].

(** Group 1 on disk at offset 1 with no member slot before the next
    offset: an id that resolves to no members. *)
Definition obsolete_world : world :=
  mkWorld (mkState 2 1 true 1 0 1000 ∅ ∅)
    (mkSlru {[0 := {[1 := 1]}]} 0) (mkSlru {[0 := ∅]} 0)
    [] 0 [] [] [] 0 false false [].

(** Stand-ins for what the headers define, for the sample runs: statuses
    0 .. 5 in the order of mxstatus_to_string with the two update kinds
    last, ids compared as plain 64-bit numbers, transactions 10 and 11 in
    progress, 12 committed. *)
Definition sample_ISUPDATE (status : Z) : bool := 3 <? status.
Definition sample_Precedes (id1 id2 : Z) : bool := id1 <? id2.
Definition sample_PrecedesOrEquals (id1 id2 : Z) : bool := id1 <=? id2.
Definition sample_InProgress (xid : Z) : bool := (xid =? 10) || (xid =? 11).
Definition sample_DidCommit (xid : Z) : bool := xid =? 12.

Definition sample_IsCurrent (xid : Z) : bool := xid =? 11.
Definition sample_DummyBackendId (xid : Z) : Z := 3.
Definition sample_TransactionIdPrecedes (id1 id2 : Z) : bool := id1 <? id2.
Definition sample_TransactionIdFollowsOrEquals (id1 id2 : Z) : bool := id2 <=? id1.
Definition sample_TransactionIdAdvance (xid : Z) : Z := xid + 1.

(** Next id 7; backend 1 may be a member of ids from 5 on, backend 2 of ids
    from 3 on, and backend 2 looks at ids from 4 on. *)
Definition horizon_world : world :=
  mkWorld (mkState 7 20 true 1 0 1000 {[1 := 5; 2 := 3]} {[2 := 4]})
    (mkSlru {[0 := ∅]} 0) (mkSlru {[0 := ∅]} 0)
    [] 0 [] [] [] 0 false false [].

(** Before initdb has run BootStrapMultiXact: no page in either log. *)
Definition empty_world : world :=
  mkWorld fresh_state (mkSlru ∅ 0) (mkSlru ∅ 0) [] 0 [] [] [] 0 false false [].

(** The fresh cluster as a standby in recovery holds it. *)
Definition standby_world : world :=
  mkWorld fresh_state (mkSlru {[0 := ∅]} 0) (mkSlru {[0 := ∅]} 0)
    [] 0 [] [] [] 0 false true [].

(** After a crash: the counters stand at id 3 and offset 10, the OFFSETs
    page still holds an offset for id 3 and the MEMBERs page an xid in slot
    12, from work whose WAL was lost. *)
Definition stale_world : world :=
  mkWorld (mkState 3 10 false 1 0 1000 ∅ ∅)
    (mkSlru {[0 := {[1 := 1; 2 := 3; 3 := 99]}]} 0)
    (mkSlru {[0 := {[16 := 10; 24 := 11; 112 := 77]}]} 0)
    [] 0 [] [] [] 0 false true [].

(** Pages 0, 40 and 70 of both logs (segments 0, 1 and 2); id 71685 on
    OFFSETs page 70 starts at member offset 57859 on MEMBERs page 64 of
    segment 2. *)
Definition segments_world : world :=
  mkWorld (mkState 71686 57870 true 1 0 1000 ∅ ∅)
    (mkSlru {[0 := ∅; 40 := ∅; 70 := {[5 := 57859]}]} 70)
    (mkSlru {[0 := ∅; 40 := ∅; 70 := ∅]} 70)
    [] 0 [] [] [] 0 false false [].


(** A fresh cluster in a backend whose stack holds zero bytes where the
    first member array will lie and other bytes where the second will. *)
Definition used_stack_world : world :=
  mkWorld fresh_state (mkSlru {[0 := ∅]} 0) (mkSlru {[0 := ∅]} 0)
    [] 0 [] [] [] 0 false false [0; 0; 32767; 0].

(** ** Properties *)

(** *** The layout of the MEMBERs log *)

Lemma layout_constants :
  MULTIXACT_OFFSETS_PER_PAGE = 1024
  ∧ MULTIXACT_MEMBERS_PER_MEMBERGROUP = 8
  ∧ MULTIXACT_MEMBERGROUP_SIZE = 72
  ∧ MULTIXACT_MEMBERGROUPS_PER_PAGE = 113
  ∧ MULTIXACT_MEMBERS_PER_PAGE = 904.
Proof. repeat split; reflexivity. Qed.

(** The layout the functions of this file run on is the one the macros
    give for the 8-byte width. *)
Lemma layout_at_documented_width (offset : Z) :
  MULTIXACT_MEMBERGROUP_SIZE = AnyWidth.MULTIXACT_MEMBERGROUP_SIZE sizeof_TransactionId
  ∧ MULTIXACT_MEMBERGROUPS_PER_PAGE
    = AnyWidth.MULTIXACT_MEMBERGROUPS_PER_PAGE sizeof_TransactionId
  ∧ MULTIXACT_MEMBERS_PER_PAGE = AnyWidth.MULTIXACT_MEMBERS_PER_PAGE sizeof_TransactionId
  ∧ MXOffsetToMemberPage offset = AnyWidth.MXOffsetToMemberPage sizeof_TransactionId offset
  ∧ MXOffsetToFlagsOffset offset = AnyWidth.MXOffsetToFlagsOffset sizeof_TransactionId offset
  ∧ MXOffsetToMemberOffset offset
    = AnyWidth.MXOffsetToMemberOffset sizeof_TransactionId offset
  ∧ bytes_per_member = AnyWidth.bytes_per_member sizeof_TransactionId.
Proof. repeat split; reflexivity. Qed.

(** The group the source documents, 72 bytes of which 113 fit a page,
    leaves no other width for an xid than 8 bytes. *)
Lemma documented_group_fixes_xid_width (sz : Z) :
  (AnyWidth.MULTIXACT_MEMBERGROUP_SIZE sz = 72 ↔ sz = 8)
  ∧ (0 < sz → AnyWidth.MULTIXACT_MEMBERGROUPS_PER_PAGE sz = 113 ↔ sz = 8).
Proof.
  unfold AnyWidth.MULTIXACT_MEMBERGROUPS_PER_PAGE, AnyWidth.MULTIXACT_MEMBERGROUP_SIZE.
  change MULTIXACT_MEMBERS_PER_MEMBERGROUP with 8.
  change MULTIXACT_FLAGBYTES_PER_GROUP with 8. change BLCKSZ with 8192.
  split; [lia|]. intros Hsz. split.
  - intros H. assert (Hd : 0 < sz * 8 + 8) by lia.
    pose proof (Z.mul_div_le 8192 (sz * 8 + 8) Hd) as Hle.
    pose proof (Z.mul_succ_div_gt 8192 (sz * 8 + 8) Hd) as Hgt.
    rewrite H in Hle, Hgt. lia.
  - intros ->. reflexivity.
Qed.

(** C9, as the specification states it: an entry of one flag byte and a
    4-byte xid.  No width of TransactionId gives that entry together with
    the 72-byte group, or with the 113 groups to a page, that multixact.c
    documents for its layout. *)
Lemma member_entry_is_not_five_bytes :
  ¬ ∃ sz, 0 < sz
          ∧ (AnyWidth.MULTIXACT_MEMBERGROUP_SIZE sz = 72
             ∨ AnyWidth.MULTIXACT_MEMBERGROUPS_PER_PAGE sz = 113)
          ∧ AnyWidth.bytes_per_member sz = 1 + 4.
Proof.
  intros (sz & Hsz & Hdoc & Hentry).
  assert (sz = 8) as ->.
  { destruct (documented_group_fixes_xid_width sz) as [Hgroup Hpage].
    destruct Hdoc as [H|H]; [by apply Hgroup|by apply Hpage]. }
  discriminate Hentry.
Qed.

(** C9, amended: a MEMBERs entry costs one byte of flag bits plus one
    transaction id, whatever the width of TransactionId is.  Entries are
    packed in groups of 8 that share one 8-byte block of flag bits; for
    every member offset the flag byte lies in the block at the head of its
    group, the xid lies behind the block, inside the group and inside the
    page, and all 8 offsets of a group use the same block.  The entry is
    the five bytes of the specification exactly when the id is 4 bytes
    wide, and the group is the one the source documents, 72 bytes and 113
    to a page, exactly when it is 8 bytes wide. *)
Theorem member_group_layout (sizeof_TransactionId offset : Z) :
  0 < sizeof_TransactionId →
  AnyWidth.MULTIXACT_MEMBERGROUP_SIZE sizeof_TransactionId ≤ BLCKSZ →
  0 ≤ offset →
  AnyWidth.bytes_per_member sizeof_TransactionId = 1 + sizeof_TransactionId
  ∧ MULTIXACT_MEMBERS_PER_MEMBERGROUP = 8
  ∧ MULTIXACT_FLAGBYTES_PER_GROUP = 8
  ∧ AnyWidth.MULTIXACT_MEMBERGROUP_SIZE sizeof_TransactionId
    = MULTIXACT_MEMBERS_PER_MEMBERGROUP * AnyWidth.bytes_per_member sizeof_TransactionId
  ∧ AnyWidth.MXOffsetToFlagsOffset sizeof_TransactionId offset =
      AnyWidth.MXOffsetToFlagsOffset sizeof_TransactionId
        (offset - offset mod MULTIXACT_MEMBERS_PER_MEMBERGROUP)
  ∧ 0 ≤ MXOffsetToFlagsBitShift offset ≤ 56
  ∧ MXOffsetToFlagsBitShift offset
      = 8 * (offset mod MULTIXACT_MEMBERS_PER_MEMBERGROUP)
  ∧ AnyWidth.MXOffsetToFlagsOffset sizeof_TransactionId offset
    + MULTIXACT_FLAGBYTES_PER_GROUP
      ≤ AnyWidth.MXOffsetToMemberOffset sizeof_TransactionId offset
  ∧ AnyWidth.MXOffsetToMemberOffset sizeof_TransactionId offset + sizeof_TransactionId
      ≤ AnyWidth.MXOffsetToFlagsOffset sizeof_TransactionId offset
        + AnyWidth.MULTIXACT_MEMBERGROUP_SIZE sizeof_TransactionId
  ∧ AnyWidth.MXOffsetToFlagsOffset sizeof_TransactionId offset
    + AnyWidth.MULTIXACT_MEMBERGROUP_SIZE sizeof_TransactionId ≤ BLCKSZ
  ∧ (AnyWidth.bytes_per_member sizeof_TransactionId = 1 + 4 ↔ sizeof_TransactionId = 4)
  ∧ (AnyWidth.MULTIXACT_MEMBERGROUP_SIZE sizeof_TransactionId = 72
     ↔ sizeof_TransactionId = 8)
  ∧ (AnyWidth.MULTIXACT_MEMBERGROUPS_PER_PAGE sizeof_TransactionId = 113
     ↔ sizeof_TransactionId = 8).
Proof.
  intros Hsz Hfit Hoff.
  pose proof (proj2 (documented_group_fixes_xid_width sizeof_TransactionId) Hsz) as Hpage.
  unfold AnyWidth.MXOffsetToMemberOffset, AnyWidth.MXOffsetToFlagsOffset,
    MXOffsetToFlagsBitShift, AnyWidth.bytes_per_member,
    AnyWidth.MULTIXACT_MEMBERGROUPS_PER_PAGE, AnyWidth.MULTIXACT_MEMBERGROUP_SIZE in *.
  change MULTIXACT_MEMBERS_PER_MEMBERGROUP with 8 in *.
  change MULTIXACT_FLAGBYTES_PER_GROUP with 8 in *.
  change MXACT_MEMBER_BITS_PER_XACT with 8.
  change BLCKSZ with 8192 in *.
  set (sz := sizeof_TransactionId) in *.
  assert (Hbytes : (sz * 8 + 8) / 8 = 1 + sz).
  { replace (sz * 8 + 8) with ((1 + sz) * 8) by lia. apply Z.div_mul. lia. }
  assert (Hd : 0 < sz * 8 + 8) by lia.
  set (groups := 8192 / (sz * 8 + 8)).
  assert (Hgroups : 0 < groups ∧ groups * (sz * 8 + 8) ≤ 8192).
  { unfold groups. split.
    - apply Z.div_str_pos. lia.
    - rewrite Z.mul_comm. apply Z.mul_div_le. lia. }
  pose proof (Z.mod_pos_bound offset 8 ltac:(lia)) as Hm.
  pose proof (Z.mod_pos_bound (offset / 8) groups ltac:(lia)) as Hg.
  assert (Hsame : (offset - offset mod 8) / 8 = offset / 8).
  { rewrite (Z.div_mod offset 8) at 1 by lia.
    replace (8 * (offset / 8) + offset mod 8 - offset mod 8) with (offset / 8 * 8) by lia.
    apply Z.div_mul; lia. }
  rewrite Hsame, Hbytes.
  repeat split; try reflexivity; try lia; try nia; by apply Hpage.
Qed.

(** *** Truncation *)

(** C10: when the requested floor precedes or equals the current
    oldestMultiXactId, TruncateMultiXact returns with the state it was
    called in: no truncate record, no segment deleted, no counter moved. *)
Theorem TruncateMultiXact_floor_not_ahead (w : world) (newOldestMulti newOldestMultiDB : Z) :
  MultiXactIdPrecedesOrEquals newOldestMulti (oldestMultiXactId (MultiXactState w)) = true →
  TruncateMultiXact newOldestMulti newOldestMultiDB w = Done tt w.
Proof.
  intros Hle. unfold TruncateMultiXact, bind, gets, ret. rewrite Hle. reflexivity.
Qed.

(** Proofs of facts that do not involve the external functions drop them
    from the context first. *)
Ltac drop_externals :=
  try clear MultiXactIdPrecedes; try clear MultiXactIdPrecedesOrEquals;
  try clear ISUPDATE_from_mxstatus; try clear TransactionIdIsInProgress;
  try clear TransactionIdDidCommit; try clear MaxMultiXactId;
  try clear MaxMultiXactOffset; try clear MyBackendId; try clear MaxOldestSlot;
  try clear IsUnderPostmaster; try clear TransactionIdIsCurrentTransactionId;
  try clear TwoPhaseGetDummyBackendId; try clear IsBinaryUpgrade;
  try clear autovacuum_multixact_freeze_max_age; try clear TransactionIdPrecedes;
  try clear TransactionIdFollowsOrEquals; try clear TransactionIdAdvance.

(** *** The monad *)

Lemma bind_Done {A B} (m : M A) (k : A → M B) (w w' : world) (b : B) :
  bind m k w = Done b w' → ∃ a w1, m w = Done a w1 ∧ k a w1 = Done b w'.
Proof.
  unfold bind. destruct (m w) as [a w1| |]; [|discriminate..].
  intros Hk. eauto.
Qed.

Lemma bind_Done_intro {A B} (m : M A) (k : A → M B) (w w1 : world) (a : A) :
  m w = Done a w1 → bind m k w = k a w1.
Proof. unfold bind. intros ->. reflexivity. Qed.

Tactic Notation "inv_bind" hyp(H) "as" simple_intropattern(a) ident(w1) ident(H1) :=
  apply bind_Done in H as (a & w1 & H1 & H).

Lemma ret_Done {A} (a b : A) (w w' : world) : ret a w = Done b w' → b = a ∧ w' = w.
Proof. by intros [= -> ->]. Qed.

Lemma gets_Done {A} (f : world → A) (b : A) (w w' : world) :
  gets f w = Done b w' → b = f w ∧ w' = w.
Proof. by intros [= <- <-]. Qed.

Lemma modify_Done (f : world → world) (u : unit) (w w' : world) :
  modify f w = Done u w' → w' = f w.
Proof. by intros [= <-]. Qed.

Ltac inv_ret H :=
  first [ apply ret_Done in H as [-> ->]
        | apply ret_Done in H as [? ->]
        | apply ret_Done in H as [_ ->]
        | apply gets_Done in H as [-> ->]
        | apply modify_Done in H as -> ].

(** *** The cache *)

Lemma dlist_search_Some {A} (test : A → bool) (l pre suf : list A) (x : A) :
  dlist_search test l = Some (pre, x, suf) →
  l = pre ++ x :: suf ∧ test x = true ∧ Forall (λ y, test y = false) pre.
Proof.
  revert pre. induction l as [|y l IH]; intros pre; simpl; [discriminate|].
  destruct (test y) eqn:Hy.
  - intros [= <- <- <-]. auto.
  - destruct (dlist_search test l) as [[[pre' z] suf']|]; [|discriminate].
    intros [= <- <- <-]. destruct (IH pre' eq_refl) as (-> & Hz & Hpre).
    auto.
Qed.

Lemma dlist_search_head {A} (test : A → bool) (x : A) (l : list A) :
  test x = true → dlist_search test (x :: l) = Some ([], x, l).
Proof. simpl. intros ->. reflexivity. Qed.

Lemma cache_wf_move_head (w : world) (pre suf : list mXactCacheEnt) (entry : mXactCacheEnt) :
  cache_wf w → MXactCache w = pre ++ entry :: suf →
  cache_wf (set_cache (entry :: pre ++ suf) (MXactCacheMembers w) w).
Proof.
  intros [Hn Hall] Hl. split; simpl.
  - rewrite Hn, Hl. rewrite !length_app. simpl. lia.
  - rewrite Hl in Hall. apply Forall_app in Hall as [Hpre Hsuf].
    apply Forall_cons in Hsuf as [He Hsuf].
    apply Forall_cons. split; [exact He|]. apply Forall_app. auto.
Qed.

Lemma mXactCacheGetById_spec (multi : Z) (w w' : world) (n : Z) (ms : list MultiXactMember) :
  mXactCacheGetById multi w = Done (n, ms) w' →
  durable w' = durable w
  ∧ (cache_wf w → cache_wf w' ∧ (n = -1 ∧ ms = [] ∨ n = Z.of_nat (length ms))).
Proof.
  unfold mXactCacheGetById.
  destruct (dlist_search _ (MXactCache w)) as [[[pre entry] suf]|] eqn:Hs.
  - intros [= <- <- <-]. apply dlist_search_Some in Hs as (Hl & _ & _).
    split; [reflexivity|]. intros Hwf. split.
    + by apply cache_wf_move_head.
    + right. destruct Hwf as [_ Hall]. rewrite Hl in Hall.
      apply Forall_app in Hall as [_ Hall]. apply Forall_cons in Hall as [He _].
      by rewrite length_fmap.
  - intros [= <- <- <-]. split; [reflexivity|]. intros Hwf. split; [exact Hwf|]. by left.
Qed.

Lemma length_qsort (l : list MultiXactMember) : length (qsort l) = length l.
Proof. unfold qsort. apply Permutation_length, merge_sort_Permutation. Qed.

Lemma length_qsort_in_memory (l : list MultiXactMemberBytes) :
  length (qsort_in_memory l) = length l.
Proof. unfold qsort_in_memory. apply Permutation_length, merge_sort_Permutation. Qed.

Lemma removelast_cons_length {A} (x : A) (l : list A) :
  l ≠ [] → removelast (x :: l) = x :: removelast l ∧ length (removelast l) = pred (length l).
Proof.
  intros Hl. split.
  - destruct l; [done|reflexivity].
  - rewrite removelast_firstn_len. apply length_take_le. lia.
Qed.

Lemma Forall_removelast {A} (P : A → Prop) (l : list A) :
  Forall P l → Forall P (removelast l).
Proof.
  induction 1 as [|x l Hx Hl IH]; [constructor|].
  destruct l as [|y l]; [constructor|].
  change (removelast (x :: y :: l)) with (x :: removelast (y :: l)).
  by constructor.
Qed.

(** After mXactCachePut the new entry is at the head, whatever was evicted. *)
Lemma mXactCachePut_spec (multi n : Z) (ms : list MultiXactMemberBytes) (w : world) :
  cache_wf w → n = Z.of_nat (length ms) →
  ∃ w', mXactCachePut multi n ms w = Done tt w'
        ∧ durable w' = durable w
        ∧ cache_wf w'
        ∧ ∃ rest, MXactCache w' = mkEnt multi n (qsort_in_memory ms) :: rest.
Proof.
  intros [Hn Hall] ->. unfold mXactCachePut.
  rewrite Nat2Z.id, firstn_all.
  assert (Hent : entry_nmembers (mkEnt multi (Z.of_nat (length ms)) (qsort_in_memory ms))
                 = Z.of_nat (length (entry_members (mkEnt multi (Z.of_nat (length ms)) (qsort_in_memory ms))))).
  { simpl. by rewrite length_qsort_in_memory. }
  destruct (MAX_CACHE_ENTRIES <=? MXactCacheMembers w) eqn:Hfull.
  - apply Z.leb_le in Hfull. unfold MAX_CACHE_ENTRIES in Hfull.
    assert (Hne : MXactCache w ≠ []).
    { intros Hnil. rewrite Hnil in Hn. simpl in Hn. lia. }
    destruct (removelast_cons_length (mkEnt multi (Z.of_nat (length ms)) (qsort_in_memory ms)) _ Hne)
      as [Hrl Hlen].
    rewrite Hrl.
    eexists. split; [reflexivity|]. split; [reflexivity|]. split.
    + split; cbn [MXactCache MXactCacheMembers set_cache].
      * cbn [length]. rewrite Hlen, Hn.
        destruct (MXactCache w); [done|]. simpl. lia.
      * constructor; [exact Hent|]. by apply Forall_removelast.
    + cbn [MXactCache set_cache]. eauto.
  - eexists. split; [reflexivity|]. split; [reflexivity|]. split.
    + split; simpl MXactCache; simpl MXactCacheMembers.
      * rewrite Hn. simpl length. lia.
      * by constructor.
    + simpl. eauto.
Qed.

(** *** GetMultiXactIdMembers leaves the durable state alone *)

Lemma MultiXactIdSetOldestVisible_spec (w w' : world) (u : unit) :
  MultiXactIdSetOldestVisible w = Done u w' →
  durable w' = durable w ∧ MXactCache w' = MXactCache w
  ∧ MXactCacheMembers w' = MXactCacheMembers w.
Proof.
  unfold MultiXactIdSetOldestVisible.
  destruct (negb _); intros [= _ <-]; auto.
Qed.

Lemma SimpleLruReadPage_Done (offsets_log : bool) (pageno : Z) (w w' : world) (page : gmap Z Z) :
  SimpleLruReadPage offsets_log pageno w = Done page w' →
  w' = w
  ∧ page_buffer (if offsets_log then MultiXactOffsetCtl w else MultiXactMemberCtl w) !! pageno
    = Some page.
Proof.
  unfold SimpleLruReadPage.
  destruct (page_buffer _ !! pageno) as [pg|]; [|discriminate].
  intros [= <- <-]. auto.
Qed.

(** Handing out uninitialised memory moves the stream and nothing else. *)
Lemma uninitialised_padding_Done (n : nat) (w w' : world) (padding : list Z) :
  uninitialised_padding n w = Done padding w' →
  length padding = n ∧ w' = set_uninitialised (drop n (uninitialised w)) w.
Proof.
  unfold uninitialised_padding. intros [= <- <-]. split; [|done].
  rewrite length_take, length_app, length_replicate. lia.
Qed.

Lemma palloc_MultiXactMember_Done (nelems : Z) (w w' : world) (padding : list Z) :
  palloc_MultiXactMember nelems w = Done padding w' →
  0 ≤ nelems ∧ length padding = Z.to_nat nelems
  ∧ w' = set_uninitialised (drop (Z.to_nat nelems) (uninitialised w)) w.
Proof.
  unfold palloc_MultiXactMember. destruct (Z.ltb_spec nelems 0); [discriminate|].
  intros [? ?]%uninitialised_padding_Done. auto.
Qed.

(** The read loop adds at most one member a turn. *)
Lemma GetMultiXactIdMembers_read_length (length : nat) (offset prev_pageno : Z)
    (ptr r : list MultiXactMember) (w w' : world) :
  GetMultiXactIdMembers_read length offset prev_pageno ptr w = Done r w' →
  (List.length r ≤ List.length ptr + length)%nat.
Proof.
  revert offset prev_pageno ptr w.
  induction length as [|length IH]; intros offset prev_pageno ptr w; simpl.
  - intros H. inv_ret H. lia.
  - intros H. inv_bind H as [] w1 Hread.
    inv_bind H as page w2 Hpage.
    destruct (negb (TransactionIdIsValid _)); apply IH in H;
      [|rewrite length_app in H; simpl in H]; lia.
Qed.

Lemma GetMultiXactIdMembers_read_same (length : nat) (offset prev_pageno : Z)
    (ptr r : list MultiXactMember) (w w' : world) :
  GetMultiXactIdMembers_read length offset prev_pageno ptr w = Done r w' → w' = w.
Proof.
  revert offset prev_pageno ptr w.
  induction length as [|length IH]; intros offset prev_pageno ptr w; simpl.
  - intros H. by inv_ret H.
  - intros H. inv_bind H as [] w1 Hread.
    assert (w1 = w) as ->.
    { destruct (negb _).
      - inv_bind Hread as pg w2 Hpg. apply SimpleLruReadPage_Done in Hpg as [-> _].
        by inv_ret Hread.
      - by inv_ret Hread. }
    inv_bind H as page w1 Hpage. inv_ret Hpage.
    destruct (negb (TransactionIdIsValid _)); by apply IH in H.
Qed.

Lemma GetMultiXactIdMembers_spec (multi : Z) (from_pgupgrade onlyLock : bool)
    (w w' : world) (n : Z) (ms : list MultiXactMember) :
  cache_wf w →
  GetMultiXactIdMembers multi from_pgupgrade onlyLock w = Done (n, ms) w' →
  durable w' = durable w ∧ cache_wf w'
  ∧ (n = -1 ∧ ms = [] ∨ n = Z.of_nat (length ms)).
Proof.
  intros Hwf. unfold GetMultiXactIdMembers.
  destruct (negb (MultiXactIdIsValid multi) || from_pgupgrade).
  { intros [= <- <- <-]. auto. }
  intros H. inv_bind H as [len cached] w1 Hget.
  apply mXactCacheGetById_spec in Hget as [Hd1 Hc1]. destruct (Hc1 Hwf) as [Hwf1 Hlen1].
  destruct (0 <=? len) eqn:Hhit.
  { apply ret_Done in H as [[= -> ->] ->]. apply Z.leb_le in Hhit.
    split; [done|]. split; [done|].
    destruct Hlen1 as [[-> _]|]; [lia|by right]. }
  inv_bind H as [] w2 Hvis.
  apply MultiXactIdSetOldestVisible_spec in Hvis as (Hd2 & Hc2 & Hn2).
  assert (Hwf2 : cache_wf w2).
  { destruct Hwf1 as [? ?]. split; [by rewrite Hn2, Hc2|by rewrite Hc2]. }
  inv_bind H as visible w3 Hg. apply gets_Done in Hg as [-> ->].
  destruct (onlyLock && _).
  { apply ret_Done in H as [[= -> ->] ->]. split; [congruence|]. auto. }
  inv_bind H as next w3 Hg. apply gets_Done in Hg as [-> ->].
  inv_bind H as nextoff w3 Hg. apply gets_Done in Hg as [-> ->].
  inv_bind H as page w3 Hpage. apply SimpleLruReadPage_Done in Hpage as [-> _].
  inv_bind H as len' w3 Hlen.
  assert (w3 = w2) as ->.
  { destruct (_ =? uint64 (multi + 1)).
    - by apply ret_Done in Hlen as [_ ->].
    - inv_bind Hlen as page' w4 Hpage'.
      assert (w4 = w2) as ->.
      { destruct (negb _).
        - by apply SimpleLruReadPage_Done in Hpage' as [-> _].
        - by apply ret_Done in Hpage' as [_ ->]. }
      destruct (_ =? 0); [discriminate|]. by apply ret_Done in Hlen as [_ ->]. }
  inv_bind H as padding w3 Hpad.
  apply palloc_MultiXactMember_Done in Hpad as (_ & Hpadding & ->).
  inv_bind H as ptr w3 Hread.
  pose proof (GetMultiXactIdMembers_read_length _ _ _ _ _ _ _ Hread) as Hptr.
  apply GetMultiXactIdMembers_read_same in Hread as ->.
  inv_bind H as [] w3 Hput.
  set (w2' := set_uninitialised _ w2) in *.
  destruct (mXactCachePut_spec multi (Z.of_nat (length ptr)) (zip ptr padding) w2' Hwf2)
    as (w5 & Hput' & Hd5 & Hwf5 & _).
  { rewrite length_zip_with_l by (simpl in Hptr; lia). done. }
  rewrite Hput' in Hput. injection Hput as <-.
  apply ret_Done in H as [[= -> ->] ->]. split; [|auto].
  rewrite Hd5. change (durable w2') with (durable w2). congruence.
Qed.

(** *** Extending and writing the logs *)

Lemma log_frame_refl (w : world) : log_frame w w.
Proof. unfold log_frame, pages_grow. repeat split; auto. Qed.

Lemma log_frame_trans (w1 w2 w3 : world) :
  log_frame w1 w2 → log_frame w2 w3 → log_frame w1 w3.
Proof.
  intros (Hs & Hc & Hn & Hr & Hx & Ho & Hm) (Hs' & Hc' & Hn' & Hr' & Hx' & Ho' & Hm').
  repeat split; try congruence.
  - intros p Hp. by apply Ho', Ho.
  - intros p Hp. by apply Hm', Hm.
Qed.

Lemma created_app (l1 l2 : list xl_multixact) : created (l1 ++ l2) = created l1 ++ created l2.
Proof. unfold created. apply omap_app. Qed.

Lemma pages_grow_zero (pageno : Z) (ctl : SlruCtlData) :
  pages_grow ctl (SimpleLruZeroPage pageno ctl)
  ∧ is_Some (page_buffer (SimpleLruZeroPage pageno ctl) !! pageno).
Proof.
  split.
  - intros p Hp. simpl. destruct (decide (pageno = p)) as [->|Hne].
    + rewrite lookup_insert_eq. eauto.
    + by rewrite lookup_insert_ne.
  - simpl. rewrite lookup_insert_eq. eauto.
Qed.

Lemma pages_grow_store (pageno k v : Z) (ctl : SlruCtlData) :
  pages_grow ctl (slru_store pageno k v ctl)
  ∧ is_Some (page_buffer (slru_store pageno k v ctl) !! pageno).
Proof.
  split.
  - intros p Hp. simpl. destruct (decide (pageno = p)) as [->|Hne].
    + rewrite lookup_insert_eq. eauto.
    + by rewrite lookup_insert_ne.
  - simpl. rewrite lookup_insert_eq. eauto.
Qed.

Lemma ZeroMultiXactOffsetPage_spec (pageno : Z) (w : world) :
  ∃ w', ZeroMultiXactOffsetPage pageno true w = Done tt w' ∧ log_frame w w'
        ∧ is_Some (page_buffer (MultiXactOffsetCtl w') !! pageno).
Proof.
  eexists. split; [reflexivity|]. split.
  - unfold log_frame. simpl. rewrite created_app. simpl. rewrite app_nil_r.
    repeat split; try done; try apply pages_grow_zero; by intros p Hp.
  - simpl. rewrite lookup_insert_eq. eauto.
Qed.

Lemma ZeroMultiXactMemberPage_spec (pageno : Z) (w : world) :
  ∃ w', ZeroMultiXactMemberPage pageno true w = Done tt w' ∧ log_frame w w'
        ∧ is_Some (page_buffer (MultiXactMemberCtl w') !! pageno).
Proof.
  eexists. split; [reflexivity|]. split.
  - unfold log_frame. simpl. rewrite created_app. simpl. rewrite app_nil_r.
    repeat split; try done; try apply pages_grow_zero; by intros p Hp.
  - simpl. rewrite lookup_insert_eq. eauto.
Qed.

Lemma int32_small (z : Z) : 0 ≤ z < 2 ^ 31 → int32 z = z.
Proof.
  intros Hz. unfold int32. rewrite Z.mod_small by lia.
  destruct (z <? 2 ^ 31) eqn:Hlt; [done|]. apply Z.ltb_ge in Hlt. lia.
Qed.

Lemma int32_signed (z : Z) : - 2 ^ 31 ≤ z < 2 ^ 31 → int32 z = z.
Proof.
  intros Hz. destruct (decide (0 ≤ z)) as [Hpos|Hneg]; [apply int32_small; lia|].
  unfold int32. replace (z mod 2 ^ 32) with (z + 2 ^ 32).
  - destruct (z + 2 ^ 32 <? 2 ^ 31) eqn:Hlt; [apply Z.ltb_lt in Hlt; lia|lia].
  - apply Z.mod_unique with (q := -1); lia.
Qed.

Lemma uint64_small (z : Z) : 0 ≤ z < 2 ^ 64 → uint64 z = z.
Proof. intros Hz. unfold uint64. by apply Z.mod_small. Qed.

Lemma uint32_small (z : Z) : 0 ≤ z < 2 ^ 32 → uint32 z = z.
Proof. intros Hz. unfold uint32. by apply Z.mod_small. Qed.

Lemma ExtendMultiXactOffset_spec (multi : Z) (w : world) :
  ∃ w', ExtendMultiXactOffset multi w = Done tt w' ∧ log_frame w w'
        ∧ (0 ≤ MultiXactIdToOffsetPage multi < 2 ^ 31 →
           MultiXactIdToOffsetEntry multi = 0 ∨ multi = FirstMultiXactId →
           is_Some (page_buffer (MultiXactOffsetCtl w') !! MultiXactIdToOffsetPage multi)).
Proof.
  unfold ExtendMultiXactOffset.
  destruct (negb (MultiXactIdToOffsetEntry multi =? 0) && negb (multi =? FirstMultiXactId))
    eqn:Hskip.
  - exists w. split; [done|]. split; [apply log_frame_refl|].
    intros _ [He|He]; apply andb_true_iff in Hskip as [H1 H2].
    + rewrite He in H1. done.
    + rewrite He in H2. done.
  - destruct (ZeroMultiXactOffsetPage_spec (int32 (MultiXactIdToOffsetPage multi)) w)
      as (w' & Hz & Hf & Hp).
    exists w'. split; [done|]. split; [done|].
    intros Hrange _. by rewrite int32_small in Hp.
Qed.

Lemma first_slot_of_page (offset : Z) :
  0 ≤ offset →
  (MXOffsetToFlagsOffset offset =? 0) && (MXOffsetToFlagsBitShift offset =? 0) = true
  ↔ offset mod MULTIXACT_MEMBERS_PER_PAGE = 0.
Proof.
  drop_externals.
  intros Hoff.
  unfold MXOffsetToFlagsOffset, MXOffsetToFlagsBitShift.
  change MULTIXACT_MEMBERS_PER_MEMBERGROUP with 8.
  change MULTIXACT_MEMBERGROUPS_PER_PAGE with 113.
  change MULTIXACT_MEMBERGROUP_SIZE with 72.
  change MXACT_MEMBER_BITS_PER_XACT with 8.
  change MULTIXACT_MEMBERS_PER_PAGE with 904.
  rewrite andb_true_iff, !Z.eqb_eq.
  Z.div_mod_to_equations. lia.
Qed.

Lemma ExtendMultiXactMember_loop_spec (turns : nat) (offset nmembers : Z) (w : world) :
  ∃ w', ExtendMultiXactMember_loop turns offset nmembers w = Done tt w'
        ∧ log_frame w w'
        ∧ (0 ≤ offset → nmembers < 2 ^ 31 →
           MXOffsetToMemberPage (offset + nmembers) < 2 ^ 31 →
           (Z.to_nat nmembers ≤ turns)%nat →
           ∀ o, offset ≤ o < offset + nmembers → o mod MULTIXACT_MEMBERS_PER_PAGE = 0 →
                is_Some (page_buffer (MultiXactMemberCtl w') !! MXOffsetToMemberPage o)).
Proof.
  drop_externals.
  revert offset nmembers w.
  induction turns as [|turns IH]; intros offset nmembers w.
  { exists w. split; [done|]. split; [apply log_frame_refl|]. intros; lia. }
  cbn [ExtendMultiXactMember_loop].
  destruct (0 <? nmembers) eqn:Hpos; cycle 1.
  { exists w. split; [done|]. split; [apply log_frame_refl|].
    apply Z.ltb_ge in Hpos. intros; lia. }
  apply Z.ltb_lt in Hpos.
  set (first := (MXOffsetToFlagsOffset offset =? 0) && (MXOffsetToFlagsBitShift offset =? 0)).
  assert (Hzero : ∃ wz,
    (if first then ZeroMultiXactMemberPage (int32 (MXOffsetToMemberPage offset)) true
     else ret tt) w = Done tt wz
    ∧ log_frame w wz
    ∧ (first = true →
       is_Some (page_buffer (MultiXactMemberCtl wz) !! int32 (MXOffsetToMemberPage offset)))).
  { destruct first.
    - destruct (ZeroMultiXactMemberPage_spec (int32 (MXOffsetToMemberPage offset)) w)
        as (wz & Hz & Hf & Hp). eauto.
    - exists w. split; [done|]. split; [apply log_frame_refl|]. done. }
  destruct Hzero as (wz & Hz & Hfz & Hpz).
  set (difference := uint32 (MULTIXACT_MEMBERS_PER_PAGE - offset mod MULTIXACT_MEMBERS_PER_PAGE)).
  destruct (IH (uint64 (offset + difference)) (int32 (nmembers - difference)) wz)
    as (w' & Hloop & Hf' & Hp').
  exists w'. split.
  { rewrite (bind_Done_intro _ _ _ _ _ Hz). exact Hloop. }
  split; [by eapply log_frame_trans|].
  intros Hoff Hn Hpage Hturns o Ho Hstart.
  unfold MXOffsetToMemberPage in *.
  change MULTIXACT_MEMBERS_PER_PAGE with 904 in *.
  assert (Hd : difference = 904 - offset mod 904).
  { unfold difference. apply uint32_small. Z.div_mod_to_equations. lia. }
  assert (Hnext : uint64 (offset + difference) = offset + difference).
  { apply uint64_small. rewrite Hd. Z.div_mod_to_equations. lia. }
  assert (Hrest : int32 (nmembers - difference) = nmembers - difference).
  { apply int32_signed. rewrite Hd. Z.div_mod_to_equations. lia. }
  rewrite Hnext, Hrest in Hp'. clear Hnext Hrest.
  clearbody difference. subst difference.
  pose proof (Z.mod_pos_bound offset 904 ltac:(lia)) as Hmod.
  destruct (decide (o < offset + (904 - offset mod 904))) as [Hhere|Hlater].
  - assert (o = offset) as -> by (Z.div_mod_to_equations; lia).
    destruct Hf' as (_ & _ & _ & _ & _ & _ & Hgrow). apply Hgrow.
    rewrite int32_small in Hpz by (Z.div_mod_to_equations; lia).
    apply Hpz. apply first_slot_of_page; done.
  - apply Hp'; [lia|lia| |lia|lia|done].
    replace (offset + (904 - offset mod 904) + (nmembers - (904 - offset mod 904)))
      with (offset + nmembers) by lia.
    done.
Qed.

Lemma GetNewMultiXactId_Done (nmembers : Z) (w : world) :
  InRecovery w = false →
  let multi :=
    if nextMXact (MultiXactState w) <? FirstMultiXactId then FirstMultiXactId
    else nextMXact (MultiXactState w) in
  let offset := nextOffset (MultiXactState w) in
  ∃ w', GetNewMultiXactId nmembers w = Done (multi, offset) w'
        ∧ nextMXact (MultiXactState w') = uint64 (multi + 1)
        ∧ nextOffset (MultiXactState w') = uint64 (offset + nmembers)
        ∧ MXactCache w' = MXactCache w
        ∧ MXactCacheMembers w' = MXactCacheMembers w
        ∧ created (xlog w') = created (xlog w)
        ∧ (0 ≤ MultiXactIdToOffsetPage multi < 2 ^ 31 →
           (MultiXactIdToOffsetEntry multi ≠ 0 → multi ≠ FirstMultiXactId →
            is_Some (page_buffer (MultiXactOffsetCtl w) !! MultiXactIdToOffsetPage multi)) →
           is_Some (page_buffer (MultiXactOffsetCtl w') !! MultiXactIdToOffsetPage multi))
        ∧ (0 ≤ offset → nmembers < 2 ^ 31 →
           MXOffsetToMemberPage (offset + nmembers) < 2 ^ 31 →
           (offset mod MULTIXACT_MEMBERS_PER_PAGE ≠ 0 →
            is_Some (page_buffer (MultiXactMemberCtl w) !! MXOffsetToMemberPage offset)) →
           ∀ o, offset ≤ o < offset + nmembers →
                is_Some (page_buffer (MultiXactMemberCtl w') !! MXOffsetToMemberPage o)).
Proof.
  drop_externals.
  intros Hrec multi offset.
  unfold GetNewMultiXactId, bind, gets, modify, ret. rewrite Hrec.
  subst multi offset.
  destruct (nextMXact (MultiXactState w) <? FirstMultiXactId) eqn:Hwrap;
    cbn [MultiXactState set_MultiXactState nextMXact set_nextMXact multiVacLimit];
    (destruct (negb (MultiXactIdPrecedes _ _)); [destruct (IsUnderPostmaster && _)|]);
    cbn [MultiXactState set_MultiXactState SendPostmasterSignal nextMXact set_nextMXact];
    match goal with
    | |- context [ExtendMultiXactOffset ?m ?wx] =>
        destruct (ExtendMultiXactOffset_spec m wx)
          as (w3 & He3 & (Hs3 & Hc3 & Hn3 & _ & Hx3 & Ho3 & Hmg3) & Hp3);
        rewrite He3, Hs3
    end;
    cbn [MultiXactState set_MultiXactState nextOffset set_nextMXact];
    unfold ExtendMultiXactMember;
    match goal with
    | |- context [ExtendMultiXactMember_loop ?t ?o ?n ?wx] =>
        destruct (ExtendMultiXactMember_loop_spec t o n wx)
          as (w4 & He4 & (Hs4 & Hc4 & Hn4 & _ & Hx4 & Ho4 & Hmg4) & Hp4);
        rewrite He4
    end;
    (eexists; split; [reflexivity|]);
    cbn [MultiXactState set_MultiXactState START_CRIT_SECTION set_CritSectionCount
         nextMXact nextOffset set_nextMXact set_nextOffset MXactCache MXactCacheMembers
         xlog MultiXactOffsetCtl MultiXactMemberCtl SendPostmasterSignal] in *;
    rewrite Hs4, Hs3;
    cbn [nextMXact nextOffset set_nextMXact];
    (split; [done|]); (split; [done|]);
    (split; [congruence|]); (split; [congruence|]); (split; [congruence|]);
    (split;
     [ intros Hrange Hexists; apply Ho4;
       match goal with
       | |- is_Some (_ !! MultiXactIdToOffsetPage ?m) =>
           destruct (decide (MultiXactIdToOffsetEntry m = 0 ∨ m = FirstMultiXactId))
             as [Hfirst|Hnot];
           [by apply Hp3|apply Ho3; apply Hexists; tauto]
       end
     | intros Hoff Hn Hpage Hexists o Ho;
       unfold MXOffsetToMemberPage in *; change MULTIXACT_MEMBERS_PER_PAGE with 904 in *;
       destruct (decide (o / 904 = nextOffset (MultiXactState w) / 904
                         ∧ nextOffset (MultiXactState w) mod 904 ≠ 0))
         as [[Hsame Hmid]|Hnew];
       [ rewrite Hsame; apply Hmg4, Hmg3; by apply Hexists
       | replace (o / 904) with ((904 * (o / 904)) / 904)
           by (rewrite Z.mul_comm; apply Z.div_mul; lia);
         apply Hp4; try done; try lia;
         [ Z.div_mod_to_equations; lia | rewrite Z.mul_comm; apply Z.mod_mul; lia ] ] ]).
Qed.

Lemma SimpleLruReadPage_exists (offsets_log : bool) (pageno : Z) (w : world) :
  is_Some (page_buffer (if offsets_log then MultiXactOffsetCtl w else MultiXactMemberCtl w)
             !! pageno) →
  ∃ page, SimpleLruReadPage offsets_log pageno w = Done page w.
Proof. intros [page Hp]. exists page. unfold SimpleLruReadPage. by rewrite Hp. Qed.

Lemma log_frame_store_members (pageno k v : Z) (w : world) :
  log_frame w (set_MultiXactMemberCtl (slru_store pageno k v) w).
Proof.
  unfold log_frame. simpl. repeat split; try done; [by intros p Hp|].
  apply pages_grow_store.
Qed.

Lemma log_frame_store_offsets (pageno k v : Z) (w : world) :
  log_frame w (set_MultiXactOffsetCtl (slru_store pageno k v) w).
Proof.
  unfold log_frame. simpl. repeat split; try done; [|by intros p Hp].
  apply pages_grow_store.
Qed.

Lemma RecordNewMultiXact_members_spec (members : list MultiXactMember)
    (multi offset prev_pageno : Z) (w : world) :
  0 ≤ offset → offset + Z.of_nat (length members) < 2 ^ 64 →
  (∀ o, offset ≤ o < offset + Z.of_nat (length members) →
        is_Some (page_buffer (MultiXactMemberCtl w) !! MXOffsetToMemberPage o)) →
  ∃ w', RecordNewMultiXact_members multi offset prev_pageno members w = Done tt w'
        ∧ log_frame w w'.
Proof.
  revert offset prev_pageno w.
  induction members as [|member members IH]; intros offset prev_pageno w Hoff Hend Hpages.
  { exists w. split; [done|apply log_frame_refl]. }
  cbn [RecordNewMultiXact_members]. cbn [length] in Hend, Hpages.
  assert (Hread : (if negb (MXOffsetToMemberPage offset =? prev_pageno)
                   then SimpleLruReadPage false (MXOffsetToMemberPage offset);;; ret ()
                   else ret ()) w = Done tt w).
  { destruct (negb _); [|done].
    destruct (SimpleLruReadPage_exists false (MXOffsetToMemberPage offset) w) as [page Hp].
    - apply Hpages. lia.
    - by rewrite (bind_Done_intro _ _ _ _ _ Hp). }
  rewrite (bind_Done_intro _ _ _ _ _ Hread).
  unfold bind at 1, modify at 1. unfold bind at 1, gets at 1.
  unfold bind at 1, modify at 1.
  match goal with
  | |- ∃ w', RecordNewMultiXact_members _ _ _ _ ?wx = _ ∧ _ =>
      assert (Hf : log_frame w wx)
        by (eapply log_frame_trans; apply log_frame_store_members);
      destruct (IH (uint64 (offset + 1)) (MXOffsetToMemberPage offset) wx)
        as (w' & Hrec & Hf')
  end.
  - rewrite uint64_small; lia.
  - rewrite uint64_small; lia.
  - intros o Ho. rewrite uint64_small in Ho by lia.
    destruct Hf as (_ & _ & _ & _ & _ & _ & Hgrow). apply Hgrow, Hpages. lia.
  - exists w'. split; [done|]. by eapply log_frame_trans.
Qed.

Lemma RecordNewMultiXact_spec (multi offset : Z) (members : list MultiXactMember) (w : world) :
  is_Some (page_buffer (MultiXactOffsetCtl w) !! MultiXactIdToOffsetPage multi) →
  0 ≤ offset → offset + Z.of_nat (length members) < 2 ^ 64 →
  (∀ o, offset ≤ o < offset + Z.of_nat (length members) →
        is_Some (page_buffer (MultiXactMemberCtl w) !! MXOffsetToMemberPage o)) →
  ∃ w', RecordNewMultiXact multi offset (Z.of_nat (length members)) members w = Done tt w'
        ∧ log_frame w w'.
Proof.
  intros Hpage Hoff Hend Hpages. unfold RecordNewMultiXact.
  destruct (SimpleLruReadPage_exists true _ w Hpage) as [page Hp].
  rewrite (bind_Done_intro _ _ _ _ _ Hp).
  unfold bind at 1, modify at 1. rewrite Nat2Z.id, firstn_all.
  match goal with
  | |- ∃ w', RecordNewMultiXact_members _ _ _ _ ?wx = _ ∧ _ =>
      destruct (RecordNewMultiXact_members_spec members multi offset (-1) wx)
        as (w' & Hrec & Hf'); [done|done|done|]
  end.
  exists w'. split; [done|].
  eapply log_frame_trans; [apply log_frame_store_offsets|done].
Qed.

(** *** Sorting members *)

Lemma member_le_lex (a b : MultiXactMember) :
  member_le a b ↔ xid a < xid b ∨ (xid a = xid b ∧ status a ≤ status b).
Proof.
  unfold member_le, mxactMemberComparator.
  destruct (xid b <? xid a) eqn:H1; [apply Z.ltb_lt in H1|apply Z.ltb_ge in H1];
  destruct (xid a <? xid b) eqn:H2; [apply Z.ltb_lt in H2|apply Z.ltb_ge in H2| |];
  try (apply Z.ltb_lt in H2); try (apply Z.ltb_ge in H2);
  destruct (status b <? status a) eqn:H3; [apply Z.ltb_lt in H3|apply Z.ltb_ge in H3| | | | | |];
  try (apply Z.ltb_lt in H3); try (apply Z.ltb_ge in H3);
  destruct (status a <? status b) eqn:H4;
  try (apply Z.ltb_lt in H4); try (apply Z.ltb_ge in H4); lia.
Qed.

Global Instance member_le_total : Total member_le.
Proof. intros a b. rewrite !member_le_lex. lia. Qed.

Global Instance member_le_trans : Transitive member_le.
Proof. intros a b c. rewrite !member_le_lex. lia. Qed.

Global Instance member_le_antisymm : AntiSymm (=) member_le.
Proof.
  intros [xa sa] [xb sb]. rewrite !member_le_lex. simpl. intros H1 H2.
  f_equal; lia.
Qed.

Lemma qsort_Permutation (l : list MultiXactMember) : qsort l ≡ₚ l.
Proof. apply merge_sort_Permutation. Qed.

Lemma qsort_Sorted (l : list MultiXactMember) : Sorted member_le (qsort l).
Proof. apply Sorted_merge_sort, _. Qed.

(** The sorted array depends on the set of members only. *)
Lemma qsort_order_independent (l1 l2 : list MultiXactMember) :
  l1 ≡ₚ l2 → qsort l1 = qsort l2.
Proof.
  intros Hp. apply (Sorted_unique member_le); try apply qsort_Sorted.
  by rewrite !qsort_Permutation.
Qed.

Lemma qsort_idempotent (l : list MultiXactMember) : qsort (qsort l) = qsort l.
Proof. apply qsort_order_independent, qsort_Permutation. Qed.

Global Instance member_bytes_le_total : Total member_bytes_le.
Proof. intros a b. apply member_le_total. Qed.

Lemma qsort_in_memory_Permutation (l : list MultiXactMemberBytes) : qsort_in_memory l ≡ₚ l.
Proof. apply merge_sort_Permutation. Qed.

(** The padding travels with the structs and has no say in their order:
    the fields of the sorted array are the sorted fields. *)
Lemma qsort_in_memory_fields (l : list MultiXactMemberBytes) :
  (qsort_in_memory l).*1 = qsort l.*1.
Proof.
  apply (Sorted_unique member_le).
  - apply (Sorted_fmap fst member_bytes_le member_le); [by intros x y|].
    apply Sorted_merge_sort, _.
  - apply qsort_Sorted.
  - rewrite qsort_Permutation. apply fmap_Permutation, qsort_in_memory_Permutation.
Qed.

(** *** The single-updater check *)

Lemma more_than_one_update_count (has_update : bool) (members : list MultiXactMember) :
  more_than_one_update has_update members = true
  ↔ (1 < (if has_update then 1 else 0)
         + length (filter (λ m, ISUPDATE_from_mxstatus (status m)) members))%nat.
Proof.
  revert has_update. induction members as [|m members IH]; intros has_update; simpl.
  { destruct has_update; split; [done|lia|done|lia]. }
  rewrite filter_cons. destruct (ISUPDATE_from_mxstatus (status m)) eqn:Hm.
  - rewrite decide_True by done. simpl length. destruct has_update.
    + split; [lia|done].
    + rewrite IH. lia.
  - rewrite decide_False by (by intros ?). apply IH.
Qed.

Lemma at_most_one_update_check (members : list MultiXactMember) :
  at_most_one_update members ↔ more_than_one_update false members = false.
Proof.
  unfold at_most_one_update. rewrite <- not_true_iff_false, more_than_one_update_count. lia.
Qed.

Lemma at_most_one_update_Permutation (l1 l2 : list MultiXactMember) :
  l1 ≡ₚ l2 → at_most_one_update l1 → at_most_one_update l2.
Proof. unfold at_most_one_update. by intros ->. Qed.

(** *** MultiXactIdCreateFromMembers *)

Lemma RecordNewMultiXact_members_frame (members : list MultiXactMember)
    (multi offset prev_pageno : Z) (w w' : world) (u : unit) :
  RecordNewMultiXact_members multi offset prev_pageno members w = Done u w' →
  log_frame w w'.
Proof.
  revert offset prev_pageno w.
  induction members as [|member members IH]; intros offset prev_pageno w H.
  { apply ret_Done in H as [_ ->]. apply log_frame_refl. }
  cbn [RecordNewMultiXact_members] in H.
  inv_bind H as [] w1 Hread.
  assert (w1 = w) as ->.
  { destruct (negb _).
    - inv_bind Hread as page w2 Hpage. apply SimpleLruReadPage_Done in Hpage as [-> _].
      by apply ret_Done in Hread as [_ ->].
    - by apply ret_Done in Hread as [_ ->]. }
  inv_bind H as [] w1 Hst. apply modify_Done in Hst as ->.
  inv_bind H as flags w1 Hfl. apply gets_Done in Hfl as [-> ->].
  inv_bind H as [] w1 Hst. apply modify_Done in Hst as ->.
  apply IH in H.
  eapply log_frame_trans; [|exact H].
  eapply log_frame_trans; apply log_frame_store_members.
Qed.

Lemma RecordNewMultiXact_frame (multi offset nmembers : Z) (members : list MultiXactMember)
    (w w' : world) (u : unit) :
  RecordNewMultiXact multi offset nmembers members w = Done u w' → log_frame w w'.
Proof.
  unfold RecordNewMultiXact. intros H.
  inv_bind H as page w1 Hpage. apply SimpleLruReadPage_Done in Hpage as [-> _].
  inv_bind H as [] w1 Hst. apply modify_Done in Hst as ->.
  apply RecordNewMultiXact_members_frame in H.
  eapply log_frame_trans; [apply log_frame_store_offsets|done].
Qed.

Lemma take_length_eq {A} (n : Z) (l : list A) : n = Z.of_nat (length l) → take (Z.to_nat n) l = l.
Proof. intros ->. by rewrite Nat2Z.id, firstn_all. Qed.

Lemma mXactCacheGetBySet_spec (members : list MultiXactMemberBytes) (w : world) :
  cache_wf w →
  ∃ cached c,
    mXactCacheGetBySet (Z.of_nat (length members)) members w
    = Done (qsort_in_memory members, cached) (set_cache c (MXactCacheMembers w) w)
    ∧ cache_wf (set_cache c (MXactCacheMembers w) w)
    ∧ (MultiXactIdIsValid cached = true →
       ∃ rest, c = mkEnt cached (Z.of_nat (length members)) (qsort_in_memory members) :: rest)
    ∧ (MXactCache w = [] → cached = InvalidMultiXactId ∧ c = []).
Proof.
  intros Hwf. unfold mXactCacheGetBySet.
  destruct (dlist_search _ (MXactCache w)) as [[[pre entry] suf]|] eqn:Hs.
  - apply dlist_search_Some in Hs as (Hl & Htest & _).
    apply andb_true_iff in Htest as [Hn Hcmp]. apply Z.eqb_eq in Hn.
    unfold memcmp_eq in Hcmp. apply bool_decide_eq_true in Hcmp.
    assert (Hent : entry_nmembers entry = Z.of_nat (length (entry_members entry))).
    { destruct Hwf as [_ Hall]. rewrite Hl in Hall.
      apply Forall_app in Hall as [_ Hall]. by apply Forall_cons in Hall as [He _]. }
    rewrite Nat2Z.id in Hcmp. rewrite <- (length_qsort_in_memory members) in Hcmp at 1.
    rewrite firstn_all in Hcmp.
    rewrite <- (Nat2Z.id (length members)), <- Hn, take_length_eq in Hcmp by done.
    exists (entry_multi entry), (entry :: pre ++ suf).
    split; [done|]. split; [by apply cache_wf_move_head|]. split.
    + intros _. exists (pre ++ suf). f_equal. destruct entry; simpl in *. congruence.
    + intros Hnil. rewrite Hnil in Hl. by destruct pre.
  - exists InvalidMultiXactId, (MXactCache w).
    split; [by destruct w|]. split; [by destruct w|]. split; [done|]. by intros ->.
Qed.

(** The first two steps of MultiXactIdCreateFromMembers, whatever follows
    them: the array is the members with the padding its memory held, sorted
    in place, and the lookup moves at most one entry to the head. *)
Lemma MultiXactIdCreateFromMembers_lookup (members : list MultiXactMember) (w : world) :
  cache_wf w →
  ∃ array cached c,
    array = qsort_in_memory (array_in_memory members w)
    ∧ array.*1 = qsort members
    ∧ length array = length members
    ∧ cache_wf (set_cache c (MXactCacheMembers w) w)
    ∧ (MultiXactIdIsValid cached = true →
       ∃ rest, c = mkEnt cached (Z.of_nat (length members)) array :: rest)
    ∧ (MXactCache w = [] → cached = InvalidMultiXactId ∧ c = [])
    ∧ ∀ B (k : list MultiXactMemberBytes * Z → M B),
        bind (uninitialised_padding (length members))
          (λ padding,
             bind (mXactCacheGetBySet (Z.of_nat (length members)) (zip members padding)) k) w
        = k (array, cached)
            (set_cache c (MXactCacheMembers w)
               (set_uninitialised (drop (length members) (uninitialised w)) w)).
Proof.
  intros Hwf.
  set (padding := take (length members) (uninitialised w ++ replicate (length members) 0)).
  assert (Hplen : length padding = length members).
  { unfold padding. rewrite length_take, length_app, length_replicate. lia. }
  set (w0 := set_uninitialised (drop (length members) (uninitialised w)) w).
  assert (Hzip : length (zip members padding) = length members).
  { apply length_zip_with_l_eq. by rewrite Hplen. }
  destruct (mXactCacheGetBySet_spec (zip members padding) w0 Hwf)
    as (cached & c & Hset & Hwf1 & Hhead & Hnil).
  rewrite Hzip in Hset, Hhead.
  exists (qsort_in_memory (zip members padding)), cached, c.
  split; [done|].
  split. { rewrite qsort_in_memory_fields, fst_zip by (rewrite Hplen; lia). done. }
  split. { by rewrite length_qsort_in_memory. }
  split; [exact Hwf1|]. split; [exact Hhead|]. split; [exact Hnil|].
  intros B k. unfold bind at 1. unfold uninitialised_padding. fold padding. fold w0.
  unfold bind. by rewrite Hset.
Qed.


(** What a returning call has done: either it found the set in the cache
    and changed nothing durable, or it assigned the next id and the next
    offset, logged exactly one create record for them and advanced both
    counters.  Either way the set, sorted, heads the cache under the id
    returned. *)
Lemma MultiXactIdCreateFromMembers_inv (members : list MultiXactMember)
    (w w' : world) (multi : Z) :
  cache_wf w →
  MultiXactIdCreateFromMembers members w = Done multi w' →
  MultiXactIdIsValid multi = true
  ∧ cache_wf w'
  ∧ (∃ array rest, MXactCache w' = mkEnt multi (Z.of_nat (length members)) array :: rest
                   ∧ array.*1 = qsort members
                   ∧ array ≡ₚ array_in_memory members w)
  ∧ (durable w' = durable w
     ∨ (multi = (if nextMXact (MultiXactState w) <? FirstMultiXactId then FirstMultiXactId
                 else nextMXact (MultiXactState w))
        ∧ created (xlog w') = created (xlog w) ++ [(multi, nextOffset (MultiXactState w))]
        ∧ nextMXact (MultiXactState w') = uint64 (multi + 1)
        ∧ nextOffset (MultiXactState w')
          = uint64 (nextOffset (MultiXactState w) + Z.of_nat (length members)))).
Proof.
  intros Hwf H. unfold MultiXactIdCreateFromMembers in H.
  destruct (MultiXactIdCreateFromMembers_lookup members w Hwf)
    as (array & cached & c & Hmem & Harr & Hlen & Hwf1 & Hhead & _ & Hrun).
  rewrite Hrun in H. cbv beta iota zeta in H. rewrite Harr in H.
  set (w0 := set_uninitialised _ w) in *.
  destruct (MultiXactIdIsValid cached) eqn:Hvalid.
  { apply ret_Done in H as [-> ->].
    split; [done|]. split; [done|]. split; [|by left].
    destruct (Hhead eq_refl) as [rest ->]. exists array, rest.
    split; [done|]. split; [done|]. rewrite Hmem. apply qsort_in_memory_Permutation. }
  clear Hhead. set (w1 := set_cache c (MXactCacheMembers w) w0) in *.
  destruct (more_than_one_update false (qsort members)); [discriminate|].
  inv_bind H as [multi' offset] w2 Hnew.
  assert (Hrec : InRecovery w1 = false).
  { destruct (InRecovery w1) eqn:Hr; [|done].
    unfold GetNewMultiXactId, bind, gets in Hnew. rewrite Hr in Hnew. discriminate. }
  destruct (GetNewMultiXactId_Done (Z.of_nat (length members)) w1 Hrec)
    as (w2' & Hnew' & Hnext2 & Hoff2 & Hc2 & Hn2 & Hx2 & _).
  change (MultiXactState w1) with (MultiXactState w) in *.
  change (xlog w1) with (xlog w) in *.
  rewrite Hnew' in Hnew. injection Hnew as <- <- <-.
  inv_bind H as [] w3 Hlog. apply modify_Done in Hlog as ->.
  inv_bind H as [] w4 Hrecord. apply RecordNewMultiXact_frame in Hrecord
    as (Hs4 & Hc4 & Hn4 & _ & Hx4 & _ & _).
  inv_bind H as [] w5 Hend. apply modify_Done in Hend as ->.
  inv_bind H as [] w6 Hput.
  destruct (mXactCachePut_spec
              (if nextMXact (MultiXactState w) <? FirstMultiXactId then FirstMultiXactId
               else nextMXact (MultiXactState w))
              (Z.of_nat (length members)) array (END_CRIT_SECTION w4))
    as (w6' & Hput' & Hd6 & Hwf6 & rest & Hhead6).
  { destruct Hwf1 as [Hcount Hall]. split; simpl.
    - rewrite Hn4, Hc4. simpl. rewrite Hn2, Hc2. exact Hcount.
    - rewrite Hc4. simpl. rewrite Hc2. exact Hall. }
  { by rewrite Hlen. }
  rewrite Hput' in Hput. injection Hput as <-.
  apply ret_Done in H as [-> ->].
  unfold durable in Hd6. injection Hd6 as Hnx6 Hno6 _ _ _ Hx6.
  simpl in Hnx6, Hno6, Hx6. simpl in Hs4, Hx4.
  split.
  { unfold MultiXactIdIsValid, InvalidMultiXactId, FirstMultiXactId.
    destruct (nextMXact (MultiXactState w) <? 1) eqn:Hlt; [done|].
    apply Z.ltb_ge in Hlt. apply negb_true_iff, Z.eqb_neq. lia. }
  split; [done|]. split.
  { exists (qsort_in_memory array), rest. split; [exact Hhead6|]. split.
    - by rewrite qsort_in_memory_fields, Harr, qsort_idempotent.
    - rewrite qsort_in_memory_Permutation, Hmem. apply qsort_in_memory_Permutation. }
  right. split; [done|]. split.
  { rewrite Hx6, Hx4, created_app, Hx2. done. }
  split.
  - rewrite Hnx6, Hs4. exact Hnext2.
  - rewrite Hno6, Hs4. exact Hoff2.
Qed.

(** With the logs ready the call returns. *)
Lemma MultiXactIdCreateFromMembers_Done (members : list MultiXactMember) (w : world) :
  cache_wf w → at_most_one_update members →
  create_ready (Z.of_nat (length members)) w →
  ∃ multi w', MultiXactIdCreateFromMembers members w = Done multi w'.
Proof.
  drop_externals.
  intros Hwf Hupd (Hrec & Hnext & Hopage & Hoexists & Hoff & Hn & Hmpage & Hmexists).
  unfold MultiXactIdCreateFromMembers.
  destruct (MultiXactIdCreateFromMembers_lookup members w Hwf)
    as (array & cached & c & Hmem & Harr & Hlen & Hwf1 & Hhead & _ & Hrun).
  rewrite Hrun. cbv beta iota zeta. rewrite Harr.
  set (w0 := set_uninitialised _ w) in *.
  destruct (MultiXactIdIsValid cached); [by eauto|].
  set (w1 := set_cache c (MXactCacheMembers w) w0) in *.
  apply (at_most_one_update_Permutation _ (qsort members)) in Hupd;
    [|by rewrite qsort_Permutation].
  apply at_most_one_update_check in Hupd. rewrite Hupd.
  destruct (GetNewMultiXactId_Done (Z.of_nat (length members)) w1 Hrec)
    as (w2 & Hnew & Hnext2 & Hoff2 & Hc2 & Hn2 & Hx2 & Hop & Hmp).
  rewrite (bind_Done_intro _ _ _ _ _ Hnew).
  unfold bind at 1, modify at 1.
  assert (Hpage0 : 0 ≤ MultiXactIdToOffsetPage
                      (if nextMXact (MultiXactState w1) <? FirstMultiXactId
                       then FirstMultiXactId else nextMXact (MultiXactState w1))).
  { unfold MultiXactIdToOffsetPage. change MULTIXACT_OFFSETS_PER_PAGE with 1024.
    simpl. destruct (_ <? _); unfold FirstMultiXactId; Z.div_mod_to_equations; lia. }
  assert (Hmlt : nextOffset (MultiXactState w1) + Z.of_nat (length members) < 2 ^ 64).
  { revert Hmpage. unfold MXOffsetToMemberPage. change MULTIXACT_MEMBERS_PER_PAGE with 904.
    simpl. intros. Z.div_mod_to_equations. lia. }
  match goal with
  | |- ∃ multi w', bind (RecordNewMultiXact ?m ?o _ ?ms) _ ?wx = _ =>
      destruct (RecordNewMultiXact_spec m o ms wx) as (w4 & Hrecord & _)
  end.
  - apply Hop; [split; [done|exact Hopage]|exact Hoexists].
  - exact Hoff.
  - by rewrite length_qsort.
  - rewrite length_qsort. apply Hmp; try done. lia.
  - rewrite length_qsort in Hrecord. rewrite (bind_Done_intro _ _ _ _ _ Hrecord).
    unfold bind at 1, modify at 1.
    unfold mXactCachePut, bind, ret. destruct (_ <=? _); eauto.
Qed.

(** The same on an empty cache: the lookup finds nothing. *)
Lemma MultiXactIdCreateFromMembers_lookup_empty (members : list MultiXactMember) (w : world) :
  MXactCache w = [] →
  ∃ array,
    array.*1 = qsort members
    ∧ length array = length members
    ∧ ∀ B (k : list MultiXactMemberBytes * Z → M B),
        bind (uninitialised_padding (length members))
          (λ padding,
             bind (mXactCacheGetBySet (Z.of_nat (length members)) (zip members padding)) k) w
        = k (array, InvalidMultiXactId)
            (set_uninitialised (drop (length members) (uninitialised w)) w).
Proof.
  intros Hempty.
  set (padding := take (length members) (uninitialised w ++ replicate (length members) 0)).
  assert (Hplen : length padding = length members).
  { unfold padding. rewrite length_take, length_app, length_replicate. lia. }
  exists (qsort_in_memory (zip members padding)).
  split. { rewrite qsort_in_memory_fields, fst_zip by (rewrite Hplen; lia). done. }
  split. { rewrite length_qsort_in_memory. apply length_zip_with_l_eq. by rewrite Hplen. }
  intros B k. unfold bind at 1. unfold uninitialised_padding. fold padding.
  unfold bind, mXactCacheGetBySet. cbn [MXactCache set_uninitialised]. by rewrite Hempty.
Qed.

(** Reading a field of the state through a move of the uninitialised
    memory. *)
Ltac through_uninitialised :=
  cbn [set_uninitialised MultiXactState MultiXactOffsetCtl MultiXactMemberCtl MXactCache
       MXactCacheMembers xlog autovac_signals serverlog CritSectionCount delayChkpt
       InRecovery] in *.

(** *** Create, then resolve *)

Lemma set_cache_same (w : world) (c : list mXactCacheEnt) :
  MXactCache w = c → set_cache c (MXactCacheMembers w) w = w.
Proof. intros <-. by destruct w. Qed.

(** An id at the head of the cache resolves from the cache. *)
Lemma GetMultiXactIdMembers_cache_head (multi n : Z) (array : list MultiXactMemberBytes)
    (rest : list mXactCacheEnt) (onlyLock : bool) (w : world) :
  MXactCache w = mkEnt multi n array :: rest → MultiXactIdIsValid multi = true → 0 ≤ n →
  GetMultiXactIdMembers multi false onlyLock w = Done (n, array.*1) w.
Proof.
  intros Hhead Hvalid Hn. unfold GetMultiXactIdMembers. rewrite Hvalid. simpl.
  assert (Hget : mXactCacheGetById multi w = Done (n, array.*1) w).
  { unfold mXactCacheGetById. rewrite Hhead.
    rewrite dlist_search_head by (simpl; apply Z.eqb_refl).
    simpl app. rewrite <- Hhead. by rewrite set_cache_same. }
  rewrite (bind_Done_intro _ _ _ _ _ Hget).
  apply Z.leb_le in Hn. by rewrite Hn.
Qed.

Lemma MultiXactIdCreateFromMembers_resolves (members : list MultiXactMember)
    (onlyLock : bool) (w : world) :
  cache_wf w → at_most_one_update members →
  create_ready (Z.of_nat (length members)) w →
  ∃ multi w1,
    MultiXactIdCreateFromMembers members w = Done multi w1
    ∧ GetMultiXactIdMembers multi false onlyLock w1
      = Done (Z.of_nat (length members), qsort members) w1.
Proof.
  intros Hwf Hupd Hready.
  destruct (MultiXactIdCreateFromMembers_Done members w Hwf Hupd Hready) as (multi & w1 & Hc).
  destruct (MultiXactIdCreateFromMembers_inv members w w1 multi Hwf Hc)
    as (Hvalid & _ & (array & rest & Hhead & Harr & _) & _).
  exists multi, w1. split; [done|]. rewrite <- Harr.
  eapply GetMultiXactIdMembers_cache_head; [done|done|lia].
Qed.

(** C1: create a group from a member array with at most one updating
    member, then resolve the id returned: the call returns, the resolution
    returns, and the members it yields are those of the array, in some
    order. *)
Theorem create_then_resolve (members : list MultiXactMember) (onlyLock : bool) (w : world) :
  cache_wf w → at_most_one_update members →
  create_ready (Z.of_nat (length members)) w →
  ∃ multi w1 members' w2,
    MultiXactIdCreateFromMembers members w = Done multi w1
    ∧ GetMultiXactIdMembers multi false onlyLock w1
      = Done (Z.of_nat (length members), members') w2
    ∧ members' ≡ₚ members.
Proof.
  intros Hwf Hupd Hready.
  destruct (MultiXactIdCreateFromMembers_resolves members onlyLock w Hwf Hupd Hready)
    as (multi & w1 & Hc & Hr).
  exists multi, w1, (qsort members), w1.
  split; [done|]. split; [done|]. apply qsort_Permutation.
Qed.

(** *** Expanding a group *)

Lemma existsb_same_member (xid' status' : Z) (ms : list MultiXactMember) :
  existsb (same_member xid' status') ms = true ↔ mkMember xid' status' ∈ ms.
Proof.
  rewrite existsb_exists. split.
  - intros ([x s] & Hin & Hsame). apply list_elem_of_In in Hin.
    unfold same_member, TransactionIdEquals in Hsame. simpl in Hsame.
    apply andb_true_iff in Hsame as [Hx Hs].
    apply Z.eqb_eq in Hx, Hs. by subst.
  - intros Hin. exists (mkMember xid' status'). split; [by apply list_elem_of_In|].
    unfold same_member, TransactionIdEquals. simpl. by rewrite !Z.eqb_refl.
Qed.

(** C4: if the members the existing id resolves to already contain
    (xid, status), MultiXactIdExpand returns the existing id, and no id, no
    offset, no log page and no WAL record has been added. *)
Theorem MultiXactIdExpand_already_member (multi new_xid new_status n : Z)
    (ms : list MultiXactMember) (w w1 : world) :
  cache_wf w →
  GetMultiXactIdMembers multi false false w = Done (n, ms) w1 →
  mkMember new_xid new_status ∈ ms →
  MultiXactIdExpand multi new_xid new_status w = Done multi w1 ∧ durable w1 = durable w.
Proof.
  intros Hwf Hres Hin.
  destruct (GetMultiXactIdMembers_spec _ _ _ _ _ _ _ Hwf Hres) as (Hd & _ & Hlen).
  split; [|done].
  unfold MultiXactIdExpand. rewrite (bind_Done_intro _ _ _ _ _ Hres).
  destruct Hlen as [[_ ->]|Hlen]; [by apply elem_of_nil in Hin|].
  assert ((n <? 0) = false) as -> by (apply Z.ltb_ge; lia).
  rewrite take_length_eq by done.
  by rewrite (proj2 (existsb_same_member new_xid new_status ms) Hin).
Qed.

Lemma MultiXactIdExpand_not_member (multi new_xid new_status n : Z)
    (ms : list MultiXactMember) (w w1 : world) :
  cache_wf w →
  GetMultiXactIdMembers multi false false w = Done (n, ms) w1 →
  0 ≤ n → mkMember new_xid new_status ∉ ms →
  MultiXactIdExpand multi new_xid new_status w
  = MultiXactIdCreateFromMembers
      (filter still_of_interest ms ++ [mkMember new_xid new_status]) w1.
Proof.
  intros Hwf Hres Hn Hnotin.
  destruct (GetMultiXactIdMembers_spec _ _ _ _ _ _ _ Hwf Hres) as (_ & _ & Hlen).
  unfold MultiXactIdExpand. rewrite (bind_Done_intro _ _ _ _ _ Hres).
  destruct Hlen as [[-> _]|Hlen]; [lia|].
  assert ((n <? 0) = false) as -> by (apply Z.ltb_ge; lia).
  rewrite take_length_eq by done.
  destruct (existsb (same_member new_xid new_status) ms) eqn:Hex; [|done].
  by apply existsb_same_member in Hex.
Qed.

(** C6: if the existing id resolves to members that do not contain
    (xid, status), the array handed to MultiXactIdCreateFromMembers is the
    resolved members that are still in progress, or that hold an update
    status and committed, in their order, followed by (xid, status). *)
Theorem MultiXactIdExpand_keeps_members_of_interest (multi new_xid new_status n : Z)
    (ms : list MultiXactMember) (w w1 : world) :
  cache_wf w →
  GetMultiXactIdMembers multi false false w = Done (n, ms) w1 →
  0 ≤ n → mkMember new_xid new_status ∉ ms →
  MultiXactIdExpand multi new_xid new_status w
  = MultiXactIdCreateFromMembers
      (filter (λ m, TransactionIdIsInProgress (xid m) = true
                    ∨ (ISUPDATE_from_mxstatus (status m) = true
                       ∧ TransactionIdDidCommit (xid m) = true)) ms
       ++ [mkMember new_xid new_status]) w1.
Proof.
  intros Hwf Hres Hn Hnotin.
  rewrite (MultiXactIdExpand_not_member _ _ _ _ _ _ _ Hwf Hres Hn Hnotin).
  f_equal. f_equal. apply list_filter_iff. intros m.
  unfold still_of_interest. rewrite Is_true_true, orb_true_iff, andb_true_iff. done.
Qed.

(** C5: if resolving the existing id yields no members, MultiXactIdExpand
    raises nothing: it returns the id of a group that resolves to the one
    member (xid, status). *)
Theorem MultiXactIdExpand_no_members (multi new_xid new_status n : Z)
    (ms : list MultiXactMember) (w w1 : world) :
  cache_wf w →
  GetMultiXactIdMembers multi false false w = Done (n, ms) w1 →
  n < 0 ∨ ms = [] →
  create_ready 1 w1 →
  ∃ new w2,
    MultiXactIdExpand multi new_xid new_status w = Done new w2
    ∧ GetMultiXactIdMembers new false false w2
      = Done (1, [mkMember new_xid new_status]) w2.
Proof.
  intros Hwf Hres Hnone Hready.
  destruct (GetMultiXactIdMembers_spec _ _ _ _ _ _ _ Hwf Hres) as (_ & Hwf1 & Hlen).
  assert (Hsingle : MultiXactIdExpand multi new_xid new_status w
                    = MultiXactIdCreateFromMembers [mkMember new_xid new_status] w1).
  { destruct (decide (n < 0)) as [Hneg|Hpos].
    - unfold MultiXactIdExpand. rewrite (bind_Done_intro _ _ _ _ _ Hres).
      by assert ((n <? 0) = true) as -> by (by apply Z.ltb_lt).
    - destruct Hnone as [?| ->]; [done|].
      rewrite (MultiXactIdExpand_not_member _ _ _ _ _ _ _ Hwf Hres);
        [done|lia|apply not_elem_of_nil]. }
  rewrite Hsingle.
  destruct (MultiXactIdCreateFromMembers_resolves [mkMember new_xid new_status] false w1)
    as (new & w2 & Hc & Hr); [done| |done|].
  - unfold at_most_one_update. rewrite filter_cons, filter_nil.
    destruct (decide _); simpl; lia.
  - exists new, w2. split; [done|]. exact Hr.
Qed.

(** *** A serial sequence of creations *)

Lemma create_all_created (calls : list (list MultiXactMember)) (w w' : world)
    (multis : list Z) :
  cache_wf w →
  create_all calls w = Done multis w' →
  Forall (λ members, members ≠ []) calls →
  0 ≤ nextMXact (MultiXactState w) → 0 ≤ nextOffset (MultiXactState w) →
  Z.max 1 (nextMXact (MultiXactState w)) + Z.of_nat (length calls) < 2 ^ 64 →
  nextOffset (MultiXactState w) + Z.of_nat (length (concat calls)) < 2 ^ 64 →
  ∃ new, created (xlog w') = created (xlog w) ++ new
         ∧ Forall (λ p, Z.max 1 (nextMXact (MultiXactState w)) ≤ p.1
                        ∧ nextOffset (MultiXactState w) ≤ p.2) new
         ∧ StronglySorted Z.lt new.*1 ∧ StronglySorted Z.lt new.*2.
Proof.
  revert w multis.
  induction calls as [|members calls IH]; intros w multis Hwf H Hne Hid Hoff Hidmax Hoffmax.
  { apply ret_Done in H as [_ ->]. exists []. rewrite app_nil_r.
    repeat split; constructor. }
  cbn [create_all] in H. inv_bind H as multi w1 Hc. inv_bind H as multis' w2 Hrest.
  apply ret_Done in H as [_ ->].
  apply Forall_cons in Hne as [Hne1 Hne].
  destruct (MultiXactIdCreateFromMembers_inv members w w1 multi Hwf Hc)
    as (_ & Hwf1 & _ & [Hsame|(Hmulti & Hlog & Hnext & Hnoff)]).
  - (* found in the cache: nothing assigned *)
    unfold durable in Hsame. injection Hsame as Hn1 Ho1 _ _ _ Hx1.
    destruct (IH w1 multis' Hwf1 Hrest Hne) as (new & Hnew & Hlow & Hs1 & Hs2).
    + by rewrite Hn1.
    + by rewrite Ho1.
    + rewrite Hn1. cbn [length] in Hidmax. lia.
    + rewrite Ho1. cbn [concat] in Hoffmax. rewrite length_app in Hoffmax. lia.
    + exists new. rewrite Hnew, Hx1, Hn1, Ho1 in *. done.
  - (* a new id and a new offset *)
    assert (Hm : multi = Z.max 1 (nextMXact (MultiXactState w))).
    { rewrite Hmulti. unfold FirstMultiXactId.
      destruct (_ <? 1) eqn:Hlt; [apply Z.ltb_lt in Hlt|apply Z.ltb_ge in Hlt]; lia. }
    cbn [length] in Hidmax. cbn [concat] in Hoffmax. rewrite length_app in Hoffmax.
    assert (Hlen : (0 < length members)%nat) by (destruct members; [done|simpl; lia]).
    rewrite uint64_small in Hnext by lia.
    rewrite uint64_small in Hnoff by lia.
    destruct (IH w1 multis' Hwf1 Hrest Hne) as (new & Hnew & Hlow & Hs1 & Hs2).
    + rewrite Hnext. lia.
    + rewrite Hnoff. lia.
    + rewrite Hnext. lia.
    + rewrite Hnoff. lia.
    + exists ((multi, nextOffset (MultiXactState w)) :: new).
      rewrite Hnew, Hlog, <- app_assoc. split; [done|].
      rewrite Hnext, Hnoff in Hlow.
      split; [|split].
      * constructor; [simpl; lia|].
        eapply Forall_impl; [exact Hlow|]. simpl. intros p. lia.
      * simpl. constructor; [done|]. apply Forall_fmap.
        eapply Forall_impl; [exact Hlow|]. simpl. intros p. lia.
      * simpl. constructor; [done|]. apply Forall_fmap.
        eapply Forall_impl; [exact Hlow|]. simpl. intros p. lia.
Qed.

(** C7: over a serial sequence of MultiXactIdCreateFromMembers calls on
    non-empty arrays, as long as neither 64-bit counter wraps, the ids and
    the starting offsets of the create records the calls log, in the order
    they are logged, are strictly increasing. *)
Theorem create_all_ids_and_offsets_increase (calls : list (list MultiXactMember))
    (w w' : world) (multis : list Z) :
  cache_wf w →
  create_all calls w = Done multis w' →
  Forall (λ members, members ≠ []) calls →
  0 ≤ nextMXact (MultiXactState w) → 0 ≤ nextOffset (MultiXactState w) →
  Z.max 1 (nextMXact (MultiXactState w)) + Z.of_nat (length calls) < 2 ^ 64 →
  nextOffset (MultiXactState w) + Z.of_nat (length (concat calls)) < 2 ^ 64 →
  ∃ new, created (xlog w') = created (xlog w) ++ new
         ∧ StronglySorted Z.lt new.*1 ∧ StronglySorted Z.lt new.*2.
Proof.
  intros Hwf H Hne Hid Hoff Hidmax Hoffmax.
  destruct (create_all_created calls w w' multis Hwf H Hne Hid Hoff Hidmax Hoffmax)
    as (new & Hnew & _ & Hs1 & Hs2).
  by exists new.
Qed.

(** *** The member slots of the MEMBERs log *)

Lemma page_word_store (pageno k v pageno' k' : Z) (ctl : SlruCtlData) :
  page_word (slru_page (slru_store pageno k v ctl) pageno') k'
  = if decide (pageno = pageno' ∧ k = k') then v
    else page_word (slru_page ctl pageno') k'.
Proof.
  drop_externals.
  unfold page_word, slru_page, slru_store. simpl.
  destruct (decide (pageno = pageno')) as [->|Hp].
  - rewrite lookup_insert_eq. simpl.
    destruct (decide (k = k')) as [->|Hk].
    + rewrite lookup_insert_eq. by rewrite decide_True.
    + rewrite lookup_insert_ne by done. rewrite decide_False by tauto. done.
  - rewrite lookup_insert_ne by done. rewrite decide_False by tauto. done.
Qed.

Lemma member_slots_disjoint (o o' : Z) :
  0 ≤ o → 0 ≤ o' →
  MXOffsetToMemberOffset o' ≠ MXOffsetToFlagsOffset o
  ∧ (MXOffsetToMemberPage o = MXOffsetToMemberPage o' →
     MXOffsetToMemberOffset o = MXOffsetToMemberOffset o' → o = o')
  ∧ (MXOffsetToMemberPage o = MXOffsetToMemberPage o' →
     MXOffsetToFlagsOffset o = MXOffsetToFlagsOffset o' →
     o mod 8 = o' mod 8 → o = o').
Proof.
  drop_externals.
  intros Ho Ho'.
  unfold MXOffsetToMemberOffset, MXOffsetToFlagsOffset, MXOffsetToMemberPage.
  change MULTIXACT_MEMBERS_PER_MEMBERGROUP with 8.
  change MULTIXACT_MEMBERGROUPS_PER_PAGE with 113.
  change MULTIXACT_MEMBERGROUP_SIZE with 72.
  change MULTIXACT_FLAGBYTES_PER_GROUP with 8.
  change MULTIXACT_MEMBERS_PER_PAGE with 904.
  change sizeof_TransactionId with 8.
  repeat split; Z.div_mod_to_equations; lia.
Qed.

Lemma flags_byte_write (f v a b : Z) :
  0 ≤ a ≤ 7 → 0 ≤ b ≤ 7 → 0 ≤ v < 256 →
  Z.land (Z.shiftr
            (Z.lor (Z.land f (uint64 (Z.lnot (uint64 (Z.shiftl (Z.shiftl 1 8 - 1) (a * 8))))))
                   (uint64 (Z.shiftl (uint64 v) (a * 8))))
            (b * 8))
         (Z.shiftl 1 8 - 1)
  = if decide (a = b) then v else Z.land (Z.shiftr f (b * 8)) (Z.shiftl 1 8 - 1).
Proof.
  drop_externals.
  intros Ha Hb Hv. unfold uint64.
  change (Z.shiftl 1 8 - 1) with (Z.ones 8).
  assert (Hv' : v = Z.land v (Z.ones 8)).
  { rewrite Z.land_ones by lia. symmetry. apply Z.mod_small. lia. }
  rewrite <- !Z.land_ones by lia.
  destruct (decide (a = b)) as [->|Hne].
  - rewrite Hv' at 2. rewrite Hv' at 1. Z.bitblast.
  - rewrite Hv'. Z.bitblast.
Qed.

(** Writing a member sets its slot and no other. *)
Lemma member_slot_write (offset o : Z) (m : MultiXactMember) (ctl : SlruCtlData) :
  0 ≤ offset → 0 ≤ o → 0 ≤ status m < 256 →
  member_slot (write_member_slot offset m ctl) o
  = if decide (o = offset) then m else member_slot ctl o.
Proof.
  intros Hoff Ho Hst.
  destruct (member_slots_disjoint offset o Hoff Ho) as (Hmf & Hmm & Hff).
  destruct (member_slots_disjoint offset offset Hoff Hoff) as (Hmf' & _ & _).
  unfold member_slot, write_member_slot.
  rewrite !page_word_store.
  rewrite (decide_False (P := MXOffsetToMemberPage offset = MXOffsetToMemberPage o
                              ∧ MXOffsetToFlagsOffset offset = MXOffsetToMemberOffset o))
    by (intros [_ Heq]; by apply Hmf).
  rewrite (decide_False (P := MXOffsetToMemberPage offset = MXOffsetToMemberPage offset
                              ∧ MXOffsetToMemberOffset offset = MXOffsetToFlagsOffset offset))
    by (intros [_ Heq]; by apply Hmf').
  rewrite (decide_False (P := MXOffsetToMemberPage offset = MXOffsetToMemberPage o
                              ∧ MXOffsetToMemberOffset offset = MXOffsetToFlagsOffset o)).
  2:{ intros [_ Heq]. destruct (member_slots_disjoint o offset Ho Hoff) as (Hc & _ & _).
      by apply Hc. }
  unfold MXOffsetToFlagsBitShift.
  change MULTIXACT_MEMBERS_PER_MEMBERGROUP with 8.
  change MXACT_MEMBER_BITS_PER_XACT with 8.
  unfold MXACT_MEMBER_XACT_BITMASK. change MXACT_MEMBER_BITS_PER_XACT with 8.
  pose proof (Z.mod_pos_bound offset 8 ltac:(lia)) as Hb1.
  pose proof (Z.mod_pos_bound o 8 ltac:(lia)) as Hb2.
  destruct (decide (o = offset)) as [->|Hne].
  - rewrite !decide_True by done.
    rewrite flags_byte_write by lia. rewrite decide_True by done. by destruct m.
  - rewrite (decide_False (P := _ ∧ MXOffsetToMemberOffset offset = MXOffsetToMemberOffset o))
      by (intros [H1 H2]; apply Hne; symmetry; by apply Hmm).
    f_equal.
    destruct (decide (MXOffsetToMemberPage offset = MXOffsetToMemberPage o
                      ∧ MXOffsetToFlagsOffset offset = MXOffsetToFlagsOffset o))
      as [[Hp Hf]|Hother]; [|done].
    rewrite flags_byte_write by lia.
    rewrite decide_False; [by rewrite Hp, Hf|].
    intros Hmod. apply Hne. symmetry. by apply Hff.
Qed.

Lemma RecordNewMultiXact_members_cons (multi offset prev_pageno : Z)
    (member : MultiXactMember) (members : list MultiXactMember) (w w' : world) (u : unit) :
  RecordNewMultiXact_members multi offset prev_pageno (member :: members) w = Done u w' →
  RecordNewMultiXact_members multi (uint64 (offset + 1)) (MXOffsetToMemberPage offset) members
    (set_MultiXactMemberCtl (write_member_slot offset member) w) = Done u w'.
Proof.
  cbn [RecordNewMultiXact_members]. intros H.
  inv_bind H as [] w1 Hread.
  assert (w1 = w) as ->.
  { destruct (negb _).
    - inv_bind Hread as page w2 Hpage. apply SimpleLruReadPage_Done in Hpage as [-> _].
      by apply ret_Done in Hread as [_ ->].
    - by apply ret_Done in Hread as [_ ->]. }
  inv_bind H as [] w1 Hst. apply modify_Done in Hst as ->.
  inv_bind H as flags w1 Hfl. apply gets_Done in Hfl as [-> ->].
  inv_bind H as [] w1 Hst. apply modify_Done in Hst as ->.
  exact H.
Qed.

(** After the loop the slots of the range hold the members of the array,
    in order, and every other slot is as it was. *)
Lemma RecordNewMultiXact_members_slots (members : list MultiXactMember)
    (multi offset prev_pageno : Z) (w w' : world) (u : unit) :
  RecordNewMultiXact_members multi offset prev_pageno members w = Done u w' →
  0 ≤ offset → offset + Z.of_nat (length members) < 2 ^ 64 →
  Forall (λ m, 0 ≤ status m < 256) members →
  MultiXactOffsetCtl w' = MultiXactOffsetCtl w
  ∧ (∀ (i : nat) m, members !! i = Some m →
       member_slot (MultiXactMemberCtl w') (offset + Z.of_nat i) = m)
  ∧ (∀ o, 0 ≤ o → o < offset ∨ offset + Z.of_nat (length members) ≤ o →
       member_slot (MultiXactMemberCtl w') o = member_slot (MultiXactMemberCtl w) o).
Proof.
  revert offset prev_pageno w.
  induction members as [|member members IH]; intros offset prev_pageno w H Hoff Hend Hst.
  { apply ret_Done in H as [_ ->]. split; [done|]. split; [|done].
    intros i m Hi. by rewrite lookup_nil in Hi. }
  apply RecordNewMultiXact_members_cons in H.
  cbn [length] in Hend. apply Forall_cons in Hst as [Hst1 Hst].
  rewrite uint64_small in H by lia.
  destruct (IH _ _ _ H) as (Hoc & Hin & Hout); [lia|lia|done|].
  split; [by rewrite Hoc|]. split.
  - intros [|i] m Hi; simpl in Hi.
    + injection Hi as ->. rewrite Z.add_0_r.
      rewrite Hout by lia. simpl.
      rewrite member_slot_write by lia. by rewrite decide_True.
    + replace (offset + Z.of_nat (S i)) with (offset + 1 + Z.of_nat i) by lia.
      by apply Hin.
  - intros o Ho Hrange. cbn [length] in Hrange.
    rewrite Hout by lia. simpl.
    rewrite member_slot_write by lia. rewrite decide_False by lia. done.
Qed.

(** The read loop over slots that all hold a valid xid returns them in
    order. *)
Lemma GetMultiXactIdMembers_read_slots (length : nat) (offset prev_pageno : Z)
    (ptr : list MultiXactMember) (w : world) :
  0 ≤ offset → offset + Z.of_nat length < 2 ^ 64 →
  (∀ o, offset ≤ o < offset + Z.of_nat length →
        is_Some (page_buffer (MultiXactMemberCtl w) !! MXOffsetToMemberPage o)
        ∧ xid (member_slot (MultiXactMemberCtl w) o) ≠ InvalidTransactionId) →
  GetMultiXactIdMembers_read length offset prev_pageno ptr w
  = Done (ptr ++ (member_slot (MultiXactMemberCtl w) <$> seqZ offset (Z.of_nat length))) w.
Proof.
  revert offset prev_pageno ptr.
  induction length as [|length IH]; intros offset prev_pageno ptr Hoff Hend Hslots.
  { simpl. by rewrite app_nil_r. }
  cbn [GetMultiXactIdMembers_read].
  destruct (Hslots offset ltac:(lia)) as [Hpage Hxid].
  assert (Hread : (if negb (MXOffsetToMemberPage offset =? prev_pageno)
                   then SimpleLruReadPage false (MXOffsetToMemberPage offset);;; ret ()
                   else ret ()) w = Done tt w).
  { destruct (negb _); [|done].
    destruct (SimpleLruReadPage_exists false (MXOffsetToMemberPage offset) w Hpage)
      as [page Hp].
    by rewrite (bind_Done_intro _ _ _ _ _ Hp). }
  rewrite (bind_Done_intro _ _ _ _ _ Hread).
  unfold bind at 1, gets at 1.
  unfold member_slot in Hxid. simpl in Hxid.
  unfold TransactionIdIsValid.
  apply Z.eqb_neq in Hxid. rewrite Hxid. cbn [negb].
  rewrite uint64_small by lia.
  rewrite IH; [|lia|lia|intros o Ho; apply Hslots; lia].
  rewrite <- app_assoc. do 2 f_equal.
  rewrite Nat2Z.inj_succ. rewrite (seqZ_cons offset) by lia. rewrite fmap_cons.
  rewrite Z.pred_succ. by rewrite <- Z.add_1_r.
Qed.

Lemma slots_in_order {A} (f : Z → A) (l : list A) (offset : Z) :
  (∀ (i : nat) x, l !! i = Some x → f (offset + Z.of_nat i) = x) →
  f <$> seqZ offset (Z.of_nat (length l)) = l.
Proof.
  drop_externals.
  revert offset. induction l as [|x l IH]; intros offset Hl; [done|].
  cbn [length]. rewrite Nat2Z.inj_succ, (seqZ_cons offset) by lia.
  rewrite fmap_cons, Z.pred_succ. f_equal.
  - rewrite <- (Z.add_0_r offset). by apply (Hl 0%nat).
  - apply IH. intros i y Hi.
    replace (Z.succ offset + Z.of_nat i) with (offset + Z.of_nat (S i)) by lia.
    by apply Hl.
Qed.

Lemma MultiXactIdSetOldestVisible_Done (w : world) :
  ∃ w', MultiXactIdSetOldestVisible w = Done tt w'
        ∧ durable w' = durable w ∧ MXactCache w' = MXactCache w
        ∧ MXactCacheMembers w' = MXactCacheMembers w.
Proof.
  unfold MultiXactIdSetOldestVisible. destruct (negb _); eexists; split; done.
Qed.

(** What a creation that misses the cache leaves in the two logs. *)
Lemma MultiXactIdCreateFromMembers_logs (members : list MultiXactMember)
    (w w' : world) (multi : Z) :
  MXactCache w = [] →
  MultiXactIdCreateFromMembers members w = Done multi w' →
  create_ready (Z.of_nat (length members)) w →
  Forall storable members →
  nextMXact (MultiXactState w') = uint64 (multi + 1)
  ∧ nextOffset (MultiXactState w')
    = nextOffset (MultiXactState w) + Z.of_nat (length members)
  ∧ (∃ page, page_buffer (MultiXactOffsetCtl w') !! MultiXactIdToOffsetPage multi = Some page
             ∧ page_word page (MultiXactIdToOffsetEntry multi) = nextOffset (MultiXactState w))
  ∧ (∀ o, nextOffset (MultiXactState w) ≤ o
          < nextOffset (MultiXactState w) + Z.of_nat (length members) →
          is_Some (page_buffer (MultiXactMemberCtl w') !! MXOffsetToMemberPage o))
  ∧ (∀ (i : nat) m, qsort members !! i = Some m →
       member_slot (MultiXactMemberCtl w') (nextOffset (MultiXactState w) + Z.of_nat i) = m).
Proof.
  drop_externals.
  intros Hempty H (Hrec & Hnext & Hopage & Hoexists & Hoff & Hn & Hmpage & Hmexists) Hst.
  unfold MultiXactIdCreateFromMembers in H.
  destruct (MultiXactIdCreateFromMembers_lookup_empty members w Hempty)
    as (array & Harr & Hlen & Hrun).
  rewrite Hrun in H. cbv beta iota zeta in H. rewrite Harr in H.
  change (MultiXactIdIsValid InvalidMultiXactId) with false in H. cbv iota in H.
  destruct (more_than_one_update false (qsort members)); [discriminate|].
  inv_bind H as [multi' offset] w2 Hnew.
  destruct (GetNewMultiXactId_Done (Z.of_nat (length members))
              (set_uninitialised (drop (length members) (uninitialised w)) w) Hrec)
    as (w2' & Hnew' & Hnext2 & Hoff2 & _ & _ & _ & Hop & Hmp).
  rewrite Hnew' in Hnew. injection Hnew as <- <- <-. through_uninitialised.
  set (multi' := if nextMXact (MultiXactState w) <? FirstMultiXactId then FirstMultiXactId
                 else nextMXact (MultiXactState w)) in *.
  assert (Hpage0 : 0 ≤ MultiXactIdToOffsetPage multi').
  { unfold MultiXactIdToOffsetPage, multi'. change MULTIXACT_OFFSETS_PER_PAGE with 1024.
    destruct (_ <? _); unfold FirstMultiXactId; Z.div_mod_to_equations; lia. }
  assert (Hmlt : nextOffset (MultiXactState w) + Z.of_nat (length members) < 2 ^ 64).
  { revert Hmpage. unfold MXOffsetToMemberPage. change MULTIXACT_MEMBERS_PER_PAGE with 904.
    intros. Z.div_mod_to_equations. lia. }
  specialize (Hop (conj Hpage0 Hopage) Hoexists).
  specialize (Hmp Hoff (proj2 Hn) Hmpage Hmexists).
  inv_bind H as [] w3 Hlog. apply modify_Done in Hlog as ->.
  inv_bind H as [] w4 Hrecord.
  unfold RecordNewMultiXact in Hrecord.
  inv_bind Hrecord as page w5 Hpage. apply SimpleLruReadPage_Done in Hpage as [-> _].
  inv_bind Hrecord as [] w5 Hstore. apply modify_Done in Hstore as ->.
  rewrite take_length_eq in Hrecord by (by rewrite length_qsort).
  pose proof (RecordNewMultiXact_members_frame _ _ _ _ _ _ _ Hrecord)
    as (Hs4 & _ & _ & _ & _ & _ & Hmg4).
  assert (Hst' : Forall (λ m, 0 ≤ status m < 256) (qsort members)).
  { rewrite qsort_Permutation. eapply Forall_impl; [exact Hst|].
    intros m [_ Hm]. exact Hm. }
  apply RecordNewMultiXact_members_slots in Hrecord as (Hoc4 & Hin4 & _);
    [|done|by rewrite length_qsort|done].
  inv_bind H as [] w5 Hend. apply modify_Done in Hend as ->.
  inv_bind H as [] w6 Hput.
  unfold mXactCachePut in Hput.
  assert (Hw6 : MultiXactState w6 = MultiXactState w4
                ∧ MultiXactOffsetCtl w6 = MultiXactOffsetCtl w4
                ∧ MultiXactMemberCtl w6 = MultiXactMemberCtl w4).
  { destruct (_ <=? _); injection Hput as <-; done. }
  destruct Hw6 as (Hs6 & Hoc6 & Hmc6).
  apply ret_Done in H as [-> ->].
  rewrite Hs6, Hoc6, Hmc6, Hs4, Hoc4. simpl.
  split; [done|]. split; [by rewrite Hoff2, uint64_small by lia|]. split.
  - eexists. split; [apply lookup_insert_eq|].
    unfold page_word. by rewrite lookup_insert_eq.
  - split.
    + intros o Ho. apply Hmg4. simpl. by apply Hmp.
    + exact Hin4.
Qed.

(** X26: the round trip through the logs.  What a creation writes, a
    backend that has nothing in its cache reads back: after the transaction
    has ended and its cache is gone, resolving the id returns, from the
    OFFSETs and MEMBERs pages, the members the id was created from, in
    comparator order. *)
Theorem roundtrip_through_logs (members : list MultiXactMember) (w : world) :
  MXactCache w = [] → MXactCacheMembers w = 0 →
  at_most_one_update members →
  create_ready (Z.of_nat (length members)) w →
  Forall storable members →
  ∃ multi w1 w2 w3,
    MultiXactIdCreateFromMembers members w = Done multi w1
    ∧ AtEOXact_MultiXact w1 = Done tt w2
    ∧ GetMultiXactIdMembers multi false false w2
      = Done (Z.of_nat (length members), qsort members) w3.
Proof.
  drop_externals.
  intros Hempty Hcount Hupd Hready Hst.
  assert (Hwf : cache_wf w).
  { split; rewrite Hempty; [by rewrite Hcount|constructor]. }
  destruct (MultiXactIdCreateFromMembers_Done members w Hwf Hupd Hready) as (multi & w1 & Hc).
  destruct (MultiXactIdCreateFromMembers_inv members w w1 multi Hwf Hc) as (Hvalid & _).
  destruct (MultiXactIdCreateFromMembers_logs members w w1 multi Hempty Hc Hready Hst)
    as (Hnext & Hnoff & (page & Hpage & Hentry) & Hpages & Hslots).
  destruct Hready as (_ & _ & _ & _ & Hoff & Hn & Hmpage & _).
  assert (Hmlt : nextOffset (MultiXactState w) + Z.of_nat (length members) < 2 ^ 64).
  { revert Hmpage. unfold MXOffsetToMemberPage. change MULTIXACT_MEMBERS_PER_PAGE with 904.
    intros. Z.div_mod_to_equations. lia. }
  assert (Hat : ∃ w2, AtEOXact_MultiXact w1 = Done tt w2 ∧ MXactCache w2 = []
                      ∧ durable w2 = durable w1).
  { eexists. split; [reflexivity|]. done. }
  destruct Hat as (w2 & Hat & Hc2 & Hd2).
  unfold durable in Hd2. injection Hd2 as Hnx2 Hno2 _ Hoc2 Hmc2 _.
  exists multi, w1, w2.
  destruct (MultiXactIdSetOldestVisible_Done w2) as (w3 & Hvis & Hd3 & Hc3 & Hn3).
  unfold durable in Hd3. injection Hd3 as Hnx3 Hno3 _ Hoc3 Hmc3 _.
  assert (Hread : SimpleLruReadPage true (MultiXactIdToOffsetPage multi) w3 = Done page w3).
  { unfold SimpleLruReadPage. by rewrite Hoc3, Hoc2, Hpage. }
  set (padding := take (length members) (uninitialised w3 ++ replicate (length members) 0)).
  set (w3' := set_uninitialised (drop (length members) (uninitialised w3)) w3).
  assert (Hpalloc : palloc_MultiXactMember (Z.of_nat (length members)) w3 = Done padding w3').
  { unfold palloc_MultiXactMember.
    destruct (Z.ltb_spec (Z.of_nat (length members)) 0); [lia|].
    unfold uninitialised_padding. by rewrite Nat2Z.id. }
  assert (Hloop : GetMultiXactIdMembers_read (length members)
                    (nextOffset (MultiXactState w)) (-1) [] w3'
                  = Done (qsort members) w3').
  { change (MultiXactMemberCtl w3) with (MultiXactMemberCtl w3') in Hmc3.
    rewrite GetMultiXactIdMembers_read_slots; [|done|done|].
    - rewrite Hmc3, Hmc2. rewrite <- (length_qsort members).
      by rewrite slots_in_order by exact Hslots.
    - intros o Ho. rewrite Hmc3, Hmc2. split; [by apply Hpages|].
      replace o with (nextOffset (MultiXactState w)
                      + Z.of_nat (Z.to_nat (o - nextOffset (MultiXactState w)))) by lia.
      destruct (lookup_lt_is_Some_2 (qsort members)
                  (Z.to_nat (o - nextOffset (MultiXactState w)))) as [m Hm].
      { rewrite length_qsort. lia. }
      rewrite (Hslots _ _ Hm).
      assert (Hin : m ∈ members).
      { rewrite <- (qsort_Permutation members). by eapply list_elem_of_lookup_2. }
      rewrite Forall_forall in Hst. by destruct (Hst m Hin). }
  assert (Hput : ∃ w4, mXactCachePut multi (Z.of_nat (length members))
                         (zip (qsort members) padding) w3'
                       = Done tt w4).
  { unfold mXactCachePut. destruct (_ <=? _); eauto. }
  destruct Hput as (w4 & Hput).
  exists w4. split; [done|]. split; [done|].
  unfold GetMultiXactIdMembers. rewrite Hvalid. cbn [negb orb].
  unfold bind at 1. unfold mXactCacheGetById at 1. rewrite Hc2. cbn [dlist_search].
  change (0 <=? -1) with false. cbv iota.
  rewrite (bind_Done_intro _ _ _ _ _ Hvis).
  unfold bind at 1, gets at 1. cbn [andb].
  unfold bind at 1, gets at 1. unfold bind at 1, gets at 1.
  rewrite (bind_Done_intro _ _ _ _ _ Hread).
  rewrite Hnx3, Hno3, Hnx2, Hno2, Hnext, Hnoff, Hentry, Z.eqb_refl.
  unfold bind at 1, ret at 1.
  replace (nextOffset (MultiXactState w) + Z.of_nat (length members)
           - nextOffset (MultiXactState w)) with (Z.of_nat (length members)) by lia.
  rewrite uint64_small by lia. rewrite int32_small by lia.
  rewrite (bind_Done_intro _ _ _ _ _ Hpalloc). rewrite Nat2Z.id.
  rewrite (bind_Done_intro _ _ _ _ _ Hloop).
  rewrite length_qsort.
  by rewrite (bind_Done_intro _ _ _ _ _ Hput).
Qed.

(** *** What the code does not check *)

Lemma bind_Raise {A B} (m : M A) (k : A → M B) (w : world) (e : elog_error) :
  bind m k w = Raise e → m w = Raise e ∨ ∃ a w1, m w = Done a w1 ∧ k a w1 = Raise e.
Proof.
  unfold bind. destruct (m w) as [a w1|e'|]; [eauto| |discriminate].
  intros [= ->]. by left.
Qed.

Lemma SimpleLruReadPage_Raise (offsets_log : bool) (pageno : Z) (w : world) (e : elog_error) :
  SimpleLruReadPage offsets_log pageno w = Raise e → e = ERROR_slru_io offsets_log pageno.
Proof.
  unfold SimpleLruReadPage. destruct (page_buffer _ !! pageno); [discriminate|].
  by intros [= <-].
Qed.


(** Whatever nextOffset is, it is the starting offset handed out: zero
    included. *)
Lemma GetNewMultiXactId_offset_zero (nmembers : Z) (w : world) :
  InRecovery w = false → nextOffset (MultiXactState w) = 0 →
  ∃ multi w', GetNewMultiXactId nmembers w = Done (multi, 0) w'.
Proof.
  intros Hrec Hzero.
  destruct (GetNewMultiXactId_Done nmembers w Hrec) as (w' & Hnew & _).
  rewrite Hzero in Hnew. eauto.
Qed.

(** *** Further properties: the comparator and the cache *)

Ltac case_ltb :=
  match goal with
  | |- context [?x <? ?y] => destruct (Z.ltb_spec x y)
  end.

(** X1: mxactMemberComparator is a consistent three-way comparison:
    swapping the arguments negates the result, it returns 0 exactly on equal
    members, and "not greater" is transitive, so qsort is given a total
    order. *)
Theorem mxactMemberComparator_total_order (a b c : MultiXactMember) :
  mxactMemberComparator a b = - mxactMemberComparator b a
  ∧ (mxactMemberComparator a b = 0 ↔ a = b)
  ∧ (mxactMemberComparator a b ≤ 0 → mxactMemberComparator b c ≤ 0 →
     mxactMemberComparator a c ≤ 0).
Proof.
  drop_externals.
  destruct a as [xa sa], b as [xb sb], c as [xc sc]. unfold mxactMemberComparator. simpl.
  split; [|split; [split|]].
  - repeat case_ltb; lia.
  - repeat case_ltb; try discriminate; try lia. intros _. f_equal; lia.
  - intros [= -> ->]. by rewrite !Z.ltb_irrefl.
  - repeat case_ltb; lia.
Qed.

(** X2: an entry put into the cache is found again at once, by id and by
    the array it was put from, whatever the padding of that array:
    mXactCacheGetById returns the count and the sorted members,
    mXactCacheGetBySet returns the id, and neither lookup changes anything
    any more. *)
Theorem mXactCachePut_then_lookup (multi n : Z) (ms : list MultiXactMemberBytes) (w : world) :
  cache_wf w → n = Z.of_nat (length ms) →
  ∃ w1, mXactCachePut multi n ms w = Done tt w1
        ∧ mXactCacheGetById multi w1 = Done (n, qsort ms.*1) w1
        ∧ mXactCacheGetBySet n ms w1 = Done (qsort_in_memory ms, multi) w1.
Proof.
  intros Hwf Hn.
  destruct (mXactCachePut_spec multi n ms w Hwf Hn) as (w1 & Hput & _ & _ & rest & Hhead).
  exists w1. split; [done|]. split.
  - unfold mXactCacheGetById. rewrite Hhead.
    rewrite dlist_search_head by (simpl; apply Z.eqb_refl).
    simpl app. rewrite <- Hhead. rewrite set_cache_same by done.
    cbn [entry_nmembers entry_members]. by rewrite qsort_in_memory_fields.
  - unfold mXactCacheGetBySet. rewrite Hhead.
    rewrite dlist_search_head.
    + simpl app. rewrite <- Hhead. by rewrite set_cache_same.
    + simpl. rewrite Z.eqb_refl. simpl. unfold memcmp_eq. by apply bool_decide_eq_true.
Qed.

Lemma mXactCachePut_count (multi n : Z) (ms : list MultiXactMemberBytes) (w w' : world)
    (u : unit) :
  mXactCachePut multi n ms w = Done u w' →
  MXactCacheMembers w ≤ MAX_CACHE_ENTRIES → MXactCacheMembers w' ≤ MAX_CACHE_ENTRIES.
Proof.
  unfold mXactCachePut.
  drop_externals.
  destruct (MAX_CACHE_ENTRIES <=? MXactCacheMembers w) eqn:Hfull;
    intros [= _ <-]; cbn [MXactCacheMembers set_cache].
  - done.
  - apply Z.leb_gt in Hfull. lia.
Qed.

Lemma mXactCacheGetById_count (multi : Z) (w w' : world) (r : Z * list MultiXactMember) :
  mXactCacheGetById multi w = Done r w' → MXactCacheMembers w' = MXactCacheMembers w.
Proof.
  unfold mXactCacheGetById.
  destruct (dlist_search _ _) as [[[pre entry] suf]|]; by intros [= _ <-].
Qed.

(** The entry a successful resolution leaves at the head of the cache. *)
Lemma GetMultiXactIdMembers_caches (multi : Z) (onlyLock : bool) (w w1 : world)
    (n : Z) (ms : list MultiXactMember) :
  cache_wf w →
  GetMultiXactIdMembers multi false onlyLock w = Done (n, ms) w1 → 0 ≤ n →
  MultiXactIdIsValid multi = true
  ∧ (MXactCacheMembers w ≤ MAX_CACHE_ENTRIES → MXactCacheMembers w1 ≤ MAX_CACHE_ENTRIES)
  ∧ ∃ ms' rest, MXactCache w1 = mkEnt multi n ms' :: rest ∧ ms'.*1 ≡ₚ ms.
Proof.
  intros Hwf H Hn. unfold GetMultiXactIdMembers in H.
  destruct (MultiXactIdIsValid multi) eqn:Hvalid; simpl in H.
  2:{ apply ret_Done in H as [[= -> _] _]. lia. }
  split; [done|].
  inv_bind H as [len cached] w2 Hget.
  pose proof (mXactCacheGetById_count _ _ _ _ Hget) as Hcount1.
  pose proof (mXactCacheGetById_spec _ _ _ _ _ Hget) as [_ Hc1].
  destruct (Hc1 Hwf) as [Hwf1 _].
  destruct (0 <=? len) eqn:Hhit.
  { apply ret_Done in H as [[= -> ->] ->]. split; [by rewrite Hcount1|].
    unfold mXactCacheGetById in Hget.
    destruct (dlist_search _ (MXactCache w)) as [[[pre entry] suf]|] eqn:Hs.
    - injection Hget as <- <- <-. apply dlist_search_Some in Hs as (_ & Ht & _).
      apply Z.eqb_eq in Ht. exists (entry_members entry), (pre ++ suf).
      split; [|done]. simpl. destruct entry; simpl in *. by subst.
    - injection Hget as <- _ _. apply Z.leb_le in Hhit. lia. }
  inv_bind H as [] w3 Hvis.
  apply MultiXactIdSetOldestVisible_spec in Hvis as (_ & Hc2 & Hn2).
  assert (Hwf2 : cache_wf w3).
  { destruct Hwf1 as [? ?]. split; [by rewrite Hn2, Hc2|by rewrite Hc2]. }
  inv_bind H as visible w4 Hg. apply gets_Done in Hg as [-> ->].
  destruct (onlyLock && _).
  { apply ret_Done in H as [[= -> _] _]. lia. }
  inv_bind H as next w4 Hg. apply gets_Done in Hg as [-> ->].
  inv_bind H as nextoff w4 Hg. apply gets_Done in Hg as [-> ->].
  inv_bind H as page w4 Hpage. apply SimpleLruReadPage_Done in Hpage as [-> _].
  inv_bind H as len' w4 Hlen.
  assert (w4 = w3) as ->.
  { destruct (_ =? uint64 (multi + 1)).
    - by apply ret_Done in Hlen as [_ ->].
    - inv_bind Hlen as page' w5 Hpage'.
      assert (w5 = w3) as ->.
      { destruct (negb _).
        - by apply SimpleLruReadPage_Done in Hpage' as [-> _].
        - by apply ret_Done in Hpage' as [_ ->]. }
      destruct (_ =? 0); [discriminate|]. by apply ret_Done in Hlen as [_ ->]. }
  inv_bind H as padding w4 Hpad.
  apply palloc_MultiXactMember_Done in Hpad as (_ & Hpadding & ->).
  inv_bind H as ptr w4 Hread.
  pose proof (GetMultiXactIdMembers_read_length _ _ _ _ _ _ _ Hread) as Hptr.
  apply GetMultiXactIdMembers_read_same in Hread as ->.
  inv_bind H as [] w4 Hput.
  pose proof (mXactCachePut_count _ _ _ _ _ _ Hput) as Hcount.
  set (w3' := set_uninitialised _ w3) in *.
  assert (Hfields : (zip ptr padding).*1 = ptr).
  { apply fst_zip. simpl in Hptr. lia. }
  destruct (mXactCachePut_spec multi (Z.of_nat (length ptr)) (zip ptr padding) w3' Hwf2)
    as (w5 & Hput' & _ & _ & rest & Hhead).
  { by rewrite <- Hfields at 1; rewrite length_fmap. }
  rewrite Hput' in Hput. injection Hput as <-.
  apply ret_Done in H as [[= -> ->] ->].
  split.
  { intros Hle. apply Hcount. change (MXactCacheMembers w3') with (MXactCacheMembers w3).
    by rewrite Hn2, Hcount1. }
  exists (qsort_in_memory (zip ptr padding)), rest. split; [done|].
  by rewrite qsort_in_memory_fields, Hfields, qsort_Permutation.
Qed.

Lemma MultiXactIdCreateFromMembers_count (members : list MultiXactMember)
    (w w' : world) (multi : Z) :
  cache_wf w →
  MultiXactIdCreateFromMembers members w = Done multi w' →
  MXactCacheMembers w ≤ MAX_CACHE_ENTRIES → MXactCacheMembers w' ≤ MAX_CACHE_ENTRIES.
Proof.
  intros Hwf H Hle. unfold MultiXactIdCreateFromMembers in H.
  destruct (MultiXactIdCreateFromMembers_lookup members w Hwf)
    as (array & cached & c & Hmem & Harr & Hlen & Hwf1 & _ & _ & Hrun).
  rewrite Hrun in H. cbv beta iota zeta in H. rewrite Harr in H.
  set (w0 := set_uninitialised _ w) in *.
  destruct (MultiXactIdIsValid cached).
  { by apply ret_Done in H as [-> ->]. }
  set (w1 := set_cache c (MXactCacheMembers w) w0) in *.
  destruct (more_than_one_update false (qsort members)); [discriminate|].
  inv_bind H as [multi' offset] w2 Hnew.
  assert (Hrec : InRecovery w1 = false).
  { destruct (InRecovery w1) eqn:Hr; [|done].
    unfold GetNewMultiXactId, bind, gets in Hnew. rewrite Hr in Hnew. discriminate. }
  destruct (GetNewMultiXactId_Done (Z.of_nat (length members)) w1 Hrec)
    as (w2' & Hnew' & _ & _ & _ & Hn2 & _).
  rewrite Hnew' in Hnew. injection Hnew as <- <- <-.
  inv_bind H as [] w3 Hlog. apply modify_Done in Hlog as ->.
  inv_bind H as [] w4 Hrecord. apply RecordNewMultiXact_frame in Hrecord
    as (_ & _ & Hn4 & _).
  inv_bind H as [] w5 Hend. apply modify_Done in Hend as ->.
  inv_bind H as [] w6 Hput.
  apply mXactCachePut_count in Hput.
  - by apply ret_Done in H as [_ ->].
  - simpl. rewrite Hn4. simpl. by rewrite Hn2.
Qed.

(** X3: the cache never grows beyond MAX_CACHE_ENTRIES entries: a backend
    whose cache is within the bound keeps it within the bound through
    every creation and every resolution, and its counter keeps counting
    the list. *)
Theorem cache_never_exceeds_capacity (w : world) :
  cache_wf w → (length (MXactCache w) ≤ Z.to_nat MAX_CACHE_ENTRIES)%nat →
  (∀ members multi w',
     MultiXactIdCreateFromMembers members w = Done multi w' →
     cache_wf w' ∧ (length (MXactCache w') ≤ Z.to_nat MAX_CACHE_ENTRIES)%nat)
  ∧ (∀ multi from_pgupgrade onlyLock r w',
       GetMultiXactIdMembers multi from_pgupgrade onlyLock w = Done r w' →
       cache_wf w' ∧ (length (MXactCache w') ≤ Z.to_nat MAX_CACHE_ENTRIES)%nat).
Proof.
  intros Hwf Hlen.
  assert (Hle : MXactCacheMembers w ≤ MAX_CACHE_ENTRIES).
  { destruct Hwf as [-> _]. unfold MAX_CACHE_ENTRIES in *. lia. }
  split.
  - intros members multi w' H.
    destruct (MultiXactIdCreateFromMembers_inv members w w' multi Hwf H) as (_ & Hwf' & _).
    split; [done|].
    pose proof (MultiXactIdCreateFromMembers_count members w w' multi Hwf H Hle) as Hle'.
    destruct Hwf' as [Hc _]. rewrite Hc in Hle'. unfold MAX_CACHE_ENTRIES in *. lia.
  - intros multi from_pgupgrade onlyLock [n ms] w' H.
    destruct (GetMultiXactIdMembers_spec multi from_pgupgrade onlyLock w w' n ms Hwf H)
      as (_ & Hwf' & Hn).
    split; [done|].
    assert (Hle' : MXactCacheMembers w' ≤ MAX_CACHE_ENTRIES).
    { destruct from_pgupgrade.
      - unfold GetMultiXactIdMembers in H. rewrite orb_true_r in H.
        by apply ret_Done in H as [_ ->].
      - destruct (Z_lt_le_dec n 0) as [Hneg|Hpos].
        + (* nothing was put: the cache is the one of the lookup *)
          unfold GetMultiXactIdMembers in H.
          destruct (negb (MultiXactIdIsValid multi) || false).
          { by apply ret_Done in H as [_ ->]. }
          inv_bind H as [len cached] w2 Hget.
          pose proof (mXactCacheGetById_count _ _ _ _ Hget) as Hcount1.
          destruct (0 <=? len).
          { apply ret_Done in H as [_ ->]. by rewrite Hcount1. }
          inv_bind H as [] w3 Hvis.
          apply MultiXactIdSetOldestVisible_spec in Hvis as (_ & _ & Hn2).
          inv_bind H as visible w4 Hg. apply gets_Done in Hg as [-> ->].
          destruct (onlyLock && _).
          { apply ret_Done in H as [_ ->]. by rewrite Hn2, Hcount1. }
          inv_bind H as next w4 Hg. apply gets_Done in Hg as [-> ->].
          inv_bind H as nextoff w4 Hg. apply gets_Done in Hg as [-> ->].
          inv_bind H as page w4 Hpage.
          inv_bind H as len' w5 Hlen'.
          inv_bind H as padding w6 Hpad.
          inv_bind H as ptr w7 Hread.
          inv_bind H as [] w8 Hput.
          apply ret_Done in H as [[= -> _] _]. lia.
        + by apply (GetMultiXactIdMembers_caches multi onlyLock w w' n ms Hwf H Hpos). }
    destruct Hwf' as [Hc _]. rewrite Hc in Hle'. unfold MAX_CACHE_ENTRIES in *. lia.
Qed.

(** X4: a resolution that returned members can be repeated: the second
    call, whatever its onlyLock flag, returns the same count and the same
    members up to order, and changes nothing. *)
Theorem GetMultiXactIdMembers_repeatable (multi : Z) (onlyLock onlyLock' : bool)
    (w w1 : world) (n : Z) (ms : list MultiXactMember) :
  cache_wf w →
  GetMultiXactIdMembers multi false onlyLock w = Done (n, ms) w1 → 0 ≤ n →
  ∃ ms', GetMultiXactIdMembers multi false onlyLock' w1 = Done (n, ms') w1 ∧ ms' ≡ₚ ms.
Proof.
  intros Hwf H Hn.
  destruct (GetMultiXactIdMembers_caches multi onlyLock w w1 n ms Hwf H Hn)
    as (Hvalid & _ & ms' & rest & Hhead & Hperm).
  exists ms'.*1. split; [|done].
  by eapply GetMultiXactIdMembers_cache_head.
Qed.

(** *** Further properties: the per-backend horizons *)

(** X5: MultiXactIdSetOldestMember always leaves a valid id in the slot of
    the backend, also when nextMXact is in the wrapped-around state; a slot
    that is already valid is kept, so a second call changes nothing; the
    counters, the logs, the WAL and the slots of other backends are not
    touched. *)
Theorem MultiXactIdSetOldestMember_valid_once (w : world) :
  ∃ w', MultiXactIdSetOldestMember w = Done tt w'
        ∧ MultiXactIdIsValid (slot (OldestMemberMXactId (MultiXactState w')) MyBackendId) = true
        ∧ MultiXactIdSetOldestMember w' = Done tt w'
        ∧ durable w' = durable w
        ∧ ∀ i, i ≠ MyBackendId →
               slot (OldestMemberMXactId (MultiXactState w')) i
               = slot (OldestMemberMXactId (MultiXactState w)) i.
Proof.
  unfold MultiXactIdSetOldestMember.
  destruct (MultiXactIdIsValid (slot (OldestMemberMXactId (MultiXactState w)) MyBackendId))
    eqn:Hvalid; simpl.
  - exists w. rewrite Hvalid. simpl. auto.
  - eexists. split; [reflexivity|].
    assert (Hnew : MultiXactIdIsValid
                     (slot (<[MyBackendId :=
                              if nextMXact (MultiXactState w) <? FirstMultiXactId
                              then FirstMultiXactId else nextMXact (MultiXactState w)]>
                             (OldestMemberMXactId (MultiXactState w))) MyBackendId) = true).
    { unfold slot. rewrite lookup_insert_eq. simpl.
      unfold MultiXactIdIsValid, InvalidMultiXactId, FirstMultiXactId.
      apply negb_true_iff, Z.eqb_neq. case_ltb; lia. }
    cbn [MultiXactState set_MultiXactState OldestMemberMXactId set_OldestMemberMXactId].
    rewrite Hnew. simpl. repeat split; try done.
    intros i Hi. unfold slot. by rewrite lookup_insert_ne.
Qed.

(** The fold both horizon computations run: the oldest, in the order of
    MultiXactIdPrecedes, of a start value and the valid values of a list. *)
Lemma oldest_fold (vals : list Z) (init : Z) :
  (∀ x, MultiXactIdPrecedes x x = false) →
  (∀ x y z, MultiXactIdPrecedes x y = true → MultiXactIdPrecedes y z = true →
            MultiXactIdPrecedes x z = true) →
  let r := foldl (λ acc v, if MultiXactIdIsValid v && MultiXactIdPrecedes v acc
                           then v else acc) init vals in
  (∀ x, MultiXactIdPrecedes x init = false → MultiXactIdPrecedes x r = false)
  ∧ (∀ v, v ∈ vals → MultiXactIdIsValid v = true → MultiXactIdPrecedes v r = false)
  ∧ (r = init ∨ (r ∈ vals ∧ MultiXactIdIsValid r = true)).
Proof.
  intros Hirr Htrans. revert init.
  induction vals as [|v vals IH]; intros init; simpl.
  { split; [auto|]. split; [|by left]. intros v Hv. by apply elem_of_nil in Hv. }
  set (acc := if MultiXactIdIsValid v && MultiXactIdPrecedes v init then v else init).
  destruct (IH acc) as (Hmono & Hall & Hfrom).
  assert (Hstep : ∀ x, MultiXactIdPrecedes x init = false → MultiXactIdPrecedes x acc = false).
  { intros x Hx. subst acc.
    destruct (MultiXactIdIsValid v && MultiXactIdPrecedes v init) eqn:Htake; [|done].
    apply andb_true_iff in Htake as [_ Hv].
    destruct (MultiXactIdPrecedes x v) eqn:Hxv; [|done].
    by rewrite (Htrans x v init Hxv Hv) in Hx. }
  split; [auto|]. split.
  - intros v' Hv' Hvalid. apply elem_of_cons in Hv' as [->|Hv']; [|by apply Hall].
    apply Hmono. subst acc. rewrite Hvalid. simpl.
    destruct (MultiXactIdPrecedes v init) eqn:Hv; [apply Hirr|done].
  - destruct Hfrom as [Hr|[Hr Hvalid]].
    + rewrite Hr. subst acc.
      destruct (MultiXactIdIsValid v && MultiXactIdPrecedes v init) eqn:Htake; [|by left].
      apply andb_true_iff in Htake as [Hvalid _].
      right. split; [apply elem_of_cons; by left|done].
    + right. split; [apply elem_of_cons; by right|done].
Qed.

Lemma foldl_slots {A} (step : Z → A → Z) (f : nat → A) (l : list nat) (init : Z) :
  foldl (λ acc i, step acc (f i)) init l = foldl step init (f <$> l).
Proof. revert init. induction l as [|i l IH]; intros init; simpl; [done|apply IH]. Qed.

Lemma foldl_slot_pairs (step : Z → Z → Z) (f g : nat → Z) (l : list nat) (init : Z) :
  foldl (λ acc i, step (step acc (f i)) (g i)) init l
  = foldl step init (l ≫= λ i, [f i; g i]).
Proof. revert init. induction l as [|i l IH]; intros init; simpl; [done|apply IH]. Qed.

Lemma start_value_valid (next : Z) :
  MultiXactIdIsValid (if next <? FirstMultiXactId then FirstMultiXactId else next) = true.
Proof.
  drop_externals.
  unfold MultiXactIdIsValid, InvalidMultiXactId, FirstMultiXactId.
  apply negb_true_iff, Z.eqb_neq. case_ltb; lia.
Qed.

(** X6: when MultiXactIdPrecedes is a strict order, the value
    MultiXactIdSetOldestVisible stores for a backend that had none is a valid
    id that no valid OldestMemberMXactId entry precedes and that the next id
    to be assigned does not precede: it is the oldest of them. *)
Theorem MultiXactIdSetOldestVisible_is_oldest (w : world) :
  (∀ x, MultiXactIdPrecedes x x = false) →
  (∀ x y z, MultiXactIdPrecedes x y = true → MultiXactIdPrecedes y z = true →
            MultiXactIdPrecedes x z = true) →
  MultiXactIdIsValid (slot (OldestVisibleMXactId (MultiXactState w)) MyBackendId) = false →
  ∃ w' visible,
    MultiXactIdSetOldestVisible w = Done tt w'
    ∧ slot (OldestVisibleMXactId (MultiXactState w')) MyBackendId = visible
    ∧ MultiXactIdIsValid visible = true
    ∧ MultiXactIdPrecedes
        (if nextMXact (MultiXactState w) <? FirstMultiXactId then FirstMultiXactId
         else nextMXact (MultiXactState w)) visible = false
    ∧ ∀ i : nat, (1 ≤ i ≤ MaxOldestSlot)%nat →
        MultiXactIdIsValid (slot (OldestMemberMXactId (MultiXactState w)) (Z.of_nat i)) = true →
        MultiXactIdPrecedes (slot (OldestMemberMXactId (MultiXactState w)) (Z.of_nat i)) visible
        = false.
Proof.
  intros Hirr Htrans Hinvalid. unfold MultiXactIdSetOldestVisible. rewrite Hinvalid. simpl.
  eexists _, _. split; [reflexivity|].
  cbn [MultiXactState set_MultiXactState OldestVisibleMXactId set_OldestVisibleMXactId].
  unfold slot at 1. rewrite lookup_insert_eq. simpl. split; [reflexivity|].
  rewrite (foldl_slots
             (λ acc v, if MultiXactIdIsValid v && MultiXactIdPrecedes v acc then v else acc)
             (λ i, slot (OldestMemberMXactId (MultiXactState w)) (Z.of_nat i))).
  match goal with
  | |- context [foldl _ ?init ?vals] =>
      destruct (oldest_fold vals init Hirr Htrans) as (Hmono & Hall & Hfrom)
  end.
  split; [|split].
  - destruct Hfrom as [->|[_ Hv]]; [apply start_value_valid|done].
  - apply Hmono, Hirr.
  - intros i Hi Hvalid. apply Hall; [|done].
    apply list_elem_of_fmap. exists i. split; [done|]. apply elem_of_seq. lia.
Qed.

Lemma GetOldestMultiXactId_fold (w : world) :
  GetOldestMultiXactId w
  = Done (foldl (λ acc v, if MultiXactIdIsValid v && MultiXactIdPrecedes v acc then v else acc)
            (if nextMXact (MultiXactState w) <? FirstMultiXactId then FirstMultiXactId
             else nextMXact (MultiXactState w))
            (seq 1 MaxOldestSlot ≫=
               λ i, [slot (OldestMemberMXactId (MultiXactState w)) (Z.of_nat i);
                     slot (OldestVisibleMXactId (MultiXactState w)) (Z.of_nat i)])) w.
Proof.
  unfold GetOldestMultiXactId, gets. f_equal.
  apply (foldl_slot_pairs
           (λ acc v, if MultiXactIdIsValid v && MultiXactIdPrecedes v acc then v else acc)).
Qed.

(** X7: when MultiXactIdPrecedes is a strict order, GetOldestMultiXactId
    returns a valid id that no valid entry of either per-backend array
    precedes, and that the next id to be assigned does not precede; it
    changes nothing. *)
Theorem GetOldestMultiXactId_is_oldest (w : world) :
  (∀ x, MultiXactIdPrecedes x x = false) →
  (∀ x y z, MultiXactIdPrecedes x y = true → MultiXactIdPrecedes y z = true →
            MultiXactIdPrecedes x z = true) →
  ∃ oldest,
    GetOldestMultiXactId w = Done oldest w
    ∧ MultiXactIdIsValid oldest = true
    ∧ MultiXactIdPrecedes
        (if nextMXact (MultiXactState w) <? FirstMultiXactId then FirstMultiXactId
         else nextMXact (MultiXactState w)) oldest = false
    ∧ ∀ i : nat, (1 ≤ i ≤ MaxOldestSlot)%nat →
        (MultiXactIdIsValid (slot (OldestMemberMXactId (MultiXactState w)) (Z.of_nat i)) = true →
         MultiXactIdPrecedes (slot (OldestMemberMXactId (MultiXactState w)) (Z.of_nat i)) oldest
         = false)
        ∧ (MultiXactIdIsValid (slot (OldestVisibleMXactId (MultiXactState w)) (Z.of_nat i)) = true →
           MultiXactIdPrecedes (slot (OldestVisibleMXactId (MultiXactState w)) (Z.of_nat i)) oldest
           = false).
Proof.
  intros Hirr Htrans. rewrite GetOldestMultiXactId_fold.
  eexists. split; [reflexivity|].
  match goal with
  | |- context [foldl _ ?init ?vals] =>
      destruct (oldest_fold vals init Hirr Htrans) as (Hmono & Hall & Hfrom)
  end.
  split; [|split].
  - destruct Hfrom as [->|[_ Hv]]; [apply start_value_valid|done].
  - apply Hmono, Hirr.
  - intros i Hi.
    assert (Hin : ∀ v, v ∈ [slot (OldestMemberMXactId (MultiXactState w)) (Z.of_nat i);
                            slot (OldestVisibleMXactId (MultiXactState w)) (Z.of_nat i)] →
                       v ∈ seq 1 MaxOldestSlot ≫=
                             λ i, [slot (OldestMemberMXactId (MultiXactState w)) (Z.of_nat i);
                                   slot (OldestVisibleMXactId (MultiXactState w)) (Z.of_nat i)]).
    { intros v Hv. apply list_elem_of_bind. exists i. split; [done|]. apply elem_of_seq. lia. }
    split; intros Hvalid; (apply Hall; [|done]); apply Hin;
      apply list_elem_of_In; simpl; auto.
Qed.

(** X8: PREPARE TRANSACTION keeps the horizon pinned.  PostPrepare_MultiXact
    moves the backend's valid OldestMemberMXactId into the slot of the
    prepared transaction and clears the backend's own two slots and its
    cache; when that slot is one of the scanned slots and
    MultiXactIdPrecedes is a strict order, GetOldestMultiXactId afterwards
    still returns an id the moved value does not precede. *)
Theorem PostPrepare_MultiXact_keeps_horizon (prepared_xid : Z) (w : world) :
  (∀ x, MultiXactIdPrecedes x x = false) →
  (∀ x y z, MultiXactIdPrecedes x y = true → MultiXactIdPrecedes y z = true →
            MultiXactIdPrecedes x z = true) →
  MultiXactIdIsValid (slot (OldestMemberMXactId (MultiXactState w)) MyBackendId) = true →
  1 ≤ TwoPhaseGetDummyBackendId prepared_xid ≤ Z.of_nat MaxOldestSlot →
  TwoPhaseGetDummyBackendId prepared_xid ≠ MyBackendId →
  ∃ w1 oldest,
    PostPrepare_MultiXact prepared_xid w = Done tt w1
    ∧ MXactCache w1 = [] ∧ MXactCacheMembers w1 = 0
    ∧ slot (OldestMemberMXactId (MultiXactState w1)) MyBackendId = InvalidMultiXactId
    ∧ slot (OldestVisibleMXactId (MultiXactState w1)) MyBackendId = InvalidMultiXactId
    ∧ slot (OldestMemberMXactId (MultiXactState w1)) (TwoPhaseGetDummyBackendId prepared_xid)
      = slot (OldestMemberMXactId (MultiXactState w)) MyBackendId
    ∧ GetOldestMultiXactId w1 = Done oldest w1
    ∧ MultiXactIdPrecedes (slot (OldestMemberMXactId (MultiXactState w)) MyBackendId) oldest
      = false.
Proof.
  intros Hirr Htrans Hvalid Hrange Hne.
  unfold PostPrepare_MultiXact, bind, gets, modify. rewrite Hvalid.
  eexists _, _. split; [reflexivity|].
  cbn [MultiXactState set_MultiXactState OldestMemberMXactId OldestVisibleMXactId
       set_OldestMemberMXactId set_OldestVisibleMXactId set_cache MXactCache MXactCacheMembers].
  assert (Hdummy :
    slot (<[MyBackendId := InvalidMultiXactId]>
            (<[TwoPhaseGetDummyBackendId prepared_xid :=
                 slot (OldestMemberMXactId (MultiXactState w)) MyBackendId]>
               (OldestMemberMXactId (MultiXactState w))))
         (TwoPhaseGetDummyBackendId prepared_xid)
    = slot (OldestMemberMXactId (MultiXactState w)) MyBackendId).
  { unfold slot at 1. rewrite lookup_insert_ne by done. by rewrite lookup_insert_eq. }
  split; [done|]. split; [done|].
  split; [unfold slot; by rewrite lookup_insert_eq|].
  split; [unfold slot; by rewrite lookup_insert_eq|].
  split; [exact Hdummy|].
  rewrite GetOldestMultiXactId_fold. split; [reflexivity|].
  cbn [MultiXactState set_MultiXactState OldestMemberMXactId OldestVisibleMXactId
       set_OldestMemberMXactId set_OldestVisibleMXactId set_cache nextMXact].
  match goal with
  | |- context [foldl _ ?init ?vals] =>
      destruct (oldest_fold vals init Hirr Htrans) as (_ & Hall & _)
  end.
  apply Hall; [|done].
  apply list_elem_of_bind. exists (Z.to_nat (TwoPhaseGetDummyBackendId prepared_xid)).
  split; [|apply elem_of_seq; lia].
  rewrite Z2Nat.id by lia. rewrite Hdummy. apply elem_of_cons. by left.
Qed.

(** *** Further properties: replay support, liveness test, error exits *)

(** X9: MultiXactAdvanceNextMXact never moves a counter backwards.  The
    next offset becomes the larger of its value and the minimum asked for;
    the next id is kept or replaced by the minimum, and (MultiXactIdPrecedes
    being irreflexive at the minimum) does not precede the minimum
    afterwards; the logs and the WAL are not touched, and a second call with
    the same minimums changes nothing. *)
Theorem MultiXactAdvanceNextMXact_never_regresses (minMulti minMultiOffset : Z) (w : world) :
  MultiXactIdPrecedes minMulti minMulti = false →
  ∃ w', MultiXactAdvanceNextMXact minMulti minMultiOffset w = Done tt w'
        ∧ MultiXactIdPrecedes (nextMXact (MultiXactState w')) minMulti = false
        ∧ (nextMXact (MultiXactState w') = nextMXact (MultiXactState w)
           ∨ nextMXact (MultiXactState w') = minMulti)
        ∧ nextOffset (MultiXactState w')
          = Z.max (nextOffset (MultiXactState w)) minMultiOffset
        ∧ MultiXactOffsetCtl w' = MultiXactOffsetCtl w
        ∧ MultiXactMemberCtl w' = MultiXactMemberCtl w
        ∧ xlog w' = xlog w
        ∧ MultiXactAdvanceNextMXact minMulti minMultiOffset w' = Done tt w'.
Proof.
  intros Hirr. unfold MultiXactAdvanceNextMXact, bind, gets, modify, ret.
  destruct (MultiXactIdPrecedes (nextMXact (MultiXactState w)) minMulti) eqn:Hprec;
    cbn [MultiXactState set_MultiXactState nextOffset nextMXact set_nextMXact set_nextOffset];
    destruct (Z.ltb_spec (nextOffset (MultiXactState w)) minMultiOffset) as [Hlt|Hge];
    eexists; (split; [reflexivity|]);
    cbn [MultiXactState set_MultiXactState nextOffset nextMXact set_nextMXact set_nextOffset
         MultiXactOffsetCtl MultiXactMemberCtl xlog];
    rewrite ?Hirr, ?Hprec, ?Z.ltb_irrefl;
    cbn [MultiXactState set_MultiXactState nextOffset nextMXact set_nextMXact set_nextOffset];
    rewrite ?Z.ltb_irrefl;
    repeat split; auto; try lia.
  - destruct (Z.ltb_spec (nextOffset (MultiXactState w)) minMultiOffset); [lia|done].
  - destruct (Z.ltb_spec (nextOffset (MultiXactState w)) minMultiOffset); [lia|done].
Qed.

(** X10: MultiXactAdvanceOldest moves the floor only when the floor it has
    precedes the new one: either nothing changes, or the floor, its database
    and the autovacuum trigger (floor plus
    autovacuum_multixact_freeze_max_age, in 64-bit arithmetic) are set
    together.  The counters and the logs are never touched. *)
Theorem MultiXactAdvanceOldest_only_forward (oldestMulti oldestMultiDB : Z) (w : world) :
  MultiXactIdPrecedes oldestMulti oldestMulti = false →
  ∃ w', MultiXactAdvanceOldest oldestMulti oldestMultiDB w = Done tt w'
        ∧ MultiXactIdPrecedes (oldestMultiXactId (MultiXactState w')) oldestMulti = false
        ∧ (w' = w
           ∨ (MultiXactIdPrecedes (oldestMultiXactId (MultiXactState w)) oldestMulti = true
              ∧ oldestMultiXactId (MultiXactState w') = oldestMulti
              ∧ oldestMultiXactDB (MultiXactState w') = oldestMultiDB
              ∧ multiVacLimit (MultiXactState w')
                = uint64 (oldestMulti + autovacuum_multixact_freeze_max_age)))
        ∧ nextMXact (MultiXactState w') = nextMXact (MultiXactState w)
        ∧ nextOffset (MultiXactState w') = nextOffset (MultiXactState w)
        ∧ MultiXactOffsetCtl w' = MultiXactOffsetCtl w
        ∧ MultiXactMemberCtl w' = MultiXactMemberCtl w.
Proof.
  intros Hirr. unfold MultiXactAdvanceOldest, SetMultiXactIdLimit, bind, gets, modify, ret.
  destruct (MultiXactIdPrecedes (oldestMultiXactId (MultiXactState w)) oldestMulti) eqn:Hprec;
    eexists; (split; [reflexivity|]).
  - cbn. repeat split; auto.
  - repeat split; auto.
Qed.

(** X11: MultiXactIdIsRunning answers true exactly when some member the
    resolution returns is a transaction of the caller or is in progress; an
    id that resolves to nothing (invalid, truncated away, no members) is not
    running.  The call leaves the world as the resolution leaves it. *)
Theorem MultiXactIdIsRunning_iff_member_running (multi : Z) (isLockOnly : bool)
    (w w1 : world) (n : Z) (ms : list MultiXactMember) :
  cache_wf w →
  GetMultiXactIdMembers multi false isLockOnly w = Done (n, ms) w1 →
  ∃ running,
    MultiXactIdIsRunning multi isLockOnly w = Done running w1
    ∧ (running = true ↔
       ∃ m, m ∈ ms ∧ (TransactionIdIsCurrentTransactionId (xid m) = true
                      ∨ TransactionIdIsInProgress (xid m) = true)).
Proof.
  intros Hwf H.
  destruct (GetMultiXactIdMembers_spec multi false isLockOnly w w1 n ms Hwf H)
    as (_ & _ & Hn).
  unfold MultiXactIdIsRunning. rewrite (bind_Done_intro _ _ _ _ _ H).
  destruct (Z.leb_spec n 0) as [Hle|Hgt].
  - exists false. split; [reflexivity|]. split; [discriminate|].
    intros (m & Hm & _). destruct Hn as [[_ ->]|Hn]; [by apply elem_of_nil in Hm|].
    destruct ms; [by apply elem_of_nil in Hm|simpl in Hn; lia].
  - destruct Hn as [[-> _]|Hn]; [lia|]. rewrite (take_length_eq n ms Hn).
    destruct (existsb (λ m, TransactionIdIsCurrentTransactionId (xid m)) ms) eqn:Hmine.
    { exists true. split; [reflexivity|]. split; [|done]. intros _.
      apply existsb_exists in Hmine as (m & Hm & Hc). exists m.
      split; [by apply list_elem_of_In|by left]. }
    destruct (existsb (λ m, TransactionIdIsInProgress (xid m)) ms) eqn:Hprog.
    { exists true. split; [reflexivity|]. split; [|done]. intros _.
      apply existsb_exists in Hprog as (m & Hm & Hc). exists m.
      split; [by apply list_elem_of_In|by right]. }
    exists false. split; [reflexivity|]. split; [discriminate|].
    intros (m & Hm & [Hc|Hc]); apply list_elem_of_In in Hm.
    + assert (existsb (λ m, TransactionIdIsCurrentTransactionId (xid m)) ms = true)
        by (apply existsb_exists; eauto). congruence.
    + assert (existsb (λ m, TransactionIdIsInProgress (xid m)) ms = true)
        by (apply existsb_exists; eauto). congruence.
Qed.

(** X12: a member array with more than one updating member is refused:
    with nothing in the cache to answer from, MultiXactIdCreateFromMembers
    exits through elog(ERROR) "new multixact has more than one updating
    member" and returns no id. *)
Theorem MultiXactIdCreateFromMembers_two_updates (members : list MultiXactMember) (w : world) :
  MXactCache w = [] → ¬ at_most_one_update members →
  MultiXactIdCreateFromMembers members w = Raise ERROR_more_than_one_updating_member.
Proof.
  intros Hc Hupd. unfold MultiXactIdCreateFromMembers.
  destruct (MultiXactIdCreateFromMembers_lookup_empty members w Hc)
    as (array & Harr & Hlen & Hrun).
  rewrite Hrun. cbv beta iota zeta. rewrite Harr.
  change (MultiXactIdIsValid InvalidMultiXactId) with false. cbv iota.
  destruct (more_than_one_update false (qsort members)) eqn:Hcheck; [reflexivity|].
  exfalso. apply Hupd. apply at_most_one_update_check in Hcheck.
  apply (at_most_one_update_Permutation (qsort members)); [apply qsort_Permutation|done].
Qed.

(** X13: during recovery no id is assigned: a creation that the cache
    cannot answer exits through elog(ERROR) "cannot assign MultiXactIds
    during recovery". *)
Theorem MultiXactIdCreateFromMembers_in_recovery (members : list MultiXactMember) (w : world) :
  MXactCache w = [] → at_most_one_update members → InRecovery w = true →
  MultiXactIdCreateFromMembers members w = Raise ERROR_cannot_assign_during_recovery.
Proof.
  intros Hc Hupd Hrec. unfold MultiXactIdCreateFromMembers.
  destruct (MultiXactIdCreateFromMembers_lookup_empty members w Hc)
    as (array & Harr & Hlen & Hrun).
  rewrite Hrun. cbv beta iota zeta. rewrite Harr.
  change (MultiXactIdIsValid InvalidMultiXactId) with false. cbv iota.
  apply (at_most_one_update_Permutation _ (qsort members)) in Hupd;
    [|by rewrite qsort_Permutation].
  apply at_most_one_update_check in Hupd. rewrite Hupd.
  unfold GetNewMultiXactId, bind, gets. cbn [InRecovery set_uninitialised]. by rewrite Hrec.
Qed.

(** *** Further properties: what the logs keep *)

Lemma RecordNewMultiXact_members_offsets (members : list MultiXactMember)
    (multi offset prev_pageno : Z) (w w' : world) (u : unit) :
  RecordNewMultiXact_members multi offset prev_pageno members w = Done u w' →
  MultiXactOffsetCtl w' = MultiXactOffsetCtl w.
Proof.
  revert offset prev_pageno w.
  induction members as [|member members IH]; intros offset prev_pageno w H.
  - simpl in H. by apply ret_Done in H as [_ ->].
  - apply RecordNewMultiXact_members_cons in H. by apply IH in H.
Qed.

Lemma offset_entry_store (multi offset other : Z) (ctl : SlruCtlData) :
  0 ≤ multi → 0 ≤ other →
  offset_entry
    (slru_store (MultiXactIdToOffsetPage multi) (MultiXactIdToOffsetEntry multi) offset ctl)
    other
  = if decide (other = multi) then offset else offset_entry ctl other.
Proof.
  drop_externals.
  intros Hm Ho. unfold offset_entry. rewrite page_word_store.
  destruct (decide (other = multi)) as [->|Hne].
  - by rewrite decide_True.
  - rewrite decide_False; [done|]. intros [Hp He]. apply Hne.
    revert Hp He. unfold MultiXactIdToOffsetPage, MultiXactIdToOffsetEntry.
    change MULTIXACT_OFFSETS_PER_PAGE with 1024. intros. Z.div_mod_to_equations. lia.
Qed.

(** X14: find_multixact_start reads back what RecordNewMultiXact stored:
    after a group has been recorded its id is found on disk with the offset
    it was recorded at, and the entry of no other id has changed. *)
Theorem find_multixact_start_after_record (multi offset nmembers : Z)
    (members : list MultiXactMember) (w w' : world) :
  0 ≤ multi →
  RecordNewMultiXact multi offset nmembers members w = Done tt w' →
  find_multixact_start multi w' = Done (Some offset) w'
  ∧ ∀ other, 0 ≤ other → other ≠ multi →
      offset_entry (MultiXactOffsetCtl w') other = offset_entry (MultiXactOffsetCtl w) other.
Proof.
  intros Hm H. unfold RecordNewMultiXact in H.
  inv_bind H as page w1 Hpage. apply SimpleLruReadPage_Done in Hpage as [-> Hpage].
  inv_bind H as [] w1 Hstore. apply modify_Done in Hstore as ->.
  apply RecordNewMultiXact_members_offsets in H. simpl in H.
  split.
  - unfold find_multixact_start, bind, gets, SimpleLruDoesPhysicalPageExist, SimpleLruReadPage.
    cbn beta iota. rewrite !H. unfold slru_store. cbn [page_buffer].
    rewrite !lookup_insert_eq.
    rewrite bool_decide_eq_true_2 by eauto. simpl. rewrite H. unfold slru_store.
    cbn [page_buffer]. rewrite lookup_insert_eq. unfold ret. do 2 f_equal.
    unfold page_word. by rewrite lookup_insert_eq.
  - intros other Ho Hne. rewrite H, offset_entry_store by done. by rewrite decide_False.
Qed.

Lemma page_word_zero_from (pageno k pageno' k' : Z) (ctl : SlruCtlData) :
  page_word (slru_page (slru_zero_from pageno k ctl) pageno') k'
  = if decide (pageno = pageno' ∧ k ≤ k') then 0
    else page_word (slru_page ctl pageno') k'.
Proof.
  drop_externals.
  unfold slru_zero_from, slru_page, page_word. cbn [page_buffer].
  destruct (decide (pageno = pageno')) as [->|Hp].
  - set (pg := default (∅ : gmap Z Z) (page_buffer ctl !! pageno')).
    rewrite lookup_insert_eq. cbn [default from_option id]. clearbody pg.
    destruct (filter (λ kv : Z * Z, kv.1 < k) pg !! k') as [v|] eqn:Hf.
    + apply map_lookup_filter_Some in Hf as [Hv Hlt]. simpl in Hlt.
      rewrite decide_False by lia. by rewrite Hv.
    + apply map_lookup_filter_None in Hf as [Hv|Hv].
      * rewrite Hv. by destruct (decide _).
      * destruct (decide _) as [_|Hn]; [done|].
        destruct (pg !! k') as [v|] eqn:Hpg; [|done].
        exfalso. apply (Hv v eq_refl). simpl. lia.
  - rewrite lookup_insert_ne by done. rewrite decide_False by tauto. done.
Qed.

Lemma page_word_set_latest (pageno pageno' k' : Z) (ctl : SlruCtlData) :
  page_word (slru_page (set_latest_page_number pageno ctl) pageno') k'
  = page_word (slru_page ctl pageno') k'.
Proof. reflexivity. Qed.

(** What TrimMultiXact has done when it returns. *)
Lemma TrimMultiXact_inv (w w' : world) (u : unit) :
  TrimMultiXact w = Done u w' →
  let s := MultiXactState w in
  let opage := MultiXactIdToOffsetPage (nextMXact s) in
  let oentry := MultiXactIdToOffsetEntry (nextMXact s) in
  let mpage := MXOffsetToMemberPage (nextOffset s) in
  MultiXactState w'
  = set_multiVacLimit (uint64 (oldestMultiXactId s + autovacuum_multixact_freeze_max_age))
      (set_oldestMultiXact (oldestMultiXactId s) (oldestMultiXactDB s)
         (set_finishedStartup true s))
  ∧ MultiXactOffsetCtl w'
    = (if negb (oentry =? 0)
       then slru_zero_from opage oentry (set_latest_page_number opage (MultiXactOffsetCtl w))
       else set_latest_page_number opage (MultiXactOffsetCtl w))
  ∧ MultiXactMemberCtl w'
    = (if negb (MXOffsetToFlagsOffset (nextOffset s) =? 0)
       then slru_zero_from mpage (MXOffsetToMemberOffset (nextOffset s))
              (set_latest_page_number mpage (MultiXactMemberCtl w))
       else set_latest_page_number mpage (MultiXactMemberCtl w))
  ∧ xlog w' = xlog w ∧ MXactCache w' = MXactCache w.
Proof.
  intros H. cbv zeta. unfold TrimMultiXact in H.
  inv_bind H as next w1 Hg. apply gets_Done in Hg as [-> ->].
  inv_bind H as off w1 Hg. apply gets_Done in Hg as [-> ->].
  inv_bind H as old w1 Hg. apply gets_Done in Hg as [-> ->].
  inv_bind H as olddb w1 Hg. apply gets_Done in Hg as [-> ->].
  inv_bind H as [] w1 Hm. apply modify_Done in Hm as ->.
  inv_bind H as [] w2 Hz.
  destruct (negb (MultiXactIdToOffsetEntry (nextMXact (MultiXactState w)) =? 0)).
  - inv_bind Hz as pg w3 Hpg. apply SimpleLruReadPage_Done in Hpg as [-> _].
    apply modify_Done in Hz as ->.
    inv_bind H as [] w1 Hm. apply modify_Done in Hm as ->.
    inv_bind H as [] w2 Hz.
    destruct (negb (MXOffsetToFlagsOffset (nextOffset (MultiXactState w)) =? 0)).
    + inv_bind Hz as pg' w3 Hpg. apply SimpleLruReadPage_Done in Hpg as [-> _].
      apply modify_Done in Hz as ->.
      inv_bind H as [] w1 Hm. apply modify_Done in Hm as ->.
      unfold SetMultiXactIdLimit in H. apply modify_Done in H as ->. by simpl.
    + apply ret_Done in Hz as [_ ->].
      inv_bind H as [] w1 Hm. apply modify_Done in Hm as ->.
      unfold SetMultiXactIdLimit in H. apply modify_Done in H as ->. by simpl.
  - apply ret_Done in Hz as [_ ->].
    inv_bind H as [] w1 Hm. apply modify_Done in Hm as ->.
    inv_bind H as [] w2 Hz.
    destruct (negb (MXOffsetToFlagsOffset (nextOffset (MultiXactState w)) =? 0)).
    + inv_bind Hz as pg' w3 Hpg. apply SimpleLruReadPage_Done in Hpg as [-> _].
      apply modify_Done in Hz as ->.
      inv_bind H as [] w1 Hm. apply modify_Done in Hm as ->.
      unfold SetMultiXactIdLimit in H. apply modify_Done in H as ->. by simpl.
    + apply ret_Done in Hz as [_ ->].
      inv_bind H as [] w1 Hm. apply modify_Done in Hm as ->.
      unfold SetMultiXactIdLimit in H. apply modify_Done in H as ->. by simpl.
Qed.

(** TrimMultiXact returns when the pages it has to clean exist. *)
Lemma TrimMultiXact_Done (w : world) :
  (MultiXactIdToOffsetEntry (nextMXact (MultiXactState w)) ≠ 0 →
   is_Some (page_buffer (MultiXactOffsetCtl w)
              !! MultiXactIdToOffsetPage (nextMXact (MultiXactState w)))) →
  (MXOffsetToFlagsOffset (nextOffset (MultiXactState w)) ≠ 0 →
   is_Some (page_buffer (MultiXactMemberCtl w)
              !! MXOffsetToMemberPage (nextOffset (MultiXactState w)))) →
  ∃ w', TrimMultiXact w = Done tt w'
        ∧ MXactCacheMembers w' = MXactCacheMembers w ∧ InRecovery w' = InRecovery w.
Proof.
  intros Ho Hm.
  unfold TrimMultiXact, bind, gets, modify, SimpleLruReadPage, SetMultiXactIdLimit, ret.
  destruct (Z.eqb_spec (MultiXactIdToOffsetEntry (nextMXact (MultiXactState w))) 0) as [He|He];
    destruct (Z.eqb_spec (MXOffsetToFlagsOffset (nextOffset (MultiXactState w))) 0) as [Hf|Hf];
    simpl.
  - by eexists.
  - destruct (Hm Hf) as [pg Hpg]. rewrite Hpg. by eexists.
  - destruct (Ho He) as [pg Hpg]. rewrite Hpg. by eexists.
  - destruct (Ho He) as [pg Hpg]. rewrite Hpg. simpl.
    destruct (Hm Hf) as [pg' Hpg']. rewrite Hpg'. by eexists.
Qed.

(** X15: TrimMultiXact and the OFFSETs log.  When it returns, startup is
    marked finished and the counters are as they were; the entry of every id
    below nextMXact is as it was; and, nextMXact not being the first entry of
    its page, the entries of nextMXact and of all later ids on that page are
    zero, so that a stale offset left there by a crash cannot be taken for
    the start of the next group. *)
Theorem TrimMultiXact_offsets (w w' : world) :
  TrimMultiXact w = Done tt w' →
  0 ≤ nextMXact (MultiXactState w) →
  finishedStartup (MultiXactState w') = true
  ∧ nextMXact (MultiXactState w') = nextMXact (MultiXactState w)
  ∧ nextOffset (MultiXactState w') = nextOffset (MultiXactState w)
  ∧ oldestMultiXactId (MultiXactState w') = oldestMultiXactId (MultiXactState w)
  ∧ (∀ multi, 0 ≤ multi < nextMXact (MultiXactState w) →
       offset_entry (MultiXactOffsetCtl w') multi = offset_entry (MultiXactOffsetCtl w) multi)
  ∧ (MultiXactIdToOffsetEntry (nextMXact (MultiXactState w)) ≠ 0 →
     ∀ multi, nextMXact (MultiXactState w) ≤ multi →
       MultiXactIdToOffsetPage multi = MultiXactIdToOffsetPage (nextMXact (MultiXactState w)) →
       offset_entry (MultiXactOffsetCtl w') multi = 0).
Proof.
  intros H Hnext. apply TrimMultiXact_inv in H as (Hs & Ho & _ & _ & _).
  cbv zeta in Hs, Ho. rewrite Hs. simpl.
  split; [done|]. split; [done|]. split; [done|]. split; [done|].
  clear Hs. revert Hnext Ho. generalize (nextMXact (MultiXactState w)).
  drop_externals. intros next Hnext Ho. rewrite Ho. clear Ho.
  split.
  - intros multi Hmulti. unfold offset_entry.
    destruct (negb (MultiXactIdToOffsetEntry next =? 0)); [|done].
    rewrite page_word_zero_from, page_word_set_latest.
    rewrite decide_False; [done|]. intros [Hp He]. revert Hp He.
    unfold MultiXactIdToOffsetPage, MultiXactIdToOffsetEntry.
    change MULTIXACT_OFFSETS_PER_PAGE with 1024. intros. Z.div_mod_to_equations. lia.
  - intros Hentry multi Hmulti Hpage. unfold offset_entry.
    apply Z.eqb_neq in Hentry. rewrite Hentry. simpl.
    rewrite page_word_zero_from. rewrite decide_True; [done|].
    split; [done|]. revert Hpage.
    unfold MultiXactIdToOffsetPage, MultiXactIdToOffsetEntry.
    change MULTIXACT_OFFSETS_PER_PAGE with 1024. intros. Z.div_mod_to_equations. lia.
Qed.

(** X16: TrimMultiXact and the MEMBERs log.  Every member slot below
    nextOffset reads as before: xid and status.  The slot of nextOffset not
    being in the first group of its page, the xid of every slot from
    nextOffset to the end of that page is zero, which resolution skips. *)
Theorem TrimMultiXact_members (w w' : world) :
  TrimMultiXact w = Done tt w' →
  0 ≤ nextOffset (MultiXactState w) →
  (∀ o, 0 ≤ o < nextOffset (MultiXactState w) →
     member_slot (MultiXactMemberCtl w') o = member_slot (MultiXactMemberCtl w) o)
  ∧ (MXOffsetToFlagsOffset (nextOffset (MultiXactState w)) ≠ 0 →
     ∀ o, nextOffset (MultiXactState w) ≤ o →
       MXOffsetToMemberPage o = MXOffsetToMemberPage (nextOffset (MultiXactState w)) →
       xid (member_slot (MultiXactMemberCtl w') o) = InvalidTransactionId).
Proof.
  intros H Hnext. apply TrimMultiXact_inv in H as (_ & _ & Hm & _ & _).
  cbv zeta in Hm. revert Hnext Hm. generalize (nextOffset (MultiXactState w)).
  drop_externals. intros offset Hoff Hm. rewrite Hm. clear Hm.
  split.
  - intros o Ho. unfold member_slot.
    destruct (negb (MXOffsetToFlagsOffset offset =? 0)); [|done].
    rewrite !page_word_zero_from, !page_word_set_latest.
    rewrite !decide_False; [done| |].
    + intros [Hp He]. revert Hp He.
      unfold MXOffsetToMemberOffset, MXOffsetToFlagsOffset, MXOffsetToMemberPage.
      change MULTIXACT_MEMBERS_PER_MEMBERGROUP with 8.
      change MULTIXACT_MEMBERGROUPS_PER_PAGE with 113.
      change MULTIXACT_MEMBERGROUP_SIZE with 72.
      change MULTIXACT_FLAGBYTES_PER_GROUP with 8.
      change MULTIXACT_MEMBERS_PER_PAGE with 904.
      change sizeof_TransactionId with 8.
      intros. Z.div_mod_to_equations. lia.
    + intros [Hp He]. revert Hp He.
      unfold MXOffsetToMemberOffset, MXOffsetToFlagsOffset, MXOffsetToMemberPage.
      change MULTIXACT_MEMBERS_PER_MEMBERGROUP with 8.
      change MULTIXACT_MEMBERGROUPS_PER_PAGE with 113.
      change MULTIXACT_MEMBERGROUP_SIZE with 72.
      change MULTIXACT_FLAGBYTES_PER_GROUP with 8.
      change MULTIXACT_MEMBERS_PER_PAGE with 904.
      change sizeof_TransactionId with 8.
      intros. Z.div_mod_to_equations. lia.
  - intros Hflags o Ho Hpage. unfold member_slot. simpl.
    apply Z.eqb_neq in Hflags. rewrite Hflags. simpl.
    rewrite page_word_zero_from. rewrite decide_True; [done|].
    split; [done|]. revert Hpage.
    unfold MXOffsetToMemberOffset, MXOffsetToFlagsOffset, MXOffsetToMemberPage.
    change MULTIXACT_MEMBERS_PER_MEMBERGROUP with 8.
    change MULTIXACT_MEMBERGROUPS_PER_PAGE with 113.
    change MULTIXACT_MEMBERGROUP_SIZE with 72.
    change MULTIXACT_FLAGBYTES_PER_GROUP with 8.
    change MULTIXACT_MEMBERS_PER_PAGE with 904.
    change sizeof_TransactionId with 8.
    intros. Z.div_mod_to_equations. lia.
Qed.

(** *** Further properties: truncation *)

Lemma SlruDeleteSegment_lookup (segno p : Z) (ctl : SlruCtlData) :
  page_buffer (SlruDeleteSegment segno ctl) !! p
  = if decide (p / SLRU_PAGES_PER_SEGMENT = segno) then None else page_buffer ctl !! p.
Proof.
  drop_externals.
  unfold SlruDeleteSegment. cbn [page_buffer].
  destruct (filter (λ kv : Z * gmap Z Z, kv.1 / SLRU_PAGES_PER_SEGMENT ≠ segno)
              (page_buffer ctl) !! p) as [pg|] eqn:Hf.
  - apply map_lookup_filter_Some in Hf as [Hpg Hne]. simpl in Hne.
    by rewrite decide_False.
  - apply map_lookup_filter_None in Hf as [Hpg|Hpg].
    + rewrite Hpg. by destruct (decide _).
    + destruct (decide _) as [_|Hn]; [done|].
      destruct (page_buffer ctl !! p) as [pg|] eqn:Hp; [|done].
      exfalso. by apply (Hpg pg eq_refl).
Qed.

(** The walk from a start segment up to an end segment not below it. *)
Lemma PerformMembersTruncation_loop_range (turns : nat) (maxsegment endsegment segment p : Z)
    (ctl : SlruCtlData) :
  segment ≤ endsegment ≤ maxsegment → turns = Z.to_nat (endsegment - segment) →
  page_buffer (PerformMembersTruncation_loop turns maxsegment endsegment segment ctl) !! p
  = (if decide (segment ≤ p / SLRU_PAGES_PER_SEGMENT < endsegment) then None
     else page_buffer ctl !! p)
  ∧ latest_page_number (PerformMembersTruncation_loop turns maxsegment endsegment segment ctl)
    = latest_page_number ctl.
Proof.
  drop_externals.
  revert segment ctl. induction turns as [|turns IH]; intros segment ctl Hseg Hturns; simpl.
  - rewrite decide_False by lia. done.
  - destruct (Z.eqb_spec segment endsegment) as [->|Hne]; simpl.
    + rewrite decide_False by lia. done.
    + destruct (Z.eqb_spec segment maxsegment) as [->|Hmax]; [lia|].
      destruct (IH (segment + 1) (SlruDeleteSegment segment ctl)) as [Hl Hlatest];
        [lia|lia|].
      rewrite Hl, Hlatest, SlruDeleteSegment_lookup. split; [|done].
      destruct (decide (segment + 1 ≤ p / SLRU_PAGES_PER_SEGMENT < endsegment));
        destruct (decide (p / SLRU_PAGES_PER_SEGMENT = segment));
        destruct (decide (segment ≤ p / SLRU_PAGES_PER_SEGMENT < endsegment));
        try done; lia.
Qed.


(** X17: PerformMembersTruncation, the member offsets not having wrapped
    between the old and the new floor, deletes exactly the pages of the
    segments from the segment of the old floor up to, and not including, the
    segment of the new floor.  Every other page of the MEMBERs log, the
    OFFSETs log, the counters and the WAL are as before. *)
Theorem PerformMembersTruncation_deletes_range (oldestOffset newOldestOffset : Z) (w : world) :
  0 ≤ oldestOffset ≤ newOldestOffset → newOldestOffset ≤ MaxMultiXactOffset →
  ∃ w', PerformMembersTruncation oldestOffset newOldestOffset w = Done tt w'
        ∧ (∀ p, page_buffer (MultiXactMemberCtl w') !! p
                = if decide (MXOffsetToMemberSegment oldestOffset
                             ≤ p / SLRU_PAGES_PER_SEGMENT
                             < MXOffsetToMemberSegment newOldestOffset)
                  then None else page_buffer (MultiXactMemberCtl w) !! p)
        ∧ MultiXactOffsetCtl w' = MultiXactOffsetCtl w
        ∧ MultiXactState w' = MultiXactState w
        ∧ xlog w' = xlog w.
Proof.
  intros Hold Hmax. eexists. split; [reflexivity|].
  cbn [MultiXactMemberCtl set_MultiXactMemberCtl MultiXactOffsetCtl MultiXactState xlog].
  split; [|done]. intros p.
  assert (Hsegs : MXOffsetToMemberSegment oldestOffset ≤ MXOffsetToMemberSegment newOldestOffset
                  ≤ MXOffsetToMemberSegment MaxMultiXactOffset).
  { unfold MXOffsetToMemberSegment, MXOffsetToMemberPage.
    change MULTIXACT_MEMBERS_PER_PAGE with 904. change SLRU_PAGES_PER_SEGMENT with 32.
    split; apply Z.div_le_mono; try lia; apply Z.div_le_mono; lia. }
  assert (H0 : 0 ≤ MXOffsetToMemberSegment oldestOffset).
  { unfold MXOffsetToMemberSegment, MXOffsetToMemberPage.
    change MULTIXACT_MEMBERS_PER_PAGE with 904. change SLRU_PAGES_PER_SEGMENT with 32.
    apply Z.div_pos; [|lia]. apply Z.div_pos; lia. }
  apply PerformMembersTruncation_loop_range; [done|].
  f_equal. apply Z.mod_small. lia.
Qed.

Lemma SimpleLruTruncate_lookup (cutoffPage p : Z) (ctl : SlruCtlData) :
  page_buffer (SimpleLruTruncate cutoffPage ctl) !! p
  = if decide (cutoffPage - cutoffPage mod SLRU_PAGES_PER_SEGMENT ≤ latest_page_number ctl
               ∧ p / SLRU_PAGES_PER_SEGMENT * SLRU_PAGES_PER_SEGMENT
                 < cutoffPage - cutoffPage mod SLRU_PAGES_PER_SEGMENT)
    then None else page_buffer ctl !! p.
Proof.
  drop_externals.
  unfold SimpleLruTruncate.
  destruct (Z.ltb_spec (latest_page_number ctl)
              (cutoffPage - cutoffPage mod SLRU_PAGES_PER_SEGMENT)) as [Hlt|Hge].
  { rewrite decide_False by lia. done. }
  cbn [page_buffer].
  match goal with
  | |- filter ?P ?m !! p = _ => destruct (filter P m !! p) as [pg|] eqn:Hf
  end.
  - apply map_lookup_filter_Some in Hf as [Hpg Hne]. simpl in Hne.
    rewrite decide_False by tauto. done.
  - apply map_lookup_filter_None in Hf as [Hpg|Hpg].
    + rewrite Hpg. by destruct (decide _).
    + destruct (decide _) as [_|Hn]; [done|].
      destruct (page_buffer ctl !! p) as [pg|] eqn:Hp; [|done].
      exfalso. apply (Hpg pg eq_refl). simpl. intros Hlt. apply Hn. by split.
Qed.

(** X18: PerformOffsetsTruncation keeps what is at or above the new floor:
    the page of the id before the new floor and the pages of all ids from
    there on are as they were, and no page is added or changed.  Only the
    OFFSETs log is touched. *)
Theorem PerformOffsetsTruncation_keeps_floor (oldestMulti newOldestMulti : Z) (w : world) :
  FirstMultiXactId < newOldestMulti < 2 ^ 64 →
  ∃ w', PerformOffsetsTruncation oldestMulti newOldestMulti w = Done tt w'
        ∧ (∀ multi, newOldestMulti - 1 ≤ multi →
             page_buffer (MultiXactOffsetCtl w') !! MultiXactIdToOffsetPage multi
             = page_buffer (MultiXactOffsetCtl w) !! MultiXactIdToOffsetPage multi)
        ∧ (∀ p pg, page_buffer (MultiXactOffsetCtl w') !! p = Some pg →
                   page_buffer (MultiXactOffsetCtl w) !! p = Some pg)
        ∧ MultiXactMemberCtl w' = MultiXactMemberCtl w
        ∧ MultiXactState w' = MultiXactState w
        ∧ xlog w' = xlog w.
Proof.
  intros Hnew. eexists. split; [reflexivity|].
  cbn [MultiXactMemberCtl set_MultiXactOffsetCtl MultiXactOffsetCtl MultiXactState xlog].
  assert (Hprev : PreviousMultiXactId newOldestMulti = newOldestMulti - 1).
  { unfold PreviousMultiXactId. unfold FirstMultiXactId in *.
    destruct (Z.eqb_spec newOldestMulti 1); [lia|]. apply uint64_small. lia. }
  rewrite Hprev. clear Hprev. revert Hnew. unfold FirstMultiXactId.
  drop_externals. intros Hnew.
  split; [|split; [|done]].
  - intros multi Hmulti. rewrite SimpleLruTruncate_lookup.
    rewrite decide_False; [done|]. intros [_ Hlt]. revert Hlt.
    unfold MultiXactIdToOffsetPage. change MULTIXACT_OFFSETS_PER_PAGE with 1024.
    change SLRU_PAGES_PER_SEGMENT with 32. intros. Z.div_mod_to_equations. lia.
  - intros p pg. rewrite SimpleLruTruncate_lookup. by destruct (decide _).
Qed.

Lemma find_multixact_start_Done (multi : Z) (w : world) :
  ∃ r, find_multixact_start multi w = Done r w
       ∧ (r = None ↔ page_buffer (MultiXactOffsetCtl w) !! MultiXactIdToOffsetPage multi = None).
Proof.
  unfold find_multixact_start, bind, gets, SimpleLruDoesPhysicalPageExist, SimpleLruReadPage.
  cbn beta iota.
  destruct (page_buffer (MultiXactOffsetCtl w) !! MultiXactIdToOffsetPage multi)
    as [pg|] eqn:Hpg.
  - rewrite bool_decide_eq_true_2 by eauto. simpl. rewrite Hpg.
    eexists. split; [reflexivity|]. split; discriminate.
  - rewrite bool_decide_eq_false_2 by (intros [? ?]; discriminate). simpl.
    eexists. split; [reflexivity|]. done.
Qed.


(** *** Further properties: start-up *)

(** X20: in binary-upgrade mode MultiXactSetNextMXact makes sure the OFFSETs
    page of the next id exists, so that the first creation finds it: the
    counters are set as asked, the page is there afterwards, every page that
    existed keeps its contents, and nothing is written to the WAL or to the
    MEMBERs log. *)
Theorem MultiXactSetNextMXact_binary_upgrade (nextMulti nextMultiOffset : Z) (w : world) :
  IsBinaryUpgrade = true →
  0 ≤ MultiXactIdToOffsetPage nextMulti < 2 ^ 31 →
  ∃ w', MultiXactSetNextMXact nextMulti nextMultiOffset w = Done tt w'
        ∧ nextMXact (MultiXactState w') = nextMulti
        ∧ nextOffset (MultiXactState w') = nextMultiOffset
        ∧ is_Some (page_buffer (MultiXactOffsetCtl w') !! MultiXactIdToOffsetPage nextMulti)
        ∧ (∀ p pg, page_buffer (MultiXactOffsetCtl w) !! p = Some pg →
                   page_buffer (MultiXactOffsetCtl w') !! p = Some pg)
        ∧ MultiXactMemberCtl w' = MultiXactMemberCtl w
        ∧ xlog w' = xlog w.
Proof.
  intros Hupgrade Hpage.
  unfold MultiXactSetNextMXact. rewrite Hupgrade.
  unfold MaybeExtendOffsetSlru, bind, gets, modify, SimpleLruDoesPhysicalPageExist.
  cbn [MultiXactState set_MultiXactState nextMXact set_nextMXact set_nextOffset
       MultiXactOffsetCtl].
  destruct (page_buffer (MultiXactOffsetCtl w) !! MultiXactIdToOffsetPage nextMulti)
    as [pg0|] eqn:Hpg.
  - rewrite bool_decide_eq_true_2 by eauto. simpl.
    eexists. split; [reflexivity|]. simpl. rewrite Hpg. repeat split; eauto.
  - rewrite bool_decide_eq_false_2 by (intros [? ?]; discriminate). simpl.
    rewrite int32_small by done.
    eexists. split; [reflexivity|]. simpl. rewrite lookup_insert_eq.
    repeat split; eauto.
    intros p pg Hp. rewrite lookup_insert_ne; [done|]. intros <-. congruence.
Qed.

(** A creation that starts from an empty cache assigns the next id. *)
Lemma MultiXactIdCreateFromMembers_miss (members : list MultiXactMember)
    (w w' : world) (multi : Z) :
  MXactCache w = [] → MXactCacheMembers w = 0 →
  MultiXactIdCreateFromMembers members w = Done multi w' →
  multi = (if nextMXact (MultiXactState w) <? FirstMultiXactId then FirstMultiXactId
           else nextMXact (MultiXactState w))
  ∧ created (xlog w') = created (xlog w) ++ [(multi, nextOffset (MultiXactState w))]
  ∧ nextMXact (MultiXactState w') = uint64 (multi + 1)
  ∧ nextOffset (MultiXactState w')
    = uint64 (nextOffset (MultiXactState w) + Z.of_nat (length members))
  ∧ (∃ array, MXactCache w' = [mkEnt multi (Z.of_nat (length members)) array]
              ∧ array.*1 = qsort members)
  ∧ MXactCacheMembers w' = 1.
Proof.
  intros Hc Hn H. unfold MultiXactIdCreateFromMembers in H.
  destruct (MultiXactIdCreateFromMembers_lookup_empty members w Hc)
    as (array & Harr & Hlen & Hrun).
  rewrite Hrun in H. cbv beta iota zeta in H. rewrite Harr in H.
  change (MultiXactIdIsValid InvalidMultiXactId) with false in H. cbv iota in H.
  destruct (more_than_one_update false (qsort members)); [discriminate|].
  inv_bind H as [multi' offset] w2 Hnew.
  assert (Hrec : InRecovery w = false).
  { destruct (InRecovery w) eqn:Hr; [|done].
    unfold GetNewMultiXactId, bind, gets in Hnew. cbn [InRecovery set_uninitialised] in Hnew.
    rewrite Hr in Hnew. discriminate. }
  destruct (GetNewMultiXactId_Done (Z.of_nat (length members))
              (set_uninitialised (drop (length members) (uninitialised w)) w) Hrec)
    as (w2' & Hnew' & Hnext2 & Hoff2 & Hc2 & Hn2 & Hx2 & _).
  rewrite Hnew' in Hnew. injection Hnew as <- <- <-. through_uninitialised.
  inv_bind H as [] w3 Hlog. apply modify_Done in Hlog as ->.
  inv_bind H as [] w4 Hrecord. apply RecordNewMultiXact_frame in Hrecord
    as (Hs4 & Hc4 & Hn4 & _ & Hx4 & _ & _).
  inv_bind H as [] w5 Hend. apply modify_Done in Hend as ->.
  inv_bind H as [] w6 Hput.
  apply ret_Done in H as [-> ->].
  unfold mXactCachePut in Hput.
  cbn [MXactCacheMembers MXactCache END_CRIT_SECTION set_CritSectionCount] in Hput.
  simpl in Hc4, Hn4. rewrite Hn4, Hn2, Hn, Hc4, Hc2, Hc in Hput.
  simpl in Hput. injection Hput as <-.
  cbn [MultiXactState set_cache xlog MXactCache MXactCacheMembers END_CRIT_SECTION
       set_CritSectionCount].
  simpl in Hs4, Hx4.
  split; [done|]. split.
  { rewrite Hx4, created_app, Hx2. done. }
  split; [by rewrite Hs4|]. split; [by rewrite Hs4|]. split; [|done].
  eexists. split; [reflexivity|].
  rewrite Nat2Z.id, <- Hlen, firstn_all.
  by rewrite qsort_in_memory_fields, Harr, qsort_idempotent.
Qed.

(** X21: the start-up sequence of a new cluster.  BootStrapMultiXact
    creates the first page of both logs; with the counters then set to the
    first id and offset zero, StartupMultiXact and TrimMultiXact go through
    (TrimMultiXact reads the page bootstrap created) and mark startup
    finished; the first creation afterwards gets the first id at offset
    zero, and the id resolves to the members it was created from. *)
Theorem first_group_after_bootstrap (members : list MultiXactMember) (onlyLock : bool)
    (w : world) :
  InRecovery w = false → MXactCache w = [] → MXactCacheMembers w = 0 →
  at_most_one_update members → Z.of_nat (length members) < 2 ^ 31 →
  ∃ w1 w2 w3 w4 w5,
    BootStrapMultiXact w = Done tt w1
    ∧ MultiXactSetNextMXact FirstMultiXactId 0 w1 = Done tt w2
    ∧ StartupMultiXact w2 = Done tt w3
    ∧ TrimMultiXact w3 = Done tt w4
    ∧ finishedStartup (MultiXactState w4) = true
    ∧ MultiXactIdCreateFromMembers members w4 = Done FirstMultiXactId w5
    ∧ created (xlog w5) = created (xlog w) ++ [(FirstMultiXactId, 0)]
    ∧ GetMultiXactIdMembers FirstMultiXactId false onlyLock w5
      = Done (Z.of_nat (length members), qsort members) w5.
Proof.
  intros Hrec Hc Hn Hupd Hlen.
  assert (H2 : ∃ w2, MultiXactSetNextMXact FirstMultiXactId 0
                       (set_MultiXactMemberCtl (SimpleLruZeroPage 0)
                          (set_MultiXactOffsetCtl (SimpleLruZeroPage 0) w)) = Done tt w2
                     ∧ w2 = set_MultiXactState
                              (λ s, set_nextOffset 0 (set_nextMXact FirstMultiXactId s))
                              (set_MultiXactMemberCtl (SimpleLruZeroPage 0)
                                 (set_MultiXactOffsetCtl (SimpleLruZeroPage 0) w))).
  { unfold MultiXactSetNextMXact, bind, modify. destruct IsBinaryUpgrade; [|by eexists].
    unfold MaybeExtendOffsetSlru, bind, gets, SimpleLruDoesPhysicalPageExist.
    cbn [MultiXactState set_MultiXactState nextMXact set_nextMXact set_nextOffset
         MultiXactOffsetCtl set_MultiXactMemberCtl set_MultiXactOffsetCtl SimpleLruZeroPage
         page_buffer].
    change (MultiXactIdToOffsetPage FirstMultiXactId) with 0.
    rewrite bool_decide_eq_true_2 by (rewrite lookup_insert_eq; eauto).
    by eexists. }
  destruct H2 as (w2 & H2 & Hw2).
  destruct (TrimMultiXact_Done
              (set_MultiXactMemberCtl (set_latest_page_number 0)
                 (set_MultiXactOffsetCtl (set_latest_page_number 0) w2)))
    as (w4 & H4 & Hn4 & Hr4).
  { intros _. rewrite Hw2. simpl. rewrite lookup_insert_eq. eauto. }
  { intros Hf. rewrite Hw2 in Hf. by simpl in Hf. }
  rewrite Hw2 in Hn4, Hr4. simpl in Hn4, Hr4.
  pose proof (TrimMultiXact_inv _ _ _ H4) as (Hs4 & Ho4 & Hm4 & Hx4 & Hc4).
  cbv zeta in Hs4, Ho4, Hm4. rewrite Hw2 in Hs4, Ho4, Hm4, Hx4, Hc4.
  cbn [MultiXactState set_MultiXactState nextMXact nextOffset set_nextMXact set_nextOffset
       MultiXactOffsetCtl MultiXactMemberCtl set_MultiXactMemberCtl set_MultiXactOffsetCtl
       xlog MXactCache] in Hs4, Ho4, Hm4, Hx4, Hc4.
  rewrite Hn in Hn4. rewrite Hrec in Hr4.
  assert (Hwf4 : cache_wf w4).
  { split; [by rewrite Hn4, Hc4, Hc|rewrite Hc4, Hc; constructor]. }
  assert (Hready : create_ready (Z.of_nat (length members)) w4).
  { unfold create_ready. rewrite Hs4. simpl.
    split; [done|]. split; [unfold FirstMultiXactId; lia|]. split; [done|].
    split; [done|]. split; [done|]. split; [lia|]. split; [|done].
    revert Hlen. generalize (Z.of_nat (length members)) (Nat2Z.is_nonneg (length members)).
    drop_externals. intros n Hn0 Hlen. unfold MXOffsetToMemberPage.
    change MULTIXACT_MEMBERS_PER_PAGE with 904. Z.div_mod_to_equations. lia. }
  destruct (MultiXactIdCreateFromMembers_resolves members onlyLock w4 Hwf4 Hupd Hready)
    as (multi & w5 & Hcreate & Hresolve).
  destruct (MultiXactIdCreateFromMembers_miss members w4 w5 multi) as (Hmulti & Hlog & _);
    [by rewrite Hc4|done|done|].
  rewrite Hs4 in Hmulti, Hlog. simpl in Hmulti, Hlog. subst multi.
  subst w2. eexists _, _, _, w4, w5.
  split; [reflexivity|]. split; [exact H2|]. split; [reflexivity|]. split; [exact H4|].
  split; [by rewrite Hs4|]. split; [done|]. split; [|done].
  by rewrite Hlog, Hx4.
Qed.

(** *** Further properties: replay *)

Lemma replay_app (l1 l2 : list xl_multixact) (record_xid nextXid : Z) (w : world) :
  replay (l1 ++ l2) record_xid nextXid w
  = (let! nextXid := replay l1 record_xid nextXid in replay l2 record_xid nextXid) w.
Proof.
  revert nextXid w. induction l1 as [|r l1 IH]; intros nextXid w; simpl; [reflexivity|].
  unfold bind. destruct (multixact_redo r record_xid nextXid w) as [nx w1| |];
    [|reflexivity..].
  rewrite IH. reflexivity.
Qed.

Lemma replays_to_refl (w w' : world) :
  xlog w' = xlog w → MultiXactOffsetCtl w' = MultiXactOffsetCtl w →
  MultiXactMemberCtl w' = MultiXactMemberCtl w → replays_to [] w w'.
Proof.
  intros Hx Ho Hm. split; [by rewrite app_nil_r|].
  intros ws x nx Hso Hsm. exists ws. simpl. split; [done|]. split; [congruence|].
  split; [congruence|done].
Qed.

Lemma replays_to_trans (r1 r2 : list xl_multixact) (w1 w2 w3 : world) :
  replays_to r1 w1 w2 → replays_to r2 w2 w3 → replays_to (r1 ++ r2) w1 w3.
Proof.
  intros [Hx1 H1] [Hx2 H2]. split; [by rewrite Hx2, Hx1, app_assoc|].
  intros ws x nx Hso Hsm.
  destruct (H1 ws x nx Hso Hsm) as (ws1 & Hr1 & Ho1 & Hm1 & Hs1).
  destruct (H2 ws1 x nx Ho1 Hm1) as (ws2 & Hr2 & Ho2 & Hm2 & Hs2).
  exists ws2. rewrite replay_app, (bind_Done_intro _ _ _ _ _ Hr1).
  split; [done|]. split; [done|]. split; [done|]. congruence.
Qed.

Lemma int32_uint32 (z : Z) : int32 (uint32 z) = int32 z.
Proof.
  drop_externals. unfold int32, uint32. by rewrite Z.mod_mod by lia.
Qed.

Lemma int32_int32 (z : Z) : int32 (int32 z) = int32 z.
Proof.
  drop_externals. apply int32_signed. unfold int32.
  pose proof (Z.mod_pos_bound z (2 ^ 32) ltac:(lia)). case_ltb; lia.
Qed.

Lemma ZeroMultiXactOffsetPage_replays (pageno : Z) (w w' : world) (u : unit) :
  ZeroMultiXactOffsetPage (int32 pageno) true w = Done u w' →
  replays_to [XLOG_MULTIXACT_ZERO_OFF_PAGE (uint32 (int32 pageno))] w w'.
Proof.
  intros [= _ <-]. split; [reflexivity|].
  intros ws x nx Hso Hsm. eexists. split; [reflexivity|].
  cbn [MultiXactOffsetCtl MultiXactMemberCtl MultiXactState set_MultiXactOffsetCtl
       XLogInsert].
  rewrite int32_uint32, int32_int32, Hso, Hsm. repeat split.
Qed.

Lemma ZeroMultiXactMemberPage_replays (pageno : Z) (w w' : world) (u : unit) :
  ZeroMultiXactMemberPage (int32 pageno) true w = Done u w' →
  replays_to [XLOG_MULTIXACT_ZERO_MEM_PAGE (uint32 (int32 pageno))] w w'.
Proof.
  intros [= _ <-]. split; [reflexivity|].
  intros ws x nx Hso Hsm. eexists. split; [reflexivity|].
  cbn [MultiXactOffsetCtl MultiXactMemberCtl MultiXactState set_MultiXactMemberCtl
       XLogInsert].
  rewrite int32_uint32, int32_int32, Hso, Hsm. repeat split.
Qed.

Lemma ExtendMultiXactOffset_replays (multi : Z) (w w' : world) (u : unit) :
  ExtendMultiXactOffset multi w = Done u w' → ∃ recs, replays_to recs w w'.
Proof.
  unfold ExtendMultiXactOffset. destruct (_ && _).
  - intros H. apply ret_Done in H as [_ ->]. exists []. by apply replays_to_refl.
  - intros H. eexists. by eapply ZeroMultiXactOffsetPage_replays.
Qed.

Lemma ExtendMultiXactMember_loop_replays (turns : nat) (offset nmembers : Z)
    (w w' : world) (u : unit) :
  ExtendMultiXactMember_loop turns offset nmembers w = Done u w' →
  ∃ recs, replays_to recs w w'.
Proof.
  revert offset nmembers w.
  induction turns as [|turns IH]; intros offset nmembers w; cbn [ExtendMultiXactMember_loop].
  { intros H. apply ret_Done in H as [_ ->]. exists []. by apply replays_to_refl. }
  destruct (0 <? nmembers).
  2:{ intros H. apply ret_Done in H as [_ ->]. exists []. by apply replays_to_refl. }
  intros H. inv_bind H as [] w1 Hz.
  apply IH in H as [recs2 H2].
  destruct (_ && _).
  - eexists. eapply replays_to_trans; [|exact H2].
    by eapply ZeroMultiXactMemberPage_replays.
  - apply ret_Done in Hz as [_ ->]. by exists recs2.
Qed.

(** The structure of a returning GetNewMultiXactId. *)
Lemma GetNewMultiXactId_inv (nmembers : Z) (w w' : world) (r : Z * Z) :
  GetNewMultiXactId nmembers w = Done r w' →
  ∃ w1 w2 w3,
    r = (if nextMXact (MultiXactState w) <? FirstMultiXactId then FirstMultiXactId
         else nextMXact (MultiXactState w), nextOffset (MultiXactState w))
    ∧ MultiXactOffsetCtl w1 = MultiXactOffsetCtl w
    ∧ MultiXactMemberCtl w1 = MultiXactMemberCtl w
    ∧ xlog w1 = xlog w
    ∧ ExtendMultiXactOffset r.1 w1 = Done tt w2
    ∧ ExtendMultiXactMember r.2 nmembers w2 = Done tt w3
    ∧ MultiXactOffsetCtl w' = MultiXactOffsetCtl w3
    ∧ MultiXactMemberCtl w' = MultiXactMemberCtl w3
    ∧ xlog w' = xlog w3
    ∧ nextMXact (MultiXactState w') = uint64 (r.1 + 1)
    ∧ nextOffset (MultiXactState w') = uint64 (r.2 + nmembers).
Proof.
  intros H.
  assert (Hrec : InRecovery w = false).
  { destruct (InRecovery w) eqn:Hr; [|done].
    unfold GetNewMultiXactId, bind, gets in H. rewrite Hr in H. discriminate. }
  revert H. unfold GetNewMultiXactId, bind, gets, modify, ret. rewrite Hrec.
  destruct (nextMXact (MultiXactState w) <? FirstMultiXactId) eqn:Hwrap;
    cbn [MultiXactState set_MultiXactState nextMXact set_nextMXact multiVacLimit];
    (destruct (negb (MultiXactIdPrecedes _ _)); [destruct (IsUnderPostmaster && _)|]);
    cbn [MultiXactState set_MultiXactState SendPostmasterSignal nextMXact set_nextMXact];
    match goal with
    | |- context [ExtendMultiXactOffset ?m ?wx] =>
        destruct (ExtendMultiXactOffset_spec m wx)
          as (w3 & He3 & (Hs3 & _) & _);
        pose (w1 := wx);
        rewrite He3, Hs3
    end;
    cbn [MultiXactState set_MultiXactState nextOffset set_nextMXact];
    unfold ExtendMultiXactMember;
    match goal with
    | |- context [ExtendMultiXactMember_loop ?t ?o ?n ?wx] =>
        destruct (ExtendMultiXactMember_loop_spec t o n wx)
          as (w4 & He4 & (Hs4 & _) & _);
        rewrite He4
    end;
    intros [= <- <-]; exists w1, w3, w4; subst w1;
    cbn [fst snd MultiXactOffsetCtl MultiXactMemberCtl xlog set_MultiXactState MultiXactState
         SendPostmasterSignal START_CRIT_SECTION set_CritSectionCount nextMXact nextOffset
         set_nextMXact set_nextOffset] in *;
    rewrite ?Hwrap, ?Hs4, ?Hs3;
    cbn [fst snd MultiXactOffsetCtl MultiXactMemberCtl xlog set_MultiXactState MultiXactState
         SendPostmasterSignal START_CRIT_SECTION set_CritSectionCount nextMXact nextOffset
         set_nextMXact set_nextOffset] in *;
    repeat split; done.
Qed.

Lemma GetNewMultiXactId_replays (nmembers : Z) (w w' : world) (r : Z * Z) :
  GetNewMultiXactId nmembers w = Done r w' → ∃ recs, replays_to recs w w'.
Proof.
  intros H. apply GetNewMultiXactId_inv in H
    as (w1 & w2 & w3 & _ & Ho1 & Hm1 & Hx1 & He2 & He3 & Ho' & Hm' & Hx' & _).
  apply ExtendMultiXactOffset_replays in He2 as [r2 H2].
  apply ExtendMultiXactMember_loop_replays in He3 as [r3 H3].
  exists ([] ++ (r2 ++ r3) ++ []).
  eapply replays_to_trans; [by apply replays_to_refl|].
  eapply replays_to_trans; [|by apply replays_to_refl].
  by eapply replays_to_trans.
Qed.


(** RecordNewMultiXact_members reads and writes the MEMBERs log only: on a
    world with the same MEMBERs log it takes the same course. *)
Lemma RecordNewMultiXact_members_sim (members : list MultiXactMember)
    (multi offset prev_pageno : Z) (wp wp' ws : world) (u : unit) :
  RecordNewMultiXact_members multi offset prev_pageno members wp = Done u wp' →
  MultiXactMemberCtl ws = MultiXactMemberCtl wp →
  ∃ ws', RecordNewMultiXact_members multi offset prev_pageno members ws = Done tt ws'
         ∧ MultiXactMemberCtl ws' = MultiXactMemberCtl wp'
         ∧ MultiXactOffsetCtl ws' = MultiXactOffsetCtl ws
         ∧ MultiXactState ws' = MultiXactState ws
         ∧ xlog ws' = xlog ws.
Proof.
  revert offset prev_pageno wp ws.
  induction members as [|member members IH]; intros offset prev_pageno wp ws H Hsame.
  { simpl in H. apply ret_Done in H as [_ ->]. exists ws. by simpl. }
  pose proof (RecordNewMultiXact_members_cons _ _ _ _ _ _ _ _ H) as Hcons.
  destruct (IH (uint64 (offset + 1)) (MXOffsetToMemberPage offset)
              (set_MultiXactMemberCtl (write_member_slot offset member) wp)
              (set_MultiXactMemberCtl (write_member_slot offset member) ws) Hcons)
    as (ws' & Hs & Hm & Ho & Hst & Hx).
  { simpl. by rewrite Hsame. }
  exists ws'. split; [|by split].
  cbn [RecordNewMultiXact_members] in H |- *.
  inv_bind H as [] w1 Hread.
  assert (Hread' : (if negb (MXOffsetToMemberPage offset =? prev_pageno)
                    then SimpleLruReadPage false (MXOffsetToMemberPage offset);;; ret tt
                    else ret tt) ws = Done tt ws).
  { destruct (negb _); [|done].
    inv_bind Hread as page w2 Hpage. apply SimpleLruReadPage_Done in Hpage as [_ Hpage].
    unfold bind, SimpleLruReadPage. rewrite Hsame, Hpage. done. }
  rewrite (bind_Done_intro _ _ _ _ _ Hread'). exact Hs.
Qed.

Lemma RecordNewMultiXact_sim (multi offset nmembers : Z) (members : list MultiXactMember)
    (wp wp' ws : world) (u : unit) :
  RecordNewMultiXact multi offset nmembers members wp = Done u wp' →
  MultiXactOffsetCtl ws = MultiXactOffsetCtl wp →
  MultiXactMemberCtl ws = MultiXactMemberCtl wp →
  ∃ ws', RecordNewMultiXact multi offset nmembers members ws = Done tt ws'
         ∧ MultiXactOffsetCtl ws' = MultiXactOffsetCtl wp'
         ∧ MultiXactMemberCtl ws' = MultiXactMemberCtl wp'
         ∧ MultiXactState ws' = MultiXactState ws
         ∧ xlog ws' = xlog ws.
Proof.
  intros H Hso Hsm. unfold RecordNewMultiXact in H |- *.
  inv_bind H as page w1 Hpage. apply SimpleLruReadPage_Done in Hpage as [-> Hpage].
  inv_bind H as [] w1 Hstore. apply modify_Done in Hstore as ->.
  pose proof (RecordNewMultiXact_members_offsets _ _ _ _ _ _ _ H) as Hoff.
  destruct (RecordNewMultiXact_members_sim _ _ _ _ _ _
              (set_MultiXactOffsetCtl
                 (slru_store (MultiXactIdToOffsetPage multi) (MultiXactIdToOffsetEntry multi)
                    offset) ws) _ H)
    as (ws' & Hs & Hm & Ho & Hst & Hx); [done|].
  exists ws'. split.
  - unfold bind at 1, SimpleLruReadPage. simpl. rewrite Hso, Hpage. exact Hs.
  - split; [|done]. rewrite Ho, Hoff. simpl. by rewrite Hso.
Qed.

Lemma mXactCachePut_frame (multi n : Z) (ms : list MultiXactMemberBytes) (w w' : world)
    (u : unit) :
  mXactCachePut multi n ms w = Done u w' →
  MultiXactState w' = MultiXactState w ∧ MultiXactOffsetCtl w' = MultiXactOffsetCtl w
  ∧ MultiXactMemberCtl w' = MultiXactMemberCtl w ∧ xlog w' = xlog w.
Proof.
  unfold mXactCachePut. destruct (_ <=? _); by intros [= _ <-].
Qed.

(** X22: replay reproduces a creation.  The WAL records a creation
    appended (page-zeroing records, then the create record), replayed with
    multixact_redo on a standby whose two logs and counters are those of the
    primary before the creation, go through and leave the standby with the
    two logs and the counters of the primary after it. *)
Theorem replay_reproduces_creation (members : list MultiXactMember)
    (wp wp' ws : world) (multi record_xid nextXid : Z) :
  MXactCache wp = [] →
  MultiXactIdCreateFromMembers members wp = Done multi wp' →
  0 ≤ nextOffset (MultiXactState wp) →
  nextOffset (MultiXactState wp) + Z.of_nat (length members) < 2 ^ 64 →
  MultiXactIdPrecedes (nextMXact (MultiXactState wp)) (uint64 (multi + 1)) = true →
  MultiXactOffsetCtl ws = MultiXactOffsetCtl wp →
  MultiXactMemberCtl ws = MultiXactMemberCtl wp →
  nextMXact (MultiXactState ws) = nextMXact (MultiXactState wp) →
  nextOffset (MultiXactState ws) = nextOffset (MultiXactState wp) →
  ∃ records nextXid' ws',
    xlog wp' = xlog wp ++ records
    ∧ replay records record_xid nextXid ws = Done nextXid' ws'
    ∧ MultiXactOffsetCtl ws' = MultiXactOffsetCtl wp'
    ∧ MultiXactMemberCtl ws' = MultiXactMemberCtl wp'
    ∧ nextMXact (MultiXactState ws') = nextMXact (MultiXactState wp')
    ∧ nextOffset (MultiXactState ws') = nextOffset (MultiXactState wp').
Proof.
  intros Hc H Hoff0 Hoffn Hprec Hso Hsm Hsn Hsf.
  unfold MultiXactIdCreateFromMembers in H.
  destruct (MultiXactIdCreateFromMembers_lookup_empty members wp Hc)
    as (array & Harr & Hlen & Hrun).
  rewrite Hrun in H. cbv beta iota zeta in H. rewrite Harr in H.
  change (MultiXactIdIsValid InvalidMultiXactId) with false in H. cbv iota in H.
  destruct (more_than_one_update false (qsort members)); [discriminate|].
  inv_bind H as [multi' offset] w2 Hnew.
  destruct (GetNewMultiXactId_replays _ _ _ _ Hnew) as (recs & Hx2 & Hreplay).
  apply GetNewMultiXactId_inv in Hnew
    as (w1a & w2a & w3a & Hr & _ & _ & _ & _ & _ & _ & _ & _ & Hnext2 & Hoff2).
  injection Hr as -> ->. cbn [fst snd] in Hnext2, Hoff2. through_uninitialised.
  inv_bind H as [] w3 Hlog. apply modify_Done in Hlog as ->.
  inv_bind H as [] w4 Hrecord.
  inv_bind H as [] w5 Hend. apply modify_Done in Hend as ->.
  inv_bind H as [] w6 Hput. apply mXactCachePut_frame in Hput as (Hs6 & Ho6 & Hm6 & Hx6).
  apply ret_Done in H as [-> ->].
  destruct (RecordNewMultiXact_sim _ _ _ _ _ _ _ _ Hrecord eq_refl eq_refl)
    as (w4' & Hrec4 & _ & _ & Hs4 & Hx4).
  rewrite Hrecord in Hrec4. injection Hrec4 as <-.
  destruct (Hreplay ws record_xid nextXid Hso Hsm) as (ws2 & Hr2 & Hso2 & Hsm2 & Hss2).
  destruct (RecordNewMultiXact_sim _ _ _ _ _ _ ws2 _ Hrecord Hso2 Hsm2)
    as (ws4 & Hrec4 & Hso4 & Hsm4 & Hss4 & _).
  set (multi := if nextMXact (MultiXactState wp) <? FirstMultiXactId then FirstMultiXactId
                else nextMXact (MultiXactState wp)) in *.
  set (n := Z.of_nat (length members)) in *.
  assert (Hadv : ∃ ws5, MultiXactAdvanceNextMXact (uint64 (multi + 1))
                          (uint64 (nextOffset (MultiXactState wp) + n)) ws4 = Done tt ws5
                        ∧ MultiXactOffsetCtl ws5 = MultiXactOffsetCtl ws4
                        ∧ MultiXactMemberCtl ws5 = MultiXactMemberCtl ws4
                        ∧ nextMXact (MultiXactState ws5) = uint64 (multi + 1)
                        ∧ nextOffset (MultiXactState ws5)
                          = uint64 (nextOffset (MultiXactState wp) + n)).
  { unfold MultiXactAdvanceNextMXact, bind, gets, modify, ret.
    rewrite Hss4, Hss2, Hsn, Hprec.
    cbn [MultiXactState set_MultiXactState nextOffset set_nextMXact].
    rewrite Hss4, Hss2, Hsf.
    rewrite (uint64_small (nextOffset (MultiXactState wp) + n)) by (subst n; lia).
    destruct (Z.ltb_spec (nextOffset (MultiXactState wp)) (nextOffset (MultiXactState wp) + n)).
    - eexists. split; [reflexivity|]. by simpl.
    - eexists. split; [reflexivity|]. simpl. rewrite Hss4, Hss2. simpl.
      repeat split; try done. subst n. lia. }
  destruct Hadv as (ws5 & Hadv & Hso5 & Hsm5 & Hsn5 & Hsf5).
  set (max_xid := foldl (λ max_xid m, if TransactionIdPrecedes max_xid (xid m) then xid m
                                      else max_xid)
                    record_xid (take (Z.to_nat n) (qsort members))).
  exists (recs ++ [XLOG_MULTIXACT_CREATE_ID multi (nextOffset (MultiXactState wp)) n
                     (qsort members)]),
    (if TransactionIdFollowsOrEquals max_xid nextXid then TransactionIdAdvance max_xid
     else nextXid), ws5.
  split; [|split].
  - rewrite Hx6. simpl. rewrite Hx4. simpl. by rewrite Hx2, app_assoc.
  - rewrite replay_app, (bind_Done_intro _ _ _ _ _ Hr2).
    cbn [replay multixact_redo]. unfold bind at 1 2.
    rewrite Hrec4. unfold bind at 1. rewrite Hadv. fold max_xid.
    destruct (TransactionIdFollowsOrEquals max_xid nextXid); reflexivity.
  - rewrite Ho6, Hm6, Hs6. simpl. rewrite Hs4. simpl.
    rewrite Hso5, Hsm5, Hso4, Hsm4, Hsn5, Hsf5, Hnext2, Hoff2. done.
Qed.

(** *** Further properties: what a creation leaves alone *)

Lemma offset_entry_zero_page (pageno multi : Z) (ctl : SlruCtlData) :
  MultiXactIdToOffsetPage multi ≠ pageno →
  offset_entry (SimpleLruZeroPage pageno ctl) multi = offset_entry ctl multi.
Proof.
  intros Hne. unfold offset_entry, slru_page, SimpleLruZeroPage. cbn [page_buffer].
  by rewrite lookup_insert_ne.
Qed.

Lemma member_slot_zero_page (pageno o : Z) (ctl : SlruCtlData) :
  MXOffsetToMemberPage o ≠ pageno →
  member_slot (SimpleLruZeroPage pageno ctl) o = member_slot ctl o.
Proof.
  intros Hne. unfold member_slot, slru_page, SimpleLruZeroPage. cbn [page_buffer].
  by rewrite lookup_insert_ne.
Qed.

Lemma ExtendMultiXactOffset_keeps (multi : Z) (w w' : world) (u : unit) :
  ExtendMultiXactOffset multi w = Done u w' →
  FirstMultiXactId ≤ multi → MultiXactIdToOffsetPage multi < 2 ^ 31 →
  MultiXactMemberCtl w' = MultiXactMemberCtl w
  ∧ ∀ m, FirstMultiXactId ≤ m < multi →
         offset_entry (MultiXactOffsetCtl w') m = offset_entry (MultiXactOffsetCtl w) m.
Proof.
  drop_externals.
  unfold ExtendMultiXactOffset, FirstMultiXactId. intros H Hfirst Hpage.
  destruct (negb (MultiXactIdToOffsetEntry multi =? 0) && negb (multi =? 1)) eqn:Hskip.
  { by apply ret_Done in H as [_ ->]. }
  injection H as _ <-. split; [done|]. intros m Hm.
  cbn [MultiXactOffsetCtl XLogInsert set_MultiXactOffsetCtl].
  apply offset_entry_zero_page.
  apply andb_false_iff in Hskip.
  rewrite !negb_false_iff, !Z.eqb_eq in Hskip.
  revert Hpage Hskip. unfold MultiXactIdToOffsetPage, MultiXactIdToOffsetEntry.
  change MULTIXACT_OFFSETS_PER_PAGE with 1024. intros Hpage Hskip.
  rewrite int32_small by (Z.div_mod_to_equations; lia).
  Z.div_mod_to_equations. lia.
Qed.

Lemma ExtendMultiXactMember_loop_keeps (turns : nat) (offset nmembers : Z)
    (w w' : world) (u : unit) :
  ExtendMultiXactMember_loop turns offset nmembers w = Done u w' →
  0 ≤ offset → nmembers < 2 ^ 31 → MXOffsetToMemberPage (offset + nmembers) < 2 ^ 31 →
  MultiXactOffsetCtl w' = MultiXactOffsetCtl w
  ∧ ∀ o, 0 ≤ o < offset →
         member_slot (MultiXactMemberCtl w') o = member_slot (MultiXactMemberCtl w) o.
Proof.
  drop_externals.
  revert offset nmembers w.
  induction turns as [|turns IH]; intros offset nmembers w; cbn [ExtendMultiXactMember_loop].
  { intros H. by apply ret_Done in H as [_ ->]. }
  destruct (0 <? nmembers) eqn:Hpos.
  2:{ intros H. by apply ret_Done in H as [_ ->]. }
  apply Z.ltb_lt in Hpos. intros H Hoff Hn Hpage. inv_bind H as [] w1 Hz.
  set (difference := uint32 (MULTIXACT_MEMBERS_PER_PAGE - offset mod MULTIXACT_MEMBERS_PER_PAGE))
    in *.
  unfold MXOffsetToMemberPage in Hpage. change MULTIXACT_MEMBERS_PER_PAGE with 904 in *.
  assert (Hd : difference = 904 - offset mod 904).
  { unfold difference. apply uint32_small. Z.div_mod_to_equations. lia. }
  assert (Hnext : uint64 (offset + difference) = offset + difference).
  { apply uint64_small. rewrite Hd. Z.div_mod_to_equations. lia. }
  assert (Hrest : int32 (nmembers - difference) = nmembers - difference).
  { apply int32_signed. rewrite Hd. Z.div_mod_to_equations. lia. }
  rewrite Hnext, Hrest in H. clearbody difference. subst difference.
  pose proof (Z.mod_pos_bound offset 904 ltac:(lia)) as Hmod.
  apply IH in H as [Ho Hm]; [|lia|lia|].
  2:{ unfold MXOffsetToMemberPage. change MULTIXACT_MEMBERS_PER_PAGE with 904.
      replace (offset + (904 - offset mod 904) + (nmembers - (904 - offset mod 904)))
        with (offset + nmembers) by lia.
      done. }
  assert (H1 : MultiXactOffsetCtl w1 = MultiXactOffsetCtl w
               ∧ ∀ o, 0 ≤ o < offset →
                      member_slot (MultiXactMemberCtl w1) o = member_slot (MultiXactMemberCtl w) o).
  { destruct ((MXOffsetToFlagsOffset offset =? 0) && (MXOffsetToFlagsBitShift offset =? 0))
      eqn:Hfirst.
    - injection Hz as <-. split; [done|]. intros o Ho'.
      cbn [MultiXactMemberCtl XLogInsert set_MultiXactMemberCtl].
      apply member_slot_zero_page.
      apply first_slot_of_page in Hfirst; [|done].
      revert Hfirst. unfold MXOffsetToMemberPage. change MULTIXACT_MEMBERS_PER_PAGE with 904.
      intros Hfirst.
      rewrite int32_small by (Z.div_mod_to_equations; lia).
      Z.div_mod_to_equations. lia.
    - by apply ret_Done in Hz as [_ ->]. }
  destruct H1 as [Ho1 Hm1]. split; [congruence|].
  intros o Ho'. rewrite Hm by lia. by apply Hm1.
Qed.

(** X23: a creation leaves every group that exists as it is.  Whether it
    answers from the cache or assigns a new id, extends the logs and writes
    the new group, the starting offset recorded for every id below nextMXact
    and the xid and status of every member slot below nextOffset read after
    the call as they did before. *)
Theorem creation_keeps_existing_groups (members : list MultiXactMember)
    (w w' : world) (multi : Z) :
  cache_wf w →
  MultiXactIdCreateFromMembers members w = Done multi w' →
  create_ready (Z.of_nat (length members)) w →
  Forall (λ m, 0 ≤ status m < 256) members →
  (∀ m, FirstMultiXactId ≤ m < nextMXact (MultiXactState w) →
        offset_entry (MultiXactOffsetCtl w') m = offset_entry (MultiXactOffsetCtl w) m)
  ∧ (∀ o, 0 ≤ o < nextOffset (MultiXactState w) →
          member_slot (MultiXactMemberCtl w') o = member_slot (MultiXactMemberCtl w) o).
Proof.
  drop_externals.
  intros Hwf H (_ & Hnext & Hopage & _ & Hoff & Hn & Hmpage & _) Hstatus.
  unfold MultiXactIdCreateFromMembers in H.
  destruct (MultiXactIdCreateFromMembers_lookup members w Hwf)
    as (array & cached & c & Hmem & Harr & Hlen & _ & _ & _ & Hrun).
  rewrite Hrun in H. cbv beta iota zeta in H. rewrite Harr in H.
  destruct (MultiXactIdIsValid cached).
  { by apply ret_Done in H as [_ ->]. }
  destruct (more_than_one_update false (qsort members)); [discriminate|].
  inv_bind H as [multi' offset] w2 Hnew.
  apply GetNewMultiXactId_inv in Hnew
    as (w1a & w2a & w3a & Hr & Ho1 & Hm1 & _ & He2 & He3 & Ho2 & Hm2 & _).
  injection Hr as -> ->. cbn [fst snd] in He2, He3.
  cbn [MultiXactState set_cache set_uninitialised MultiXactOffsetCtl MultiXactMemberCtl] in *.
  set (new := if nextMXact (MultiXactState w) <? FirstMultiXactId then FirstMultiXactId
              else nextMXact (MultiXactState w)) in *.
  assert (Hnew : FirstMultiXactId ≤ new ∧ nextMXact (MultiXactState w) ≤ new).
  { subst new. unfold FirstMultiXactId. case_ltb; lia. }
  apply ExtendMultiXactOffset_keeps in He2 as [Hm2a Ho2a]; [|lia|done].
  unfold ExtendMultiXactMember in He3.
  apply ExtendMultiXactMember_loop_keeps in He3 as [Ho3a Hm3a]; [|done|lia|done].
  inv_bind H as [] w3 Hlog. apply modify_Done in Hlog as ->.
  inv_bind H as [] w4 Hrecord.
  inv_bind H as [] w5 Hend. apply modify_Done in Hend as ->.
  inv_bind H as [] w6 Hput. apply mXactCachePut_frame in Hput as (_ & Ho6 & Hm6 & _).
  apply ret_Done in H as [_ ->]. rewrite Ho6, Hm6.
  cbn [END_CRIT_SECTION set_CritSectionCount MultiXactOffsetCtl MultiXactMemberCtl].
  unfold RecordNewMultiXact in Hrecord.
  inv_bind Hrecord as page w7 Hpage. apply SimpleLruReadPage_Done in Hpage as [-> _].
  inv_bind Hrecord as [] w7 Hstore. apply modify_Done in Hstore as ->.
  rewrite take_length_eq in Hrecord by (by rewrite length_qsort).
  pose proof (RecordNewMultiXact_members_offsets _ _ _ _ _ _ _ Hrecord) as Ho4.
  apply RecordNewMultiXact_members_slots in Hrecord as (_ & _ & Hm4).
  2:{ done. }
  2:{ rewrite length_qsort. revert Hmpage. unfold MXOffsetToMemberPage.
      change MULTIXACT_MEMBERS_PER_PAGE with 904. intros. Z.div_mod_to_equations. lia. }
  2:{ by rewrite qsort_Permutation. }
  cbn [MultiXactOffsetCtl MultiXactMemberCtl set_MultiXactOffsetCtl XLogInsert] in Ho4, Hm4.
  split.
  - intros m Hm. rewrite Ho4, offset_entry_store by (unfold FirstMultiXactId in *; lia).
    rewrite decide_False by lia.
    rewrite Ho2, Ho3a, Ho2a, Ho1 by lia. done.
  - intros o Ho. rewrite Hm4 by lia.
    rewrite Hm2, Hm3a, Hm2a, Hm1 by lia. done.
Qed.

(** *** Further properties: expansion and the transaction boundary *)

(** X24: the group MultiXactIdExpand creates for a transaction that is not
    a member yet resolves to the members of the old group that are still of
    interest (in progress, or an update that committed) together with the new
    member, and to nothing else. *)
Theorem MultiXactIdExpand_then_resolve (multi new_xid new_status n : Z)
    (ms : list MultiXactMember) (onlyLock : bool) (w w1 : world) :
  cache_wf w →
  GetMultiXactIdMembers multi false false w = Done (n, ms) w1 →
  0 ≤ n → mkMember new_xid new_status ∉ ms →
  at_most_one_update (filter still_of_interest ms ++ [mkMember new_xid new_status]) →
  create_ready (Z.of_nat (length (filter still_of_interest ms ++ [mkMember new_xid new_status])))
    w1 →
  ∃ new_multi w2 count members',
    MultiXactIdExpand multi new_xid new_status w = Done new_multi w2
    ∧ GetMultiXactIdMembers new_multi false onlyLock w2 = Done (count, members') w2
    ∧ members' ≡ₚ filter still_of_interest ms ++ [mkMember new_xid new_status]
    ∧ ∀ m, m ∈ members' ↔
           (m ∈ ms ∧ still_of_interest m = true) ∨ m = mkMember new_xid new_status.
Proof.
  intros Hwf Hget Hn Hnot Hupd Hready.
  destruct (GetMultiXactIdMembers_spec multi false false w w1 n ms Hwf Hget) as (_ & Hwf1 & _).
  rewrite (MultiXactIdExpand_not_member multi new_xid new_status n ms w w1 Hwf Hget Hn Hnot).
  destruct (MultiXactIdCreateFromMembers_resolves _ onlyLock w1 Hwf1 Hupd Hready)
    as (new_multi & w2 & Hcreate & Hresolve).
  eexists new_multi, w2, _, _. split; [done|]. split; [exact Hresolve|].
  split; [apply qsort_Permutation|].
  intros m. rewrite qsort_Permutation, elem_of_app, list_elem_of_filter, list_elem_of_singleton.
  split; intros [[H1 H2]|H1]; auto; left; split; try done; by apply Is_true_true.
Qed.

Lemma AtEOXact_MultiXact_Done (w : world) :
  ∃ w', AtEOXact_MultiXact w = Done tt w'
        ∧ MXactCache w' = [] ∧ MXactCacheMembers w' = 0
        ∧ durable w' = durable w.
Proof. eexists. split; [reflexivity|]. done. Qed.

(** X25: the cache does not outlive the transaction.  A member set created
    in one transaction and created again after AtEOXact_MultiXact gets a
    second, different id: both calls assign the next id and log a create
    record of their own. *)
Theorem no_reuse_across_transactions (members : list MultiXactMember)
    (w w1 w2 w3 : world) (id1 id2 : Z) :
  MXactCache w = [] → MXactCacheMembers w = 0 →
  0 ≤ nextMXact (MultiXactState w) < 2 ^ 64 →
  MultiXactIdCreateFromMembers members w = Done id1 w1 →
  AtEOXact_MultiXact w1 = Done tt w2 →
  MultiXactIdCreateFromMembers members w2 = Done id2 w3 →
  id2 ≠ id1
  ∧ created (xlog w3)
    = created (xlog w) ++ [(id1, nextOffset (MultiXactState w));
                           (id2, nextOffset (MultiXactState w1))].
Proof.
  intros Hc Hn Hnext H1 Hend H2.
  destruct (AtEOXact_MultiXact_Done w1) as (w2' & Hend' & Hc2 & Hn2 & Hd2).
  rewrite Hend' in Hend. injection Hend as <-.
  injection Hd2 as Hnx2 Hno2 _ _ _ Hx2.
  apply MultiXactIdCreateFromMembers_miss in H1 as (Hid1 & Hlog1 & Hnext1 & _); [|done..].
  apply MultiXactIdCreateFromMembers_miss in H2 as (Hid2 & Hlog2 & _); [|done..].
  rewrite Hnx2, Hnext1 in Hid2. rewrite Hno2, Hx2, Hlog1, <- app_assoc in Hlog2.
  split; [|exact Hlog2].
  revert Hid1 Hid2 Hnext. generalize (nextMXact (MultiXactState w)).
  drop_externals. unfold FirstMultiXactId, uint64. intros next Hid1 Hid2 Hnext.
  subst id1 id2.
  repeat case_ltb; try lia;
    change (2 ^ 64) with 18446744073709551616 in *; Z.div_mod_to_equations; lia.
Qed.

(** *** Further properties: the bytes the cache compares *)

Lemma keeps_ret {A} (a : A) : keeps_uninitialised (ret a).
Proof. by intros w b w' [= _ <-]. Qed.

Lemma keeps_gets {A} (f : world → A) : keeps_uninitialised (gets f).
Proof. by intros w b w' [= _ <-]. Qed.

Lemma keeps_modify (f : world → world) :
  (∀ w, uninitialised (f w) = uninitialised w) → keeps_uninitialised (modify f).
Proof. intros Hf w b w' H. apply modify_Done in H as ->. apply Hf. Qed.

Lemma keeps_bind {A B} (m : M A) (k : A → M B) :
  keeps_uninitialised m → (∀ a, keeps_uninitialised (k a)) → keeps_uninitialised (bind m k).
Proof.
  intros Hm Hk w b w' H. inv_bind H as a w1 H1.
  rewrite (Hk _ _ _ _ H). by eapply Hm.
Qed.

Lemma keeps_SimpleLruReadPage (offsets_log : bool) (pageno : Z) :
  keeps_uninitialised (SimpleLruReadPage offsets_log pageno).
Proof. intros w page w' H. by apply SimpleLruReadPage_Done in H as [-> _]. Qed.

Ltac keeps_steps :=
  repeat first
    [ apply keeps_ret
    | apply keeps_gets
    | apply keeps_SimpleLruReadPage
    | apply keeps_modify; intros ?; reflexivity
    | apply keeps_bind; [|intros ?]
    | match goal with
      | |- keeps_uninitialised (if ?b then _ else _) => destruct b
      | |- keeps_uninitialised (let (_, _) := ?x in _) => destruct x
      end
    | by intros ? ? ? ?
    | assumption ].

Lemma keeps_ExtendMultiXactMember_loop (turns : nat) (offset nmembers : Z) :
  keeps_uninitialised (ExtendMultiXactMember_loop turns offset nmembers).
Proof.
  revert offset nmembers. induction turns as [|turns IH]; intros offset nmembers;
    cbn [ExtendMultiXactMember_loop]; [keeps_steps|].
  unfold ZeroMultiXactMemberPage, WriteMZeroPageXlogRec. keeps_steps; apply IH.
Qed.

Lemma keeps_GetNewMultiXactId (nmembers : Z) : keeps_uninitialised (GetNewMultiXactId nmembers).
Proof.
  unfold GetNewMultiXactId, ExtendMultiXactOffset, ZeroMultiXactOffsetPage,
    WriteMZeroPageXlogRec, ExtendMultiXactMember, elog_ERROR.
  keeps_steps; apply keeps_ExtendMultiXactMember_loop.
Qed.

Lemma keeps_RecordNewMultiXact_members (members : list MultiXactMember)
    (multi offset prev_pageno : Z) :
  keeps_uninitialised (RecordNewMultiXact_members multi offset prev_pageno members).
Proof.
  revert offset prev_pageno. induction members as [|member members IH];
    intros offset prev_pageno; cbn [RecordNewMultiXact_members]; keeps_steps; apply IH.
Qed.

Lemma keeps_mXactCachePut (multi nmembers : Z) (members : list MultiXactMemberBytes) :
  keeps_uninitialised (mXactCachePut multi nmembers members).
Proof. intros w u w'. unfold mXactCachePut. by destruct (_ <=? _); intros [= _ <-]. Qed.

Lemma keeps_mXactCacheGetBySet (nmembers : Z) (members : list MultiXactMemberBytes) :
  keeps_uninitialised (mXactCacheGetBySet nmembers members).
Proof.
  intros w r w'. unfold mXactCacheGetBySet.
  by destruct (dlist_search _ _) as [[[? ?] ?]|]; intros [= _ <-].
Qed.

(** A creation takes the padding of one array from the uninitialised
    memory and no more. *)
Lemma MultiXactIdCreateFromMembers_uninitialised (members : list MultiXactMember)
    (w w' : world) (multi : Z) :
  MultiXactIdCreateFromMembers members w = Done multi w' →
  uninitialised w' = drop (length members) (uninitialised w).
Proof.
  unfold MultiXactIdCreateFromMembers. unfold bind at 1. unfold uninitialised_padding.
  intros H.
  match type of H with
  | bind ?m ?k ?w0 = _ =>
      assert (Hk : keeps_uninitialised (bind m k)); [|exact (Hk _ _ _ H)]
  end.
  apply keeps_bind; [apply keeps_mXactCacheGetBySet|]. intros [array cached].
  destruct (MultiXactIdIsValid cached); [apply keeps_ret|].
  destruct (more_than_one_update false array.*1); [by intros ? ? ? ?|].
  apply keeps_bind; [apply keeps_GetNewMultiXactId|]. intros [multi' offset].
  apply keeps_bind; [by apply keeps_modify|]. intros _.
  apply keeps_bind.
  { unfold RecordNewMultiXact. apply keeps_bind; [apply keeps_SimpleLruReadPage|]. intros _.
    apply keeps_bind; [by apply keeps_modify|]. intros _.
    apply keeps_RecordNewMultiXact_members. }
  intros _. apply keeps_bind; [by apply keeps_modify|]. intros _.
  apply keeps_bind; [apply keeps_mXactCachePut|]. intros _. apply keeps_ret.
Qed.

(** An array whose padding bytes are all zero is its fields and nothing
    else, also after qsort. *)
Lemma zero_padding_fields (array : list MultiXactMemberBytes) :
  Forall (λ m, m.2 = 0) array → array = (λ m, (m, 0)) <$> array.*1.
Proof.
  induction 1 as [|[m p] array Hp _ IH]; [done|].
  simpl in Hp. subst p. csimpl. by f_equal.
Qed.

Lemma array_in_memory_zero (members : list MultiXactMember) (w : world) :
  uninitialised w = [] → Forall (λ m, m.2 = 0) (array_in_memory members w).
Proof.
  intros Hzero. unfold array_in_memory. rewrite Hzero. simpl app.
  rewrite firstn_all2 by (rewrite length_replicate; lia).
  apply Forall_forall. intros [m p] Hin.
  apply elem_of_zip_r in Hin. by apply elem_of_replicate in Hin as [-> _].
Qed.

(** What the design of the cache achieves: when the arrays of two calls
    agree in their padding bytes (here: the memory they lie in holds zero
    bytes), the second call with the same set of members, in any order,
    finds the entry of the first, returns its id and changes nothing. *)
Lemma MultiXactIdCreateFromMembers_same_bytes (members1 members2 : list MultiXactMember)
    (w w1 : world) (multi : Z) :
  cache_wf w → uninitialised w = [] →
  MultiXactIdCreateFromMembers members1 w = Done multi w1 →
  members2 ≡ₚ members1 →
  MultiXactIdCreateFromMembers members2 w1 = Done multi w1.
Proof.
  intros Hwf Hzero Hc Hperm.
  pose proof (MultiXactIdCreateFromMembers_uninitialised _ _ _ _ Hc) as Hzero1.
  rewrite Hzero, drop_nil in Hzero1.
  destruct (MultiXactIdCreateFromMembers_inv members1 w w1 multi Hwf Hc)
    as (Hvalid & Hwf1 & (array & rest & Hhead & Harr & Hmem) & _).
  assert (Harray : array = (λ m, (m, 0)) <$> qsort members1).
  { rewrite <- Harr. apply zero_padding_fields.
    rewrite Hmem. by apply array_in_memory_zero. }
  assert (Harray2 : qsort_in_memory (array_in_memory members2 w1) = array).
  { rewrite Harray, <- (qsort_order_independent _ _ Hperm).
    rewrite (zero_padding_fields (qsort_in_memory _)).
    - rewrite qsort_in_memory_fields. unfold array_in_memory.
      rewrite fst_zip; [done|].
      rewrite length_take, length_app, length_replicate. lia.
    - rewrite qsort_in_memory_Permutation. by apply array_in_memory_zero. }
  unfold MultiXactIdCreateFromMembers. unfold bind at 1. unfold uninitialised_padding.
  fold (array_in_memory members2 w1). rewrite Hzero1, drop_nil.
  assert (Hsame : set_uninitialised [] w1 = w1).
  { rewrite <- Hzero1. by destruct w1. }
  rewrite Hsame.
  assert (Hset : mXactCacheGetBySet (Z.of_nat (length members2))
                   (array_in_memory members2 w1) w1
                 = Done (array, multi) w1).
  { unfold mXactCacheGetBySet. rewrite Harray2, Hhead.
    rewrite dlist_search_head.
    - simpl app. rewrite <- Hhead. by rewrite set_cache_same.
    - simpl. rewrite (Permutation_length Hperm), Z.eqb_refl. simpl.
      unfold memcmp_eq. by apply bool_decide_eq_true. }
  rewrite (bind_Done_intro _ _ _ _ _ Hset). by rewrite Hvalid.
Qed.

(** X28: MultiXactIdCreate with its two members swapped.  In a backend
    whose stack holds zero bytes where the two member arrays lie, the call
    returns, a second call with the members swapped returns the same id
    without changing anything, and the id resolves to exactly the two
    members.  (With other bytes on the stack the second call can miss the
    cache.) *)
Theorem MultiXactIdCreate_symmetric (xid1 status1 xid2 status2 : Z) (onlyLock : bool)
    (w : world) :
  cache_wf w → uninitialised w = [] →
  at_most_one_update [mkMember xid1 status1; mkMember xid2 status2] →
  create_ready 2 w →
  ∃ multi w1 members',
    MultiXactIdCreate xid1 status1 xid2 status2 w = Done multi w1
    ∧ MultiXactIdCreate xid2 status2 xid1 status1 w1 = Done multi w1
    ∧ GetMultiXactIdMembers multi false onlyLock w1 = Done (2, members') w1
    ∧ members' ≡ₚ [mkMember xid1 status1; mkMember xid2 status2].
Proof.
  intros Hwf Hzero Hupd Hready. unfold MultiXactIdCreate.
  destruct (MultiXactIdCreateFromMembers_resolves
              [mkMember xid1 status1; mkMember xid2 status2] onlyLock w Hwf Hupd Hready)
    as (multi & w1 & Hc & Hr).
  exists multi, w1, (qsort [mkMember xid1 status1; mkMember xid2 status2]).
  split; [done|]. split; [|split; [exact Hr|apply qsort_Permutation]].
  eapply MultiXactIdCreateFromMembers_same_bytes; [exact Hwf|exact Hzero|exact Hc|].
  apply Permutation_swap.
Qed.

(** *** Further properties: replay of a truncation *)

(** What TruncateMultiXact has done when it has written a record. *)
Lemma TruncateMultiXact_truncated (newOldestMulti newOldestMultiDB : Z) (w w' : world)
    (record : xl_multixact) :
  TruncateMultiXact newOldestMulti newOldestMultiDB w = Done tt w' →
  xlog w' = xlog w ++ [record] →
  ∃ oldestOffset newOldestOffset,
    record = XLOG_MULTIXACT_TRUNCATE_ID newOldestMultiDB
               (oldestMultiXactId (MultiXactState w)) newOldestMulti
               oldestOffset newOldestOffset
    ∧ oldestMultiXactId (MultiXactState w') = newOldestMulti
    ∧ oldestMultiXactDB (MultiXactState w') = newOldestMultiDB
    ∧ MultiXactMemberCtl w'
      = PerformMembersTruncation_loop
          (Z.to_nat ((MXOffsetToMemberSegment newOldestOffset
                      - MXOffsetToMemberSegment oldestOffset)
                     mod (MXOffsetToMemberSegment MaxMultiXactOffset + 1)))
          (MXOffsetToMemberSegment MaxMultiXactOffset)
          (MXOffsetToMemberSegment newOldestOffset)
          (MXOffsetToMemberSegment oldestOffset) (MultiXactMemberCtl w)
    ∧ MultiXactOffsetCtl w'
      = SimpleLruTruncate (MultiXactIdToOffsetPage (PreviousMultiXactId newOldestMulti))
          (MultiXactOffsetCtl w).
Proof.
  intros H Hx.
  assert (Hskip : ∀ v : world, xlog v = xlog w → w' = v → False).
  { intros v Hv ->. rewrite Hv in Hx. apply (f_equal length) in Hx.
    rewrite length_app in Hx. simpl in Hx. lia. }
  unfold TruncateMultiXact in H. unfold bind at 1 2 3, gets at 1 2 3 in H.
  destruct (MultiXactIdPrecedesOrEquals newOldestMulti (oldestMultiXactId (MultiXactState w))).
  { apply ret_Done in H as [_ H]. by destruct (Hskip w). }
  unfold bind at 1, gets at 1 in H.
  destruct (MultiXactIdPrecedes (oldestMultiXactId (MultiXactState w)) _).
  { apply ret_Done in H as [_ H]. by destruct (Hskip w). }
  inv_bind H as oldestOffset w1 Hold.
  assert (w1 = w) as ->.
  { destruct (oldestMultiXactId (MultiXactState w) =? nextMXact (MultiXactState w)).
    - by apply ret_Done in Hold as [_ ->].
    - destruct (find_multixact_start_Done (oldestMultiXactId (MultiXactState w)) w)
        as (r & Hr & _). rewrite Hr in Hold. by injection Hold. }
  destruct oldestOffset as [oldestOffset|].
  2:{ apply modify_Done in H. exfalso. eapply Hskip; [|exact H]. reflexivity. }
  inv_bind H as newOldestOffset w1 Hnew.
  assert (w1 = w) as ->.
  { destruct (newOldestMulti =? nextMXact (MultiXactState w)).
    - by apply ret_Done in Hnew as [_ ->].
    - destruct (find_multixact_start_Done newOldestMulti w) as (r & Hr & _).
      rewrite Hr in Hnew. by injection Hnew. }
  destruct newOldestOffset as [newOldestOffset|].
  2:{ apply modify_Done in H. exfalso. eapply Hskip; [|exact H]. reflexivity. }
  injection H as <-. exists oldestOffset, newOldestOffset.
  cbn [xlog END_CRIT_SECTION START_CRIT_SECTION set_CritSectionCount set_delayChkpt
       set_MultiXactOffsetCtl set_MultiXactMemberCtl set_MultiXactState XLogInsert] in Hx.
  apply app_inv_head in Hx. injection Hx as <-.
  repeat split.
Qed.

(** X29: replay reproduces a truncation.  When TruncateMultiXact has
    written a truncate record and its cut of the OFFSETs log was not held
    back by the wraparound test of SimpleLruTruncate, multixact_redo of that
    record on a standby holding the same two logs deletes the same pages of
    both logs and sets the same floor and database. *)
Theorem replay_reproduces_truncation (newOldestMulti newOldestMultiDB : Z)
    (wp wp' ws : world) (record : xl_multixact) (record_xid nextXid : Z) :
  TruncateMultiXact newOldestMulti newOldestMultiDB wp = Done tt wp' →
  xlog wp' = xlog wp ++ [record] →
  FirstMultiXactId < newOldestMulti < 2 ^ 64 →
  MultiXactIdToOffsetPage (newOldestMulti - 1)
  - MultiXactIdToOffsetPage (newOldestMulti - 1) mod SLRU_PAGES_PER_SEGMENT
    ≤ latest_page_number (MultiXactOffsetCtl wp) →
  MultiXactOffsetCtl ws = MultiXactOffsetCtl wp →
  MultiXactMemberCtl ws = MultiXactMemberCtl wp →
  ∃ ws',
    multixact_redo record record_xid nextXid ws = Done nextXid ws'
    ∧ page_buffer (MultiXactOffsetCtl ws') = page_buffer (MultiXactOffsetCtl wp')
    ∧ MultiXactMemberCtl ws' = MultiXactMemberCtl wp'
    ∧ oldestMultiXactId (MultiXactState ws') = oldestMultiXactId (MultiXactState wp')
    ∧ oldestMultiXactDB (MultiXactState ws') = oldestMultiXactDB (MultiXactState wp').
Proof.
  intros H Hx Hnew Hlatest Hso Hsm.
  destruct (TruncateMultiXact_truncated _ _ _ _ _ H Hx)
    as (oldestOffset & newOldestOffset & -> & Hold & Hdb & Hm & Ho).
  eexists. split; [reflexivity|].
  cbn [MultiXactState MultiXactOffsetCtl MultiXactMemberCtl set_MultiXactState
       set_MultiXactOffsetCtl set_MultiXactMemberCtl set_multiVacLimit set_oldestMultiXact
       oldestMultiXactId oldestMultiXactDB].
  rewrite Hold, Hdb, Hm, Ho, Hso, Hsm.
  split; [|done].
  assert (Hprev : PreviousMultiXactId newOldestMulti = newOldestMulti - 1).
  { unfold PreviousMultiXactId. unfold FirstMultiXactId in *.
    destruct (Z.eqb_spec newOldestMulti 1); [lia|]. apply uint64_small. lia. }
  rewrite Hprev. clear Hprev H Hx Hold Hdb Hm Ho Hso Hsm.
  revert Hnew Hlatest. generalize (MultiXactOffsetCtl wp). unfold FirstMultiXactId.
  drop_externals. intros ctl Hnew Hlatest.
  apply map_eq. intros p. rewrite !SimpleLruTruncate_lookup.
  cbn [latest_page_number page_buffer set_latest_page_number].
  assert (Hcut : MultiXactIdToOffsetPage (newOldestMulti - 1)
                 - MultiXactIdToOffsetPage (newOldestMulti - 1) mod SLRU_PAGES_PER_SEGMENT
                 ≤ MultiXactIdToOffsetPage newOldestMulti).
  { unfold MultiXactIdToOffsetPage. change MULTIXACT_OFFSETS_PER_PAGE with 1024.
    change SLRU_PAGES_PER_SEGMENT with 32. Z.div_mod_to_equations. lia. }
  destruct (decide _) as [Ha|Ha]; destruct (decide _) as [Hb|Hb]; try done; tauto.
Qed.

(** *** Further properties: prepared transactions *)

(** X30: the state of a prepared transaction survives a restart.  The
    record AtPrepare_MultiXact registers holds the backend's valid
    OldestMemberMXactId; multixact_twophase_recover puts it into the slot of
    the prepared transaction, where (the slot being a scanned one and
    MultiXactIdPrecedes a strict order) it keeps GetOldestMultiXactId from
    returning a later id; multixact_twophase_postcommit, and postabort with
    it, clears the slot again. *)
Theorem twophase_state_survives_restart (prepared_xid : Z) (w wr : world) :
  (∀ x, MultiXactIdPrecedes x x = false) →
  (∀ x y z, MultiXactIdPrecedes x y = true → MultiXactIdPrecedes y z = true →
            MultiXactIdPrecedes x z = true) →
  MultiXactIdIsValid (slot (OldestMemberMXactId (MultiXactState w)) MyBackendId) = true →
  1 ≤ TwoPhaseGetDummyBackendId prepared_xid ≤ Z.of_nat MaxOldestSlot →
  ∃ recdata wr1 oldest wr2,
    AtPrepare_MultiXact w = Done (Some recdata) w
    ∧ recdata = slot (OldestMemberMXactId (MultiXactState w)) MyBackendId
    ∧ multixact_twophase_recover prepared_xid recdata wr = Done tt wr1
    ∧ slot (OldestMemberMXactId (MultiXactState wr1)) (TwoPhaseGetDummyBackendId prepared_xid)
      = recdata
    ∧ GetOldestMultiXactId wr1 = Done oldest wr1
    ∧ MultiXactIdPrecedes recdata oldest = false
    ∧ multixact_twophase_postcommit prepared_xid wr1 = Done tt wr2
    ∧ multixact_twophase_postabort prepared_xid wr1 = Done tt wr2
    ∧ slot (OldestMemberMXactId (MultiXactState wr2)) (TwoPhaseGetDummyBackendId prepared_xid)
      = InvalidMultiXactId.
Proof.
  intros Hirr Htrans Hvalid Hrange.
  unfold AtPrepare_MultiXact, bind, gets. rewrite Hvalid.
  eexists _, _, _, _. split; [reflexivity|]. split; [reflexivity|].
  split; [reflexivity|].
  cbn [MultiXactState set_MultiXactState OldestMemberMXactId set_OldestMemberMXactId].
  assert (Hslot : slot (<[TwoPhaseGetDummyBackendId prepared_xid :=
                            slot (OldestMemberMXactId (MultiXactState w)) MyBackendId]>
                          (OldestMemberMXactId (MultiXactState wr)))
                       (TwoPhaseGetDummyBackendId prepared_xid)
                  = slot (OldestMemberMXactId (MultiXactState w)) MyBackendId).
  { unfold slot at 1. by rewrite lookup_insert_eq. }
  split; [exact Hslot|].
  rewrite GetOldestMultiXactId_fold. split; [reflexivity|].
  cbn [MultiXactState set_MultiXactState OldestMemberMXactId OldestVisibleMXactId
       set_OldestMemberMXactId nextMXact].
  split.
  { match goal with
    | |- context [foldl _ ?init ?vals] =>
        destruct (oldest_fold vals init Hirr Htrans) as (_ & Hall & _)
    end.
    apply Hall; [|done].
    apply list_elem_of_bind. exists (Z.to_nat (TwoPhaseGetDummyBackendId prepared_xid)).
    split; [|apply elem_of_seq; lia].
    rewrite Z2Nat.id by lia. rewrite Hslot. apply elem_of_cons. by left. }
  split; [reflexivity|]. split; [reflexivity|].
  cbn [MultiXactState set_MultiXactState OldestMemberMXactId set_OldestMemberMXactId].
  unfold slot. by rewrite lookup_insert_eq.
Qed.

End MultiXact.

(** ** Sample runs *)

(** The theorem of C9 at the documented width of 8 bytes and member offset
    905, the second slot of the second page. *)
Lemma member_group_layout_witness :
  0 < 8
  ∧ AnyWidth.MULTIXACT_MEMBERGROUP_SIZE 8 ≤ BLCKSZ
  ∧ 0 ≤ 905
  ∧ AnyWidth.bytes_per_member 8 = 1 + 8
  ∧ AnyWidth.MXOffsetToMemberOffset 8 905 + 8
    ≤ AnyWidth.MXOffsetToFlagsOffset 8 905 + AnyWidth.MULTIXACT_MEMBERGROUP_SIZE 8.
Proof.
  assert (H1 : 0 < 8) by lia.
  assert (H2 : AnyWidth.MULTIXACT_MEMBERGROUP_SIZE 8 ≤ BLCKSZ) by (vm_compute; discriminate).
  assert (H3 : 0 ≤ 905) by lia.
  split; [exact H1|]. split; [exact H2|]. split; [exact H3|].
  destruct (member_group_layout 8 905 H1 H2 H3)
    as (Hb & _ & _ & _ & _ & _ & _ & _ & Hin & _).
  split; [exact Hb|exact Hin].
Defined.

(** The theorem of C10 with the floor already at the requested id. *)
Lemma TruncateMultiXact_floor_not_ahead_witness :
  sample_PrecedesOrEquals 2 (oldestMultiXactId (MultiXactState truncated_world)) = true
  ∧ TruncateMultiXact sample_Precedes sample_PrecedesOrEquals (2 ^ 64 - 1) (2 ^ 64 - 1)
      2 0 truncated_world
    = Done tt truncated_world.
Proof.
  split; [reflexivity|].
  apply (TruncateMultiXact_floor_not_ahead sample_Precedes sample_PrecedesOrEquals).
  reflexivity.
Defined.

(** Discharges [create_ready] and [cache_wf] on a closed sample state. *)
Ltac sample_ready :=
  unfold create_ready, cache_wf; simpl;
  repeat split; try done; try lia; try (by constructor);
  try (intros; vm_compute; eauto).

(** The theorem of C1 on a fresh cluster. *)
Lemma create_then_resolve_witness :
  cache_wf fresh_world
  ∧ at_most_one_update sample_ISUPDATE [mkMember 11 1; mkMember 10 5]
  ∧ create_ready 2 fresh_world
  ∧ ∃ multi w1 members' w2,
      MultiXactIdCreateFromMembers sample_Precedes sample_ISUPDATE true
        [mkMember 11 1; mkMember 10 5] fresh_world = Done multi w1
      ∧ GetMultiXactIdMembers sample_Precedes 1 4 multi false false w1
        = Done (2, members') w2
      ∧ members' ≡ₚ [mkMember 11 1; mkMember 10 5].
Proof.
  assert (H1 : cache_wf fresh_world) by sample_ready.
  assert (H2 : at_most_one_update sample_ISUPDATE [mkMember 11 1; mkMember 10 5])
    by (vm_compute; lia).
  assert (H3 : create_ready (Z.of_nat (length [mkMember 11 1; mkMember 10 5])) fresh_world)
    by sample_ready.
  split; [exact H1|]. split; [exact H2|]. split; [exact H3|].
  exact (create_then_resolve sample_Precedes sample_ISUPDATE 1 4 true
           [mkMember 11 1; mkMember 10 5] false fresh_world H1 H2 H3).
Defined.

(** C3, on the code: two calls with the same two members in one
    transaction.  The array of the first call lies in memory whose padding
    bytes are zero, the array of the second in memory that holds 32767 in
    the padding of its first element.  memcmp sees the difference: the
    second call misses the entry of the first, takes id 2 and member offset
    3, writes a second create record and a second cache entry. *)
Lemma create_twice_second_id :
  ∃ w1 w2,
    MultiXactIdCreateFromMembers sample_Precedes sample_ISUPDATE true
      [mkMember 10 1; mkMember 11 1] used_stack_world = Done 1 w1
    ∧ MultiXactIdCreateFromMembers sample_Precedes sample_ISUPDATE true
        [mkMember 10 1; mkMember 11 1] w1 = Done 2 w2
    ∧ created (xlog w2) = [(1, 1); (2, 3)]
    ∧ nextMXact (MultiXactState w2) = 3
    ∧ nextOffset (MultiXactState w2) = 5
    ∧ MXactCache w2
      = [mkEnt 2 2 [(mkMember 10 1, 32767); (mkMember 11 1, 0)];
         mkEnt 1 2 [(mkMember 10 1, 0); (mkMember 11 1, 0)]].
Proof.
  eexists _, _. split; [vm_compute; reflexivity|].
  split; [vm_compute; reflexivity|].
  repeat split; vm_compute; reflexivity.
Qed.

(** The theorem of C4: (11, 1) is a member of group 2. *)
Lemma MultiXactIdExpand_already_member_witness :
  cache_wf truncated_world
  ∧ ∃ w1,
      GetMultiXactIdMembers sample_Precedes 1 4 2 false false truncated_world
      = Done (3, [mkMember 10 1; mkMember 11 1; mkMember 12 3]) w1
      ∧ mkMember 11 1 ∈ [mkMember 10 1; mkMember 11 1; mkMember 12 3]
      ∧ MultiXactIdExpand sample_Precedes sample_ISUPDATE sample_InProgress sample_DidCommit
          1 4 true 2 11 1 truncated_world = Done 2 w1
      ∧ durable w1 = durable truncated_world.
Proof.
  assert (H1 : cache_wf truncated_world) by sample_ready.
  assert (H3 : mkMember 11 1 ∈ [mkMember 10 1; mkMember 11 1; mkMember 12 3])
    by (apply list_elem_of_In; simpl; auto).
  split; [exact H1|].
  eexists. split; [vm_compute; reflexivity|]. split; [exact H3|].
  apply (MultiXactIdExpand_already_member sample_Precedes sample_ISUPDATE
           sample_InProgress sample_DidCommit 1 4 true 2 11 1 3
           [mkMember 10 1; mkMember 11 1; mkMember 12 3] truncated_world);
    [exact H1|vm_compute; reflexivity|exact H3].
Defined.

(** The theorem of C5: group 1 of [obsolete_world] has no members. *)
Lemma MultiXactIdExpand_no_members_witness :
  cache_wf obsolete_world
  ∧ ∃ w1,
      GetMultiXactIdMembers sample_Precedes 1 4 1 false false obsolete_world
      = Done (0, []) w1
      ∧ (0 < 0 ∨ @nil MultiXactMember = [])
      ∧ create_ready 1 w1
      ∧ ∃ new w2,
          MultiXactIdExpand sample_Precedes sample_ISUPDATE sample_InProgress
            sample_DidCommit 1 4 true 1 12 3 obsolete_world = Done new w2
          ∧ GetMultiXactIdMembers sample_Precedes 1 4 new false false w2
            = Done (1, [mkMember 12 3]) w2.
Proof.
  assert (H1 : cache_wf obsolete_world) by sample_ready.
  split; [exact H1|].
  eexists. split; [vm_compute; reflexivity|].
  assert (H3 : 0 < 0 ∨ @nil MultiXactMember = []) by (by right).
  split; [exact H3|].
  match goal with |- create_ready 1 ?w ∧ _ => assert (H4 : create_ready 1 w) by sample_ready end.
  split; [exact H4|].
  match type of H4 with
  | create_ready 1 ?w1 =>
      apply (MultiXactIdExpand_no_members sample_Precedes sample_ISUPDATE sample_InProgress
               sample_DidCommit 1 4 true 1 12 3 0 [] obsolete_world w1 H1);
        [vm_compute; reflexivity|exact H3|exact H4]
  end.
Defined.

(** The theorem of C6: (12, 3) joins group 1, whose two members run. *)
Lemma MultiXactIdExpand_keeps_members_of_interest_witness :
  cache_wf truncated_world
  ∧ ∃ w1,
      GetMultiXactIdMembers sample_Precedes 1 4 1 false false truncated_world
      = Done (2, [mkMember 10 1; mkMember 11 1]) w1
      ∧ 0 ≤ 2
      ∧ (mkMember 12 3 ∉ [mkMember 10 1; mkMember 11 1])
      ∧ MultiXactIdExpand sample_Precedes sample_ISUPDATE sample_InProgress sample_DidCommit
          1 4 true 1 12 3 truncated_world
        = MultiXactIdCreateFromMembers sample_Precedes sample_ISUPDATE true
            (filter (λ m, sample_InProgress (xid m) = true
                          ∨ (sample_ISUPDATE (status m) = true
                             ∧ sample_DidCommit (xid m) = true))
                    [mkMember 10 1; mkMember 11 1]
             ++ [mkMember 12 3]) w1.
Proof.
  assert (H1 : cache_wf truncated_world) by sample_ready.
  assert (H3 : 0 ≤ 2) by lia.
  assert (H4 : mkMember 12 3 ∉ [mkMember 10 1; mkMember 11 1]).
  { intros Hin. apply list_elem_of_In in Hin. simpl in Hin.
    destruct Hin as [H|[H|[]]]; discriminate H. }
  split; [exact H1|].
  eexists. split; [vm_compute; reflexivity|]. split; [exact H3|]. split; [exact H4|].
  apply (MultiXactIdExpand_keeps_members_of_interest sample_Precedes sample_ISUPDATE
           sample_InProgress sample_DidCommit 1 4 true 1 12 3 2
           [mkMember 10 1; mkMember 11 1] truncated_world);
    [exact H1|vm_compute; reflexivity|exact H3|exact H4].
Defined.

(** The theorem of C7: three calls, the third answered from the cache. *)
Lemma create_all_ids_and_offsets_increase_witness :
  cache_wf fresh_world
  ∧ ∃ w',
      create_all sample_Precedes sample_ISUPDATE true
        [[mkMember 10 1; mkMember 11 1]; [mkMember 10 1; mkMember 11 1; mkMember 12 3];
         [mkMember 11 1; mkMember 10 1]] fresh_world
      = Done [1; 2; 1] w'
      ∧ ∃ new, created (xlog w') = created (xlog fresh_world) ++ new
               ∧ StronglySorted Z.lt new.*1 ∧ StronglySorted Z.lt new.*2.
Proof.
  assert (H1 : cache_wf fresh_world) by sample_ready.
  split; [exact H1|].
  eexists. split; [vm_compute; reflexivity|].
  apply (create_all_ids_and_offsets_increase sample_Precedes sample_ISUPDATE true
           [[mkMember 10 1; mkMember 11 1]; [mkMember 10 1; mkMember 11 1; mkMember 12 3];
            [mkMember 11 1; mkMember 10 1]] fresh_world _ [1; 2; 1] H1).
  - vm_compute; reflexivity.
  - repeat constructor; discriminate.
  - simpl. lia.
  - simpl. lia.
  - simpl. lia.
  - simpl. lia.
Defined.

(** C2, on the code: no range check guards the resolution.  With the
    retention floor at 2 and the next id at 3, resolving id 1, which
    precedes the floor, returns the two members still on disk, and
    resolving id 3, which no creation has assigned, raises nothing either:
    it reads a zero next offset and waits in the retry loop. *)
Lemma resolve_outside_valid_range :
  sample_Precedes 1 (oldestMultiXactId (MultiXactState truncated_world)) = true
  ∧ (∃ w', GetMultiXactIdMembers sample_Precedes 1 4 1 false false truncated_world
           = Done (2, [mkMember 10 1; mkMember 11 1]) w')
  ∧ sample_Precedes 3 (nextMXact (MultiXactState truncated_world)) = false
  ∧ GetMultiXactIdMembers sample_Precedes 1 4 3 false false truncated_world = Spin.
Proof.
  split; [reflexivity|]. split; [eexists; vm_compute; reflexivity|].
  split; [reflexivity|]. vm_compute. reflexivity.
Qed.

(** C8, on the code: with nextOffset at zero the allocator hands out
    offset 0, the create record carries it, and it stays in the OFFSETs
    log as the starting offset of the new group. *)
Lemma offset_zero_is_recorded :
  ∃ w',
    MultiXactIdCreateFromMembers sample_Precedes sample_ISUPDATE true
      [mkMember 10 1] offset_zero_world = Done 1 w'
    ∧ xlog w' = [XLOG_MULTIXACT_ZERO_OFF_PAGE 0; XLOG_MULTIXACT_ZERO_MEM_PAGE 0;
                 XLOG_MULTIXACT_CREATE_ID 1 0 1 [mkMember 10 1]]
    ∧ page_word (slru_page (MultiXactOffsetCtl w') (MultiXactIdToOffsetPage 1))
        (MultiXactIdToOffsetEntry 1) = 0
    ∧ nextOffset (MultiXactState w') = 1.
Proof.
  eexists. split; [vm_compute; reflexivity|].
  split; [reflexivity|]. split; [vm_compute; reflexivity|reflexivity].
Qed.


(** *** Sample runs of the further properties *)

(** X2 on the empty cache of a fresh cluster, with an array whose padding
    bytes are not zero. *)
Lemma mXactCachePut_then_lookup_witness :
  cache_wf fresh_world
  ∧ 2 = Z.of_nat (length [(mkMember 11 1, 32767); (mkMember 10 5, 0)])
  ∧ ∃ w1, mXactCachePut 9 2 [(mkMember 11 1, 32767); (mkMember 10 5, 0)] fresh_world
          = Done tt w1
          ∧ mXactCacheGetById 9 w1 = Done (2, qsort [mkMember 11 1; mkMember 10 5]) w1
          ∧ mXactCacheGetBySet 2 [(mkMember 11 1, 32767); (mkMember 10 5, 0)] w1
            = Done (qsort_in_memory [(mkMember 11 1, 32767); (mkMember 10 5, 0)], 9) w1.
Proof.
  assert (H1 : cache_wf fresh_world) by sample_ready.
  assert (H2 : 2 = Z.of_nat (length [(mkMember 11 1, 32767); (mkMember 10 5, 0)]))
    by reflexivity.
  split; [exact H1|]. split; [exact H2|].
  exact (mXactCachePut_then_lookup 9 2 [(mkMember 11 1, 32767); (mkMember 10 5, 0)]
           fresh_world H1 H2).
Defined.

(** X3 on a fresh cluster: one creation. *)
Lemma cache_never_exceeds_capacity_witness :
  cache_wf fresh_world
  ∧ (length (MXactCache fresh_world) ≤ Z.to_nat MAX_CACHE_ENTRIES)%nat
  ∧ ∃ w', MultiXactIdCreateFromMembers sample_Precedes sample_ISUPDATE true
            [mkMember 11 1; mkMember 10 5] fresh_world = Done 1 w'
          ∧ cache_wf w'
          ∧ (length (MXactCache w') ≤ Z.to_nat MAX_CACHE_ENTRIES)%nat.
Proof.
  assert (H1 : cache_wf fresh_world) by sample_ready.
  assert (H2 : (length (MXactCache fresh_world) ≤ Z.to_nat MAX_CACHE_ENTRIES)%nat)
    by (vm_compute; lia).
  split; [exact H1|]. split; [exact H2|].
  eexists. split; [vm_compute; reflexivity|].
  apply (proj1 (cache_never_exceeds_capacity sample_Precedes sample_ISUPDATE 1 4 true
                  fresh_world H1 H2) [mkMember 11 1; mkMember 10 5] 1).
  vm_compute; reflexivity.
Defined.

(** X4 on the two groups on disk: id 2 resolved twice. *)
Lemma GetMultiXactIdMembers_repeatable_witness :
  cache_wf truncated_world
  ∧ 0 ≤ 3
  ∧ ∃ w1,
      GetMultiXactIdMembers sample_Precedes 1 4 2 false false truncated_world
      = Done (3, [mkMember 10 1; mkMember 11 1; mkMember 12 3]) w1
      ∧ ∃ ms', GetMultiXactIdMembers sample_Precedes 1 4 2 false true w1 = Done (3, ms') w1
               ∧ ms' ≡ₚ [mkMember 10 1; mkMember 11 1; mkMember 12 3].
Proof.
  assert (H1 : cache_wf truncated_world) by sample_ready.
  assert (H3 : 0 ≤ 3) by lia.
  split; [exact H1|]. split; [exact H3|].
  eexists. split; [vm_compute; reflexivity|].
  apply (GetMultiXactIdMembers_repeatable sample_Precedes 1 4 2 false true truncated_world);
    [exact H1|vm_compute; reflexivity|exact H3].
Defined.

Lemma sample_Precedes_irreflexive (x : Z) : sample_Precedes x x = false.
Proof. unfold sample_Precedes. apply Z.ltb_irrefl. Defined.

Lemma sample_Precedes_transitive (x y z : Z) :
  sample_Precedes x y = true → sample_Precedes y z = true → sample_Precedes x z = true.
Proof. unfold sample_Precedes. rewrite !Z.ltb_lt. lia. Defined.

(** X6 for backend 3 of four, with backends 1 and 2 holding ids 5 and 3. *)
Lemma MultiXactIdSetOldestVisible_is_oldest_witness :
  (∀ x, sample_Precedes x x = false)
  ∧ (∀ x y z, sample_Precedes x y = true → sample_Precedes y z = true →
              sample_Precedes x z = true)
  ∧ MultiXactIdIsValid (slot (OldestVisibleMXactId (MultiXactState horizon_world)) 3) = false
  ∧ ∃ w' visible,
      MultiXactIdSetOldestVisible sample_Precedes 3 4 horizon_world = Done tt w'
      ∧ slot (OldestVisibleMXactId (MultiXactState w')) 3 = visible
      ∧ MultiXactIdIsValid visible = true.
Proof.
  assert (H3 : MultiXactIdIsValid
                 (slot (OldestVisibleMXactId (MultiXactState horizon_world)) 3) = false)
    by reflexivity.
  split; [exact sample_Precedes_irreflexive|].
  split; [exact sample_Precedes_transitive|]. split; [exact H3|].
  destruct (MultiXactIdSetOldestVisible_is_oldest sample_Precedes 3 4 horizon_world
              sample_Precedes_irreflexive sample_Precedes_transitive H3)
    as (w' & visible & Hset & Hslot & Hvalid & _).
  exists w', visible. split; [exact Hset|]. split; [exact Hslot|exact Hvalid].
Defined.

(** X7 on the same state. *)
Lemma GetOldestMultiXactId_is_oldest_witness :
  (∀ x, sample_Precedes x x = false)
  ∧ (∀ x y z, sample_Precedes x y = true → sample_Precedes y z = true →
              sample_Precedes x z = true)
  ∧ ∃ oldest,
      GetOldestMultiXactId sample_Precedes 4 horizon_world = Done oldest horizon_world
      ∧ MultiXactIdIsValid oldest = true
      ∧ sample_Precedes 7 oldest = false.
Proof.
  split; [exact sample_Precedes_irreflexive|].
  split; [exact sample_Precedes_transitive|].
  destruct (GetOldestMultiXactId_is_oldest sample_Precedes 4 horizon_world
              sample_Precedes_irreflexive sample_Precedes_transitive)
    as (oldest & Hget & Hvalid & Hnext & _).
  exists oldest. split; [exact Hget|]. split; [exact Hvalid|exact Hnext].
Defined.

(** X8: backend 1 prepares; the prepared transaction gets slot 3. *)
Lemma PostPrepare_MultiXact_keeps_horizon_witness :
  (∀ x, sample_Precedes x x = false)
  ∧ (∀ x y z, sample_Precedes x y = true → sample_Precedes y z = true →
              sample_Precedes x z = true)
  ∧ MultiXactIdIsValid (slot (OldestMemberMXactId (MultiXactState horizon_world)) 1) = true
  ∧ 1 ≤ sample_DummyBackendId 50 ≤ Z.of_nat 4
  ∧ sample_DummyBackendId 50 ≠ 1
  ∧ ∃ w1 oldest,
      PostPrepare_MultiXact 1 sample_DummyBackendId 50 horizon_world = Done tt w1
      ∧ GetOldestMultiXactId sample_Precedes 4 w1 = Done oldest w1
      ∧ sample_Precedes (slot (OldestMemberMXactId (MultiXactState horizon_world)) 1) oldest
        = false.
Proof.
  assert (H3 : MultiXactIdIsValid
                 (slot (OldestMemberMXactId (MultiXactState horizon_world)) 1) = true)
    by reflexivity.
  assert (H4 : 1 ≤ sample_DummyBackendId 50 ≤ Z.of_nat 4) by (vm_compute; split; discriminate).
  assert (H5 : sample_DummyBackendId 50 ≠ 1) by discriminate.
  split; [exact sample_Precedes_irreflexive|].
  split; [exact sample_Precedes_transitive|].
  split; [exact H3|]. split; [exact H4|]. split; [exact H5|].
  destruct (PostPrepare_MultiXact_keeps_horizon sample_Precedes 1 4 sample_DummyBackendId 50
              horizon_world sample_Precedes_irreflexive sample_Precedes_transitive H3 H4 H5)
    as (w1 & oldest & Hpost & _ & _ & _ & _ & _ & Hget & Hpin).
  exists w1, oldest. split; [exact Hpost|]. split; [exact Hget|exact Hpin].
Defined.

(** X9: a standby at (1, 1) replays a record that needs (4, 9). *)
Lemma MultiXactAdvanceNextMXact_never_regresses_witness :
  sample_Precedes 4 4 = false
  ∧ ∃ w', MultiXactAdvanceNextMXact sample_Precedes 4 9 standby_world = Done tt w'
          ∧ sample_Precedes (nextMXact (MultiXactState w')) 4 = false
          ∧ nextOffset (MultiXactState w')
            = Z.max (nextOffset (MultiXactState standby_world)) 9.
Proof.
  assert (H1 : sample_Precedes 4 4 = false) by reflexivity.
  split; [exact H1|].
  destruct (MultiXactAdvanceNextMXact_never_regresses sample_Precedes 4 9 standby_world H1)
    as (w' & Hadv & Hnext & _ & Hoff & _).
  exists w'. split; [exact Hadv|]. split; [exact Hnext|exact Hoff].
Defined.

(** X10: the floor of a standby moves from 1 to 4. *)
Lemma MultiXactAdvanceOldest_only_forward_witness :
  sample_Precedes 4 4 = false
  ∧ ∃ w', MultiXactAdvanceOldest sample_Precedes 400000000 4 0 standby_world = Done tt w'
          ∧ sample_Precedes (oldestMultiXactId (MultiXactState w')) 4 = false
          ∧ nextMXact (MultiXactState w') = nextMXact (MultiXactState standby_world).
Proof.
  assert (H1 : sample_Precedes 4 4 = false) by reflexivity.
  split; [exact H1|].
  destruct (MultiXactAdvanceOldest_only_forward sample_Precedes 400000000 4 0 standby_world H1)
    as (w' & Hadv & Hfloor & _ & Hnext & _).
  exists w'. split; [exact Hadv|]. split; [exact Hfloor|exact Hnext].
Defined.

(** X11: group 1 = {10, 11}, both in progress, 11 the caller's own. *)
Lemma MultiXactIdIsRunning_iff_member_running_witness :
  cache_wf truncated_world
  ∧ ∃ w1,
      GetMultiXactIdMembers sample_Precedes 1 4 1 false false truncated_world
      = Done (2, [mkMember 10 1; mkMember 11 1]) w1
      ∧ ∃ running,
          MultiXactIdIsRunning sample_Precedes sample_InProgress 1 4 sample_IsCurrent
            1 false truncated_world = Done running w1
          ∧ (running = true ↔
             ∃ m, m ∈ [mkMember 10 1; mkMember 11 1]
                  ∧ (sample_IsCurrent (xid m) = true ∨ sample_InProgress (xid m) = true)).
Proof.
  assert (H1 : cache_wf truncated_world) by sample_ready.
  split; [exact H1|].
  eexists. split; [vm_compute; reflexivity|].
  apply (MultiXactIdIsRunning_iff_member_running sample_Precedes sample_InProgress 1 4
           sample_IsCurrent 1 false truncated_world) with (n := 2);
    [exact H1|vm_compute; reflexivity].
Defined.

(** X12: two members with an update status. *)
Lemma MultiXactIdCreateFromMembers_two_updates_witness :
  MXactCache fresh_world = []
  ∧ ¬ at_most_one_update sample_ISUPDATE [mkMember 10 4; mkMember 11 5]
  ∧ MultiXactIdCreateFromMembers sample_Precedes sample_ISUPDATE true
      [mkMember 10 4; mkMember 11 5] fresh_world
    = Raise ERROR_more_than_one_updating_member.
Proof.
  assert (H1 : MXactCache fresh_world = []) by reflexivity.
  assert (H2 : ¬ at_most_one_update sample_ISUPDATE [mkMember 10 4; mkMember 11 5])
    by (vm_compute; lia).
  split; [exact H1|]. split; [exact H2|].
  exact (MultiXactIdCreateFromMembers_two_updates sample_Precedes sample_ISUPDATE true
           [mkMember 10 4; mkMember 11 5] fresh_world H1 H2).
Defined.

(** X13 on a standby. *)
Lemma MultiXactIdCreateFromMembers_in_recovery_witness :
  MXactCache standby_world = []
  ∧ at_most_one_update sample_ISUPDATE [mkMember 10 1; mkMember 11 5]
  ∧ InRecovery standby_world = true
  ∧ MultiXactIdCreateFromMembers sample_Precedes sample_ISUPDATE true
      [mkMember 10 1; mkMember 11 5] standby_world
    = Raise ERROR_cannot_assign_during_recovery.
Proof.
  assert (H1 : MXactCache standby_world = []) by reflexivity.
  assert (H2 : at_most_one_update sample_ISUPDATE [mkMember 10 1; mkMember 11 5])
    by (vm_compute; lia).
  assert (H3 : InRecovery standby_world = true) by reflexivity.
  split; [exact H1|]. split; [exact H2|]. split; [exact H3|].
  exact (MultiXactIdCreateFromMembers_in_recovery sample_Precedes sample_ISUPDATE true
           [mkMember 10 1; mkMember 11 5] standby_world H1 H2 H3).
Defined.

(** X14: group 3 recorded at offset 6 behind the two groups on disk. *)
Lemma find_multixact_start_after_record_witness :
  0 ≤ 3
  ∧ ∃ w',
      RecordNewMultiXact 3 6 2 [mkMember 10 1; mkMember 12 3] truncated_world = Done tt w'
      ∧ find_multixact_start 3 w' = Done (Some 6) w'
      ∧ ∀ other, 0 ≤ other → other ≠ 3 →
          offset_entry (MultiXactOffsetCtl w') other
          = offset_entry (MultiXactOffsetCtl truncated_world) other.
Proof.
  assert (H1 : 0 ≤ 3) by lia.
  split; [exact H1|].
  eexists. split; [vm_compute; reflexivity|].
  apply (find_multixact_start_after_record 3 6 2 [mkMember 10 1; mkMember 12 3]
           truncated_world); [exact H1|vm_compute; reflexivity].
Defined.

(** X15 after a crash that left an offset for id 3 behind. *)
Lemma TrimMultiXact_offsets_witness :
  0 ≤ nextMXact (MultiXactState stale_world)
  ∧ offset_entry (MultiXactOffsetCtl stale_world) 3 = 99
  ∧ ∃ w',
      TrimMultiXact 400000000 stale_world = Done tt w'
      ∧ finishedStartup (MultiXactState w') = true
      ∧ (∀ multi, 0 ≤ multi < nextMXact (MultiXactState stale_world) →
           offset_entry (MultiXactOffsetCtl w') multi
           = offset_entry (MultiXactOffsetCtl stale_world) multi)
      ∧ offset_entry (MultiXactOffsetCtl w') 3 = 0.
Proof.
  assert (H1 : 0 ≤ nextMXact (MultiXactState stale_world)) by (simpl; lia).
  split; [exact H1|]. split; [reflexivity|].
  eexists. split; [vm_compute; reflexivity|].
  match goal with
  | |- finishedStartup (MultiXactState ?w') = true ∧ _ =>
      destruct (TrimMultiXact_offsets 400000000 stale_world w')
        as (Hfin & _ & _ & _ & Hbelow & Hzero);
        [vm_compute; reflexivity|exact H1|]
  end.
  split; [exact Hfin|]. split; [exact Hbelow|]. reflexivity.
Defined.

(** X16 after the same crash, which left an xid behind in slot 12. *)
Lemma TrimMultiXact_members_witness :
  0 ≤ nextOffset (MultiXactState stale_world)
  ∧ xid (member_slot (MultiXactMemberCtl stale_world) 12) = 77
  ∧ ∃ w',
      TrimMultiXact 400000000 stale_world = Done tt w'
      ∧ (∀ o, 0 ≤ o < nextOffset (MultiXactState stale_world) →
           member_slot (MultiXactMemberCtl w') o
           = member_slot (MultiXactMemberCtl stale_world) o)
      ∧ xid (member_slot (MultiXactMemberCtl w') 12) = InvalidTransactionId.
Proof.
  assert (H1 : 0 ≤ nextOffset (MultiXactState stale_world)) by (simpl; lia).
  split; [exact H1|]. split; [reflexivity|].
  eexists. split; [vm_compute; reflexivity|].
  match goal with
  | |- (∀ o, _ → member_slot (MultiXactMemberCtl ?w') o = _) ∧ _ =>
      destruct (TrimMultiXact_members 400000000 stale_world w')
        as (Hbelow & Hzero); [vm_compute; reflexivity|exact H1|]
  end.
  split; [exact Hbelow|]. reflexivity.
Defined.

(** X17: segments 0 and 1 of the MEMBERs log go, segment 2 stays. *)
Lemma PerformMembersTruncation_deletes_range_witness :
  0 ≤ 0 ≤ 57859
  ∧ 57859 ≤ 2 ^ 64 - 1
  ∧ ∃ w',
      PerformMembersTruncation (2 ^ 64 - 1) 0 57859 segments_world = Done tt w'
      ∧ (∀ p, page_buffer (MultiXactMemberCtl w') !! p
              = if decide (MXOffsetToMemberSegment 0 ≤ p / SLRU_PAGES_PER_SEGMENT
                           < MXOffsetToMemberSegment 57859)
                then None else page_buffer (MultiXactMemberCtl segments_world) !! p)
      ∧ MultiXactOffsetCtl w' = MultiXactOffsetCtl segments_world.
Proof.
  assert (H1 : 0 ≤ 0 ≤ 57859) by lia.
  assert (H2 : 57859 ≤ 2 ^ 64 - 1) by lia.
  split; [exact H1|]. split; [exact H2|].
  destruct (PerformMembersTruncation_deletes_range (2 ^ 64 - 1) 0 57859 segments_world H1 H2)
    as (w' & Hrun & Hpages & Hoffsets & _).
  exists w'. split; [exact Hrun|]. split; [exact Hpages|exact Hoffsets].
Defined.

(** X18: the OFFSETs log is cut in front of the segment of id 71684. *)
Lemma PerformOffsetsTruncation_keeps_floor_witness :
  FirstMultiXactId < 71685 < 2 ^ 64
  ∧ ∃ w',
      PerformOffsetsTruncation (2 ^ 64 - 1) 1 71685 segments_world = Done tt w'
      ∧ (∀ multi, 71685 - 1 ≤ multi →
           page_buffer (MultiXactOffsetCtl w') !! MultiXactIdToOffsetPage multi
           = page_buffer (MultiXactOffsetCtl segments_world) !! MultiXactIdToOffsetPage multi)
      ∧ MultiXactMemberCtl w' = MultiXactMemberCtl segments_world.
Proof.
  assert (H1 : FirstMultiXactId < 71685 < 2 ^ 64) by (unfold FirstMultiXactId; lia).
  split; [exact H1|].
  destruct (PerformOffsetsTruncation_keeps_floor (2 ^ 64 - 1) 1 71685 segments_world H1)
    as (w' & Hrun & Hkeep & _ & Hmembers & _).
  exists w'. split; [exact Hrun|]. split; [exact Hkeep|exact Hmembers].
Defined.

(** X20: pg_upgrade left the next id on a page that does not exist. *)
Lemma MultiXactSetNextMXact_binary_upgrade_witness :
  true = true
  ∧ 0 ≤ MultiXactIdToOffsetPage 5000 < 2 ^ 31
  ∧ ∃ w', MultiXactSetNextMXact true 5000 0 fresh_world = Done tt w'
          ∧ nextMXact (MultiXactState w') = 5000
          ∧ is_Some (page_buffer (MultiXactOffsetCtl w') !! MultiXactIdToOffsetPage 5000).
Proof.
  assert (H1 : true = true) by reflexivity.
  assert (H2 : 0 ≤ MultiXactIdToOffsetPage 5000 < 2 ^ 31)
    by (vm_compute; split; [discriminate|reflexivity]).
  split; [exact H1|]. split; [exact H2|].
  destruct (MultiXactSetNextMXact_binary_upgrade true 5000 0 fresh_world H1 H2)
    as (w' & Hrun & Hnext & _ & Hpage & _).
  exists w'. split; [exact Hrun|]. split; [exact Hnext|exact Hpage].
Defined.

(** X21 from a world with no page in either log. *)
Lemma first_group_after_bootstrap_witness :
  InRecovery empty_world = false
  ∧ MXactCache empty_world = []
  ∧ MXactCacheMembers empty_world = 0
  ∧ at_most_one_update sample_ISUPDATE [mkMember 11 1; mkMember 10 5]
  ∧ Z.of_nat (length [mkMember 11 1; mkMember 10 5]) < 2 ^ 31
  ∧ ∃ w4 w5,
      finishedStartup (MultiXactState w4) = true
      ∧ MultiXactIdCreateFromMembers sample_Precedes sample_ISUPDATE true
          [mkMember 11 1; mkMember 10 5] w4 = Done FirstMultiXactId w5
      ∧ GetMultiXactIdMembers sample_Precedes 1 4 FirstMultiXactId false false w5
        = Done (2, qsort [mkMember 11 1; mkMember 10 5]) w5.
Proof.
  assert (H1 : InRecovery empty_world = false) by reflexivity.
  assert (H2 : MXactCache empty_world = []) by reflexivity.
  assert (H3 : MXactCacheMembers empty_world = 0) by reflexivity.
  assert (H4 : at_most_one_update sample_ISUPDATE [mkMember 11 1; mkMember 10 5])
    by (vm_compute; lia).
  assert (H5 : Z.of_nat (length [mkMember 11 1; mkMember 10 5]) < 2 ^ 31) by (simpl; lia).
  split; [exact H1|]. split; [exact H2|]. split; [exact H3|].
  split; [exact H4|]. split; [exact H5|].
  destruct (first_group_after_bootstrap sample_Precedes sample_ISUPDATE 1 4 true false
              400000000 [mkMember 11 1; mkMember 10 5] false empty_world H1 H2 H3 H4 H5)
    as (w1 & w2 & w3 & w4 & w5 & _ & _ & _ & _ & Hfin & Hcreate & _ & Hresolve).
  exists w4, w5. split; [exact Hfin|]. split; [exact Hcreate|exact Hresolve].
Defined.

(** X22: a creation on a fresh primary, replayed on a fresh standby. *)
Lemma replay_reproduces_creation_witness :
  MXactCache fresh_world = []
  ∧ 0 ≤ nextOffset (MultiXactState fresh_world)
  ∧ nextOffset (MultiXactState fresh_world)
    + Z.of_nat (length [mkMember 11 1; mkMember 10 5]) < 2 ^ 64
  ∧ sample_Precedes (nextMXact (MultiXactState fresh_world)) (uint64 (1 + 1)) = true
  ∧ MultiXactOffsetCtl standby_world = MultiXactOffsetCtl fresh_world
  ∧ MultiXactMemberCtl standby_world = MultiXactMemberCtl fresh_world
  ∧ nextMXact (MultiXactState standby_world) = nextMXact (MultiXactState fresh_world)
  ∧ nextOffset (MultiXactState standby_world) = nextOffset (MultiXactState fresh_world)
  ∧ ∃ wp',
      MultiXactIdCreateFromMembers sample_Precedes sample_ISUPDATE true
        [mkMember 11 1; mkMember 10 5] fresh_world = Done 1 wp'
      ∧ ∃ records nextXid' ws',
          xlog wp' = xlog fresh_world ++ records
          ∧ replay sample_Precedes (2 ^ 64 - 1) (2 ^ 64 - 1) 400000000
              sample_TransactionIdPrecedes sample_TransactionIdFollowsOrEquals
              sample_TransactionIdAdvance records 10 12 standby_world
            = Done nextXid' ws'
          ∧ MultiXactOffsetCtl ws' = MultiXactOffsetCtl wp'
          ∧ MultiXactMemberCtl ws' = MultiXactMemberCtl wp'
          ∧ nextMXact (MultiXactState ws') = nextMXact (MultiXactState wp')
          ∧ nextOffset (MultiXactState ws') = nextOffset (MultiXactState wp').
Proof.
  assert (H1 : MXactCache fresh_world = []) by reflexivity.
  assert (H3 : 0 ≤ nextOffset (MultiXactState fresh_world)) by (simpl; lia).
  assert (H4 : nextOffset (MultiXactState fresh_world)
               + Z.of_nat (length [mkMember 11 1; mkMember 10 5]) < 2 ^ 64) by (simpl; lia).
  assert (H5 : sample_Precedes (nextMXact (MultiXactState fresh_world)) (uint64 (1 + 1)) = true)
    by reflexivity.
  split; [exact H1|]. split; [exact H3|]. split; [exact H4|]. split; [exact H5|].
  split; [reflexivity|]. split; [reflexivity|]. split; [reflexivity|]. split; [reflexivity|].
  eexists. split; [vm_compute; reflexivity|].
  apply (replay_reproduces_creation sample_Precedes sample_ISUPDATE (2 ^ 64 - 1) (2 ^ 64 - 1)
           true 400000000 sample_TransactionIdPrecedes sample_TransactionIdFollowsOrEquals
           sample_TransactionIdAdvance [mkMember 11 1; mkMember 10 5] fresh_world _
           standby_world 1 10 12 H1);
    [vm_compute; reflexivity|exact H3|exact H4|exact H5|reflexivity..].
Defined.

(** X23: a third group created behind the two on disk. *)
Lemma creation_keeps_existing_groups_witness :
  cache_wf truncated_world
  ∧ create_ready (Z.of_nat (length [mkMember 10 1; mkMember 12 3])) truncated_world
  ∧ Forall (λ m, 0 ≤ status m < 256) [mkMember 10 1; mkMember 12 3]
  ∧ ∃ w',
      MultiXactIdCreateFromMembers sample_Precedes sample_ISUPDATE true
        [mkMember 10 1; mkMember 12 3] truncated_world = Done 3 w'
      ∧ (∀ m, FirstMultiXactId ≤ m < nextMXact (MultiXactState truncated_world) →
           offset_entry (MultiXactOffsetCtl w') m
           = offset_entry (MultiXactOffsetCtl truncated_world) m)
      ∧ (∀ o, 0 ≤ o < nextOffset (MultiXactState truncated_world) →
           member_slot (MultiXactMemberCtl w') o
           = member_slot (MultiXactMemberCtl truncated_world) o).
Proof.
  assert (H1 : cache_wf truncated_world) by sample_ready.
  assert (H3 : create_ready (Z.of_nat (length [mkMember 10 1; mkMember 12 3])) truncated_world)
    by sample_ready.
  assert (H4 : Forall (λ m, 0 ≤ status m < 256) [mkMember 10 1; mkMember 12 3]).
  { repeat (apply Forall_cons; split; [simpl; lia|]). constructor. }
  split; [exact H1|]. split; [exact H3|]. split; [exact H4|].
  eexists. split; [vm_compute; reflexivity|].
  apply (creation_keeps_existing_groups sample_Precedes sample_ISUPDATE true
           [mkMember 10 1; mkMember 12 3] truncated_world _ 3 H1);
    [vm_compute; reflexivity|exact H3|exact H4].
Defined.

(** X24: transaction 12 joins group 1 = {10, 11}. *)
Lemma MultiXactIdExpand_then_resolve_witness :
  cache_wf truncated_world
  ∧ 0 ≤ 2
  ∧ (mkMember 12 3 ∉ [mkMember 10 1; mkMember 11 1])
  ∧ ∃ w1,
      GetMultiXactIdMembers sample_Precedes 1 4 1 false false truncated_world
      = Done (2, [mkMember 10 1; mkMember 11 1]) w1
      ∧ create_ready 3 w1
      ∧ ∃ new_multi w2 count members',
          MultiXactIdExpand sample_Precedes sample_ISUPDATE sample_InProgress sample_DidCommit
            1 4 true 1 12 3 truncated_world = Done new_multi w2
          ∧ GetMultiXactIdMembers sample_Precedes 1 4 new_multi false false w2
            = Done (count, members') w2
          ∧ members' ≡ₚ [mkMember 10 1; mkMember 11 1; mkMember 12 3].
Proof.
  assert (H1 : cache_wf truncated_world) by sample_ready.
  assert (H3 : 0 ≤ 2) by lia.
  assert (H4 : mkMember 12 3 ∉ [mkMember 10 1; mkMember 11 1]).
  { intros Hin. apply list_elem_of_In in Hin. simpl in Hin.
    destruct Hin as [H|[H|[]]]; discriminate H. }
  split; [exact H1|]. split; [exact H3|]. split; [exact H4|].
  eexists. split; [vm_compute; reflexivity|].
  match goal with
  | |- create_ready 3 ?w1 ∧ _ =>
      assert (H6 : create_ready 3 w1) by sample_ready;
      split; [exact H6|];
      destruct (MultiXactIdExpand_then_resolve sample_Precedes sample_ISUPDATE
                  sample_InProgress sample_DidCommit 1 4 true 1 12 3 2
                  [mkMember 10 1; mkMember 11 1] false truncated_world w1 H1)
        as (new_multi & w2 & count & members' & Hexpand & Hresolve & Hperm & _);
        [vm_compute; reflexivity|exact H3|exact H4|vm_compute; lia|exact H6|]
  end.
  exists new_multi, w2, count, members'.
  split; [exact Hexpand|]. split; [exact Hresolve|exact Hperm].
Defined.

(** X25: the same two members in two transactions of a fresh cluster. *)
Lemma no_reuse_across_transactions_witness :
  MXactCache fresh_world = []
  ∧ MXactCacheMembers fresh_world = 0
  ∧ 0 ≤ nextMXact (MultiXactState fresh_world) < 2 ^ 64
  ∧ ∃ w1 w2 w3,
      MultiXactIdCreateFromMembers sample_Precedes sample_ISUPDATE true
        [mkMember 11 1; mkMember 10 5] fresh_world = Done 1 w1
      ∧ AtEOXact_MultiXact 1 w1 = Done tt w2
      ∧ MultiXactIdCreateFromMembers sample_Precedes sample_ISUPDATE true
          [mkMember 11 1; mkMember 10 5] w2 = Done 2 w3
      ∧ 2 ≠ 1
      ∧ created (xlog w3)
        = created (xlog fresh_world)
          ++ [(1, nextOffset (MultiXactState fresh_world)); (2, nextOffset (MultiXactState w1))].
Proof.
  assert (H1 : MXactCache fresh_world = []) by reflexivity.
  assert (H2 : MXactCacheMembers fresh_world = 0) by reflexivity.
  assert (H3 : 0 ≤ nextMXact (MultiXactState fresh_world) < 2 ^ 64) by (simpl; lia).
  split; [exact H1|]. split; [exact H2|]. split; [exact H3|].
  eexists _, _, _. split; [vm_compute; reflexivity|]. split; [vm_compute; reflexivity|].
  split; [vm_compute; reflexivity|].
  match goal with
  | |- _ ∧ created (xlog ?w3) = _ ++ [_; (_, nextOffset (MultiXactState ?w1))] =>
      apply (no_reuse_across_transactions sample_Precedes sample_ISUPDATE 1 true
               [mkMember 11 1; mkMember 10 5] fresh_world w1
               (match AtEOXact_MultiXact 1 w1 with Done _ w => w | _ => w1 end) w3
               1 2 H1 H2 H3)
  end; vm_compute; reflexivity.
Defined.

(** X26 on a fresh cluster. *)
Lemma roundtrip_through_logs_witness :
  MXactCache fresh_world = []
  ∧ MXactCacheMembers fresh_world = 0
  ∧ at_most_one_update sample_ISUPDATE [mkMember 11 1; mkMember 10 5]
  ∧ create_ready (Z.of_nat (length [mkMember 11 1; mkMember 10 5])) fresh_world
  ∧ Forall storable [mkMember 11 1; mkMember 10 5]
  ∧ ∃ multi w1 w2 w3,
      MultiXactIdCreateFromMembers sample_Precedes sample_ISUPDATE true
        [mkMember 11 1; mkMember 10 5] fresh_world = Done multi w1
      ∧ AtEOXact_MultiXact 1 w1 = Done tt w2
      ∧ GetMultiXactIdMembers sample_Precedes 1 4 multi false false w2
        = Done (2, qsort [mkMember 11 1; mkMember 10 5]) w3.
Proof.
  assert (H1 : MXactCache fresh_world = []) by reflexivity.
  assert (H2 : MXactCacheMembers fresh_world = 0) by reflexivity.
  assert (H3 : at_most_one_update sample_ISUPDATE [mkMember 11 1; mkMember 10 5])
    by (vm_compute; lia).
  assert (H4 : create_ready (Z.of_nat (length [mkMember 11 1; mkMember 10 5])) fresh_world)
    by sample_ready.
  assert (H5 : Forall storable [mkMember 11 1; mkMember 10 5]).
  { repeat (apply Forall_cons; split; [split; [discriminate|simpl; lia]|]). constructor. }
  split; [exact H1|]. split; [exact H2|]. split; [exact H3|]. split; [exact H4|].
  split; [exact H5|].
  exact (roundtrip_through_logs sample_Precedes sample_ISUPDATE 1 4 true
           [mkMember 11 1; mkMember 10 5] fresh_world H1 H2 H3 H4 H5).
Defined.


(** X28 on a fresh cluster, whose uninitialised memory holds zero bytes. *)
Lemma MultiXactIdCreate_symmetric_witness :
  cache_wf fresh_world
  ∧ uninitialised fresh_world = []
  ∧ at_most_one_update sample_ISUPDATE [mkMember 11 1; mkMember 10 5]
  ∧ create_ready 2 fresh_world
  ∧ ∃ multi w1 members',
      MultiXactIdCreate sample_Precedes sample_ISUPDATE true 11 1 10 5 fresh_world
      = Done multi w1
      ∧ MultiXactIdCreate sample_Precedes sample_ISUPDATE true 10 5 11 1 w1 = Done multi w1
      ∧ GetMultiXactIdMembers sample_Precedes 1 4 multi false false w1 = Done (2, members') w1
      ∧ members' ≡ₚ [mkMember 11 1; mkMember 10 5].
Proof.
  assert (H1 : cache_wf fresh_world) by sample_ready.
  assert (H0 : uninitialised fresh_world = []) by reflexivity.
  assert (H2 : at_most_one_update sample_ISUPDATE [mkMember 11 1; mkMember 10 5])
    by (vm_compute; lia).
  assert (H3 : create_ready 2 fresh_world) by sample_ready.
  split; [exact H1|]. split; [exact H0|]. split; [exact H2|]. split; [exact H3|].
  exact (MultiXactIdCreate_symmetric sample_Precedes sample_ISUPDATE 1 4 true 11 1 10 5 false
           fresh_world H1 H0 H2 H3).
Defined.

(** X29: the floor moves to id 71685; segments 0 and 1 of both logs go, on
    the primary and on the standby. *)
Lemma replay_reproduces_truncation_witness :
  FirstMultiXactId < 71685 < 2 ^ 64
  ∧ MultiXactIdToOffsetPage (71685 - 1)
    - MultiXactIdToOffsetPage (71685 - 1) mod SLRU_PAGES_PER_SEGMENT
    ≤ latest_page_number (MultiXactOffsetCtl segments_world)
  ∧ ∃ wp',
      TruncateMultiXact sample_Precedes sample_PrecedesOrEquals (2 ^ 64 - 1) (2 ^ 64 - 1)
        71685 7 segments_world = Done tt wp'
      ∧ xlog wp' = xlog segments_world ++ [XLOG_MULTIXACT_TRUNCATE_ID 7 1 71685 0 57859]
      ∧ page_buffer (MultiXactMemberCtl wp') !! 40 = None
      ∧ ∃ ws',
          multixact_redo sample_Precedes (2 ^ 64 - 1) (2 ^ 64 - 1) 400000000
            sample_TransactionIdPrecedes sample_TransactionIdFollowsOrEquals
            sample_TransactionIdAdvance
            (XLOG_MULTIXACT_TRUNCATE_ID 7 1 71685 0 57859) 10 12 segments_world
          = Done 12 ws'
          ∧ page_buffer (MultiXactOffsetCtl ws') = page_buffer (MultiXactOffsetCtl wp')
          ∧ MultiXactMemberCtl ws' = MultiXactMemberCtl wp'
          ∧ oldestMultiXactId (MultiXactState ws') = oldestMultiXactId (MultiXactState wp')
          ∧ oldestMultiXactDB (MultiXactState ws') = oldestMultiXactDB (MultiXactState wp').
Proof.
  assert (H3 : FirstMultiXactId < 71685 < 2 ^ 64) by (unfold FirstMultiXactId; lia).
  assert (H4 : MultiXactIdToOffsetPage (71685 - 1)
               - MultiXactIdToOffsetPage (71685 - 1) mod SLRU_PAGES_PER_SEGMENT
               ≤ latest_page_number (MultiXactOffsetCtl segments_world))
    by (vm_compute; discriminate).
  split; [exact H3|]. split; [exact H4|].
  eexists. split; [vm_compute; reflexivity|]. split; [vm_compute; reflexivity|].
  split; [vm_compute; reflexivity|].
  apply (replay_reproduces_truncation sample_Precedes sample_PrecedesOrEquals (2 ^ 64 - 1)
           (2 ^ 64 - 1) 400000000 sample_TransactionIdPrecedes
           sample_TransactionIdFollowsOrEquals sample_TransactionIdAdvance 71685 7
           segments_world _ segments_world (XLOG_MULTIXACT_TRUNCATE_ID 7 1 71685 0 57859)
           10 12);
    [vm_compute; reflexivity|vm_compute; reflexivity|exact H3|exact H4|reflexivity..].
Defined.

(** X30: backend 1 prepares; after a restart the state file is read into
    slot 3 of a standby. *)
Lemma twophase_state_survives_restart_witness :
  (∀ x, sample_Precedes x x = false)
  ∧ (∀ x y z, sample_Precedes x y = true → sample_Precedes y z = true →
              sample_Precedes x z = true)
  ∧ MultiXactIdIsValid (slot (OldestMemberMXactId (MultiXactState horizon_world)) 1) = true
  ∧ 1 ≤ sample_DummyBackendId 50 ≤ Z.of_nat 4
  ∧ ∃ recdata wr1 oldest,
      AtPrepare_MultiXact 1 horizon_world = Done (Some recdata) horizon_world
      ∧ multixact_twophase_recover sample_DummyBackendId 50 recdata standby_world
        = Done tt wr1
      ∧ GetOldestMultiXactId sample_Precedes 4 wr1 = Done oldest wr1
      ∧ sample_Precedes recdata oldest = false.
Proof.
  assert (H3 : MultiXactIdIsValid
                 (slot (OldestMemberMXactId (MultiXactState horizon_world)) 1) = true)
    by reflexivity.
  assert (H4 : 1 ≤ sample_DummyBackendId 50 ≤ Z.of_nat 4) by (vm_compute; split; discriminate).
  split; [exact sample_Precedes_irreflexive|].
  split; [exact sample_Precedes_transitive|].
  split; [exact H3|]. split; [exact H4|].
  destruct (twophase_state_survives_restart sample_Precedes 1 4 sample_DummyBackendId 50
              horizon_world standby_world sample_Precedes_irreflexive
              sample_Precedes_transitive H3 H4)
    as (recdata & wr1 & oldest & wr2 & Hprep & _ & Hrec & _ & Hget & Hpin & _).
  exists recdata, wr1, oldest.
  split; [exact Hprep|]. split; [exact Hrec|]. split; [exact Hget|exact Hpin].
Defined.
